(** * anitya.lib.model: the data-access layer of Anitya, embedded in Rocq

    The development follows [anitya/lib/model.py].  Python values are
    modelled by the data the code handles (nullable columns are [option],
    integers are [Z], text is [string]); exceptions are the [Raise] branch of
    [result]; a SQLAlchemy [Query] is the record of the clauses the code has
    attached to it, and [Query.all]/[Query.count] give it its meaning over a
    database that is a record of tables. *)

From Stdlib Require Import ZArith List String Ascii Bool Lia Permutation Sorted.
Import ListNotations.
Local Open Scope string_scope.
Local Open Scope Z_scope.

Set Implicit Arguments.

(* ------------------------------------------------------------------------- *)
(** ** Exceptions *)
(* ------------------------------------------------------------------------- *)

(** The exceptions that cross the functions below.  [ValueError] is the one
    the module raises itself; [DataError] is the storage engine refusing a
    statement; [LookupFailure] is a plugin registry failing on a name. *)
Inductive exn : Type :=
| ValueError (msg : string)
| DataError (msg : string)
| LookupFailure (registry name : string).

Inductive result (A : Type) : Type :=
| Ok (a : A)
| Raise (e : exn).
Arguments Ok {A} a.
Arguments Raise {A} e.

Definition bind {A B : Type} (r : result A) (k : A -> result B) : result B :=
  match r with
  | Ok a => k a
  | Raise e => Raise e
  end.

Notation "x <- r ;; k" := (bind r (fun x => k))
  (at level 61, r at next level, right associativity).

(* ------------------------------------------------------------------------- *)
(** ** Python text operations used by the module *)
(* ------------------------------------------------------------------------- *)

Module Py.

(** [sub in s]. *)
Fixpoint contains (sub s : string) : bool :=
  String.prefix sub s
  || match s with
     | EmptyString => false
     | String _ s' => contains sub s'
     end.

(** [s.replace(old, new)] for a non-empty [old]: the occurrences are taken
    from the left and do not overlap.  [skip] counts the characters of an
    occurrence that are still to be dropped. *)
Fixpoint replace_from (old new : string) (skip : nat) (s : string) : string :=
  match s with
  | EmptyString => EmptyString
  | String c s' =>
      match skip with
      | S k => replace_from old new k s'
      | O =>
          if String.prefix old s
          then new ++ replace_from old new (String.length old - 1) s'
          else String c (replace_from old new O s')
      end
  end.

Definition replace (old new s : string) : string := replace_from old new O s.

(** [c in chars] *)
Fixpoint mem_char (c : ascii) (chars : string) : bool :=
  match chars with
  | EmptyString => false
  | String d r => Ascii.eqb c d || mem_char c r
  end.

(** [s.strip(chars)]: characters of [chars] removed from both ends. *)
Fixpoint lstrip (chars s : string) : string :=
  match s with
  | EmptyString => EmptyString
  | String c s' => if mem_char c chars then lstrip chars s' else s
  end.

Fixpoint rstrip (chars s : string) : string :=
  match s with
  | EmptyString => EmptyString
  | String c s' =>
      match rstrip chars s' with
      | EmptyString => if mem_char c chars then EmptyString else String c EmptyString
      | r => String c r
      end
  end.

Definition strip (chars s : string) : string := rstrip chars (lstrip chars s).

(** ASCII case folding: [lower()] and the letters of [LIKE] on SQLite, and
    those of PostgreSQL on ASCII texts (beyond them PostgreSQL follows the
    locale of the server, which is not modelled). *)
Definition lower_char (c : ascii) : ascii :=
  let n := nat_of_ascii c in
  if (Nat.leb 65 n && Nat.leb n 90)%bool then ascii_of_nat (n + 32) else c.

Fixpoint lower (s : string) : string :=
  match s with
  | EmptyString => EmptyString
  | String c s' => String (lower_char c) (lower s')
  end.

End Py.

(* ------------------------------------------------------------------------- *)
(** ** The mapped tables *)
(* ------------------------------------------------------------------------- *)

(** One record per mapped class, with the columns the operations below read.
    A nullable column is an [option]; [sa.DateTime] values are seconds. *)

Record Log : Type := {
  Log_id : Z;
  Log_user : string;
  Log_project : option string;
  Log_distro : option string;
  Log_description : string;
  Log_created_on : option Z }.

Record Distro : Type := {
  Distro_name : string }.

Record Packages : Type := {
  Packages_id : Z;
  Packages_distro : option string;
  Packages_project_id : option Z;
  Packages_package_name : option string }.

Record Project : Type := {
  Project_id : Z;
  Project_name : string;
  Project_homepage : string;
  Project_backend : option string;
  Project_ecosystem_name : option string;
  Project_version_scheme : option string;
  Project_latest_version : option string;
  Project_logs : option string }.

Record ProjectFlag : Type := {
  ProjectFlag_id : Z;
  ProjectFlag_project_id : option Z;
  ProjectFlag_reason : string;
  ProjectFlag_user : string;
  ProjectFlag_state : string;
  ProjectFlag_created_on : option Z }.

(** [__tablename__] of each class. *)
Inductive table : Type := logs | distros | packages | projects | projects_flags.

Inductive row : Type :=
| LogRow (l : Log)
| DistroRow (d : Distro)
| PackagesRow (k : Packages)
| ProjectRow (p : Project)
| ProjectFlagRow (f : ProjectFlag).

Record Database : Type := {
  db_logs : list Log;
  db_distros : list Distro;
  db_packages : list Packages;
  db_projects : list Project;
  db_projects_flags : list ProjectFlag }.

Definition table_rows (db : Database) (t : table) : list row :=
  match t with
  | logs => map LogRow (db_logs db)
  | distros => map DistroRow (db_distros db)
  | packages => map PackagesRow (db_packages db)
  | projects => map ProjectRow (db_projects db)
  | projects_flags => map ProjectFlagRow (db_projects_flags db)
  end.

Definition row_eq_dec (a b : row) : {a = b} + {a <> b}.
Proof.
  repeat decide equality; try apply Z.eq_dec; try apply string_dec.
Defined.

Definition table_eqb (a b : table) : bool :=
  match a, b with
  | logs, logs | distros, distros | packages, packages
  | projects, projects | projects_flags, projects_flags => true
  | _, _ => false
  end.

(* ------------------------------------------------------------------------- *)
(** ** SQL values, expressions and criteria *)
(* ------------------------------------------------------------------------- *)

Inductive value : Type := VNull | VInt (z : Z) | VStr (s : string).

Definition vint (o : option Z) : value :=
  match o with Some z => VInt z | None => VNull end.
Definition vstr (o : option string) : value :=
  match o with Some s => VStr s | None => VNull end.

(** The columns the module names in its queries, as [table_column]. *)
Inductive column : Type :=
| logs_user | logs_project | logs_created_on
| distros_name
| packages_distro | packages_project_id | packages_package_name
| projects_id | projects_name | projects_latest_version | projects_logs
| projects_flags_project_id | projects_flags_user | projects_flags_state
| projects_flags_created_on.

Definition column_table (c : column) : table :=
  match c with
  | logs_user | logs_project | logs_created_on => logs
  | distros_name => distros
  | packages_distro | packages_project_id | packages_package_name => packages
  | projects_id | projects_name | projects_latest_version | projects_logs => projects
  | projects_flags_project_id | projects_flags_user | projects_flags_state
  | projects_flags_created_on => projects_flags
  end.

(** The value of a column in a row of its table. *)
Definition field (c : column) (r : row) : option value :=
  match c, r with
  | logs_user, LogRow l => Some (VStr (Log_user l))
  | logs_project, LogRow l => Some (vstr (Log_project l))
  | logs_created_on, LogRow l => Some (vint (Log_created_on l))
  | distros_name, DistroRow d => Some (VStr (Distro_name d))
  | packages_distro, PackagesRow k => Some (vstr (Packages_distro k))
  | packages_project_id, PackagesRow k => Some (vint (Packages_project_id k))
  | packages_package_name, PackagesRow k => Some (vstr (Packages_package_name k))
  | projects_id, ProjectRow p => Some (VInt (Project_id p))
  | projects_name, ProjectRow p => Some (VStr (Project_name p))
  | projects_latest_version, ProjectRow p => Some (vstr (Project_latest_version p))
  | projects_logs, ProjectRow p => Some (vstr (Project_logs p))
  | projects_flags_project_id, ProjectFlagRow f => Some (vint (ProjectFlag_project_id f))
  | projects_flags_user, ProjectFlagRow f => Some (VStr (ProjectFlag_user f))
  | projects_flags_state, ProjectFlagRow f => Some (VStr (ProjectFlag_state f))
  | projects_flags_created_on, ProjectFlagRow f => Some (vint (ProjectFlag_created_on f))
  | _, _ => None
  end.

(** A row of the statement: the selected entity and the rows joined to it. *)
Definition joined : Type := (row * list row)%type.

Fixpoint lookup (c : column) (rs : list row) : value :=
  match rs with
  | [] => VNull
  | r :: rest => match field c r with Some v => v | None => lookup c rest end
  end.

Inductive sqlexpr : Type :=
| Column (c : column)
| Literal (v : value)
| Lower (e : sqlexpr).

Fixpoint eval (e : sqlexpr) (j : joined) : value :=
  match e with
  | Column c => lookup c (fst j :: snd j)
  | Literal v => v
  | Lower e' => match eval e' j with VStr s => VStr (Py.lower s) | v => v end
  end.

(** A criterion of a [filter()] call, named after the SQLAlchemy operator
    that builds it: [is_(None)], [isnot(None)], [==], [!=], [>=], [in_()],
    [like()], [ilike()], [~] and [or_()]. *)
Inductive criterion : Type :=
| Is_None (e : sqlexpr)
| IsNot_None (e : sqlexpr)
| Eq_ (a b : sqlexpr)
| Ne_ (a b : sqlexpr)
| Ge_ (a b : sqlexpr)
| In_ (a : sqlexpr) (vs : list value)
| Like (a pattern : sqlexpr)
| ILike (a pattern : sqlexpr)
| Invert (c : criterion)
| Or_ (c1 c2 : criterion).

(** [sa.or_(c, *rest)]: with a single clause it is that clause. *)
Definition or_ (c : criterion) (rest : list criterion) : criterion :=
  fold_left Or_ rest c.

(** [dialect.name] is all the module reads of a dialect.  Anitya runs on
    PostgreSQL and on SQLite; where the two engines differ the model follows
    PostgreSQL for the name ['postgresql'] and SQLite for any other. *)
Record Dialect : Type := { dialect_name : string }.

Definition postgresql : Dialect := {| dialect_name := "postgresql" |}.
Definition sqlite : Dialect := {| dialect_name := "sqlite" |}.

Definition is_postgresql (d : Dialect) : bool :=
  (dialect_name d =? "postgresql")%string.

Module Sql.

(** [LIKE]: [%] matches any run of characters, [_] any one character, and
    the character after the escape character (when the engine has one)
    stands for itself.  PostgreSQL rejects a pattern that ends in the
    escape character; the matcher answers [false] there. *)
Definition is_escape (esc : option ascii) (c : ascii) : bool :=
  match esc with Some e => Ascii.eqb c e | None => false end.

Fixpoint like_match (esc : option ascii) (pat : string) : string -> bool :=
  match pat with
  | EmptyString =>
      fun s => match s with EmptyString => true | String _ _ => false end
  | String c pat' =>
      if is_escape esc c then
        match pat' with
        | EmptyString => fun _ => false
        | String d pat'' =>
            fun s => match s with
                     | String x s' => Ascii.eqb x d && like_match esc pat'' s'
                     | EmptyString => false
                     end
        end
      else if Ascii.eqb c "%" then
        fix any (s : string) : bool :=
          like_match esc pat' s
          || match s with
             | EmptyString => false
             | String _ s' => any s'
             end
      else if Ascii.eqb c "_" then
        fun s => match s with
                 | String _ s' => like_match esc pat' s'
                 | EmptyString => false
                 end
      else
        fun s => match s with
                 | String x s' => Ascii.eqb x c && like_match esc pat' s'
                 | EmptyString => false
                 end
  end.

(** PostgreSQL escapes with a backslash by default, SQLite with nothing. *)
Definition like_escape (d : Dialect) : option ascii :=
  if is_postgresql d then Some "\"%char else None.

(** [a LIKE pattern]: case sensitive on PostgreSQL, folded on SQLite. *)
Definition like (d : Dialect) (pattern s : string) : bool :=
  if is_postgresql d
  then like_match (like_escape d) pattern s
  else like_match (like_escape d) (Py.lower pattern) (Py.lower s).

(** [a ILIKE pattern] on PostgreSQL, [lower(a) LIKE lower(pattern)] on the
    other engines. *)
Definition ilike (d : Dialect) (pattern s : string) : bool :=
  like_match (like_escape d) (Py.lower pattern) (Py.lower s).

Definition value_eqb (a b : value) : bool :=
  match a, b with
  | VInt x, VInt y => x =? y
  | VStr x, VStr y => (x =? y)%string
  | _, _ => false
  end.

(** Order of two non-null values of a column (binary collation). *)
Definition value_compare (a b : value) : comparison :=
  match a, b with
  | VInt x, VInt y => x ?= y
  | VStr x, VStr y => String.compare x y
  | VNull, VNull => Eq
  | VNull, _ => Lt
  | _, VNull => Gt
  | VInt _, VStr _ => Lt
  | VStr _, VInt _ => Gt
  end.

Definition is_null (v : value) : bool :=
  match v with VNull => true | _ => false end.

(** Three-valued logic: [None] is SQL's unknown. *)
Definition not3 (b : option bool) : option bool := option_map negb b.

Definition or3 (a b : option bool) : option bool :=
  match a, b with
  | Some true, _ | _, Some true => Some true
  | Some false, Some false => Some false
  | _, _ => None
  end.

Definition compare3 (f : value -> value -> bool) (a b : value) : option bool :=
  if is_null a || is_null b then None else Some (f a b).

Definition text3 (f : string -> string -> bool) (a pattern : value) : option bool :=
  match a, pattern with
  | VStr s, VStr p => Some (f p s)
  | _, _ => None
  end.

Fixpoint holds (d : Dialect) (c : criterion) (j : joined) : option bool :=
  match c with
  | Is_None e => Some (is_null (eval e j))
  | IsNot_None e => Some (negb (is_null (eval e j)))
  | Eq_ a b => compare3 value_eqb (eval a j) (eval b j)
  | Ne_ a b => not3 (compare3 value_eqb (eval a j) (eval b j))
  | Ge_ a b =>
      compare3 (fun x y => match value_compare x y with Lt => false | _ => true end)
               (eval a j) (eval b j)
  | In_ a vs =>
      if is_null (eval a j) then None
      else Some (existsb (value_eqb (eval a j)) vs)
  | Like a p => text3 (like d) (eval a j) (eval p j)
  | ILike a p => text3 (ilike d) (eval a j) (eval p j)
  | Invert c' => not3 (holds d c' j)
  | Or_ c1 c2 => or3 (holds d c1 j) (holds d c2 j)
  end.

(** A row is kept by [WHERE] when every criterion is true (not unknown). *)
Definition is_true (b : option bool) : bool :=
  match b with Some true => true | _ => false end.

Definition keeps (d : Dialect) (cs : list criterion) (j : joined) : bool :=
  forallb (fun c => is_true (holds d c j)) cs.

End Sql.

(* ------------------------------------------------------------------------- *)
(** ** Sessions and queries *)
(* ------------------------------------------------------------------------- *)

(** [order_by] terms: a column expression, or its [.desc()]. *)
Inductive order_term : Type :=
| Asc (e : sqlexpr)
| Desc (e : sqlexpr).

(** A session is bound to an engine and sees the stored tables. *)
Record Session : Type := {
  session_bind : Dialect;
  session_db : Database }.

(** A [Query] object: what it selects from, and the clauses attached so far.
    Every method returns a new object, as SQLAlchemy's generative methods do. *)
Inductive Query : Type :=
| mkQuery (session : Session) (from : selectable)
          (criterion : list criterion) (order_by : list order_term)
          (distinct : bool) (limit offset : option Z)
with selectable : Type :=
| Entity (cls : table)
| Union (q1 q2 : Query).

Definition q_session (q : Query) : Session :=
  match q with mkQuery s _ _ _ _ _ _ => s end.
Definition q_from (q : Query) : selectable :=
  match q with mkQuery _ f _ _ _ _ _ => f end.
Definition q_criterion (q : Query) : list criterion :=
  match q with mkQuery _ _ c _ _ _ _ => c end.
Definition q_order_by (q : Query) : list order_term :=
  match q with mkQuery _ _ _ o _ _ _ => o end.
Definition q_distinct (q : Query) : bool :=
  match q with mkQuery _ _ _ _ d _ _ => d end.
Definition q_limit (q : Query) : option Z :=
  match q with mkQuery _ _ _ _ _ l _ => l end.
Definition q_offset (q : Query) : option Z :=
  match q with mkQuery _ _ _ _ _ _ o => o end.

(** [session.query(cls)] *)
Definition query (session : Session) (cls : table) : Query :=
  mkQuery session (Entity cls) [] [] false None None.

Module Engine.

(** Tables a statement ranges over besides the selected one: those its
    criteria name (an implicit cross join). *)
Fixpoint expr_tables (e : sqlexpr) : list table :=
  match e with
  | Column c => [column_table c]
  | Literal _ => []
  | Lower e' => expr_tables e'
  end.

Fixpoint criterion_tables (c : criterion) : list table :=
  match c with
  | Is_None e | IsNot_None e => expr_tables e
  | Eq_ a b | Ne_ a b | Ge_ a b | Like a b | ILike a b =>
      expr_tables a ++ expr_tables b
  | In_ a _ => expr_tables a
  | Invert c' => criterion_tables c'
  | Or_ c1 c2 => criterion_tables c1 ++ criterion_tables c2
  end.

Fixpoint add_table (t : table) (ts : list table) : list table :=
  match ts with
  | [] => [t]
  | u :: rest => if table_eqb t u then ts else u :: add_table t rest
  end.

Definition joined_tables (cls : table) (cs : list criterion) : list table :=
  filter (fun t => negb (table_eqb t cls))
         (fold_left (fun acc t => add_table t acc)
                    (flat_map criterion_tables cs) []).

Fixpoint product (tables : list (list row)) : list (list row) :=
  match tables with
  | [] => [[]]
  | rows :: rest => flat_map (fun r => map (cons r) (product rest)) rows
  end.

Definition from_rows (db : Database) (cls : table) (cs : list criterion)
  : list joined :=
  flat_map
    (fun r => map (pair r)
                  (product (map (table_rows db) (joined_tables cls cs))))
    (table_rows db cls).

(** [DISTINCT] and [UNION]: the first occurrence of each row is kept. *)
Fixpoint unique (rows : list row) : list row :=
  match rows with
  | [] => []
  | r :: rest =>
      r :: filter (fun x => if row_eq_dec r x then false else true) (unique rest)
  end.

(** [ORDER BY]: NULL sorts above every value on PostgreSQL and below every
    value on SQLite. *)
Definition order_value (d : Dialect) (a b : value) : comparison :=
  match a, b with
  | VNull, VNull => Eq
  | VNull, _ => if is_postgresql d then Gt else Lt
  | _, VNull => if is_postgresql d then Lt else Gt
  | _, _ => Sql.value_compare a b
  end.

Definition order_term_compare (d : Dialect) (t : order_term) (a b : joined)
  : comparison :=
  match t with
  | Asc e => order_value d (eval e a) (eval e b)
  | Desc e => CompOpp (order_value d (eval e a) (eval e b))
  end.

Fixpoint order_compare (d : Dialect) (ts : list order_term) (a b : joined)
  : comparison :=
  match ts with
  | [] => Eq
  | t :: rest =>
      match order_term_compare d t a b with
      | Eq => order_compare d rest a b
      | c => c
      end
  end.

Definition order_leb (d : Dialect) (ts : list order_term) (a b : joined) : bool :=
  match order_compare d ts a b with Gt => false | _ => true end.

(** The engine is modelled as deterministic: rows that the ordering does
    not tell apart keep the order in which the tables hold them. *)
Section Sort.
Variable A : Type.
Variable leb : A -> A -> bool.

Fixpoint insert (x : A) (l : list A) : list A :=
  match l with
  | [] => [x]
  | y :: l' => if leb x y then x :: l else y :: insert x l'
  end.

Fixpoint sort (l : list A) : list A :=
  match l with
  | [] => []
  | x :: l' => insert x (sort l')
  end.
End Sort.

(** [LIMIT]/[OFFSET].  A negative value is an error on PostgreSQL; SQLite
    reads a negative limit as no limit and a negative offset as zero.  The
    engines take numbers of 64 bits; what they do beyond is not modelled. *)
Definition slice (A : Type) (d : Dialect) (limit offset : option Z) (rows : list A)
  : result (list A) :=
  let negative o := match o with Some n => n <? 0 | None => false end in
  if is_postgresql d && negative offset
  then Raise (DataError "OFFSET must not be negative")
  else if is_postgresql d && negative limit
  then Raise (DataError "LIMIT must not be negative")
  else
    let skipped :=
      match offset with
      | Some n => skipn (Z.to_nat n) rows
      | None => rows
      end in
    Ok match limit with
       | Some n => if n <? 0 then skipped else firstn (Z.to_nat n) skipped
       | None => skipped
       end.

(** The rows of the statement of a query. *)
Fixpoint fetch (q : Query) : result (list row) :=
  match q with
  | mkQuery session from criteria order distinct limit offset =>
      let d := session_bind session in
      source <-
        match from with
        | Entity cls => Ok (from_rows (session_db session) cls criteria)
        | Union q1 q2 =>
            rows1 <- fetch q1 ;;
            rows2 <- fetch q2 ;;
            Ok (map (fun r => (r, [])) (unique (rows1 ++ rows2)))
        end ;;
      let kept := filter (Sql.keeps d criteria) source in
      let ordered := sort (order_leb d order) kept in
      let selected := map fst ordered in
      slice d limit offset (if distinct then unique selected else selected)
  end.

End Engine.

(** The methods of [sqlalchemy.orm.Query] the module calls. *)
Module Query.

Definition filter (q : Query) (cs : list criterion) : Query :=
  match q with
  | mkQuery s f c o d l off => mkQuery s f (c ++ cs) o d l off
  end.

(** [order_by] of some terms: a lone [None] cancels the ordering, anything else
    is added after the terms already present. *)
Definition order_by (q : Query) (terms : list (option order_term)) : Query :=
  match q with
  | mkQuery s f c o d l off =>
      match terms with
      | [None] => mkQuery s f c [] d l off
      | _ =>
          mkQuery s f c
                  (o ++ flat_map (fun t => match t with Some x => [x] | None => [] end)
                                 terms)
                  d l off
      end
  end.

Definition distinct (q : Query) : Query :=
  match q with
  | mkQuery s f c o _ l off => mkQuery s f c o true l off
  end.

Definition limit (q : Query) (n : Z) : Query :=
  match q with
  | mkQuery s f c o d _ off => mkQuery s f c o d (Some n) off
  end.

Definition offset (q : Query) (n : Z) : Query :=
  match q with
  | mkQuery s f c o d l _ => mkQuery s f c o d l (Some n)
  end.

(** [q.union(other)]: a query over the rows of both, without repeats. *)
Definition union (q other : Query) : Query :=
  mkQuery (q_session q) (Union q other) [] [] false None None.

(** [all()]: the rows of the statement, as the engine returns them.  Where
    the statement repeats an entity, SQLAlchemy returns it once; this is not
    modelled, and concerns statements whose rows are not distinct. *)
Definition all (q : Query) : result (list row) := Engine.fetch q.

(** [count()]: the number of rows of the statement, slicing included. *)
Definition count (q : Query) : result Z :=
  rows <- Engine.fetch q ;; Ok (Z.of_nat (List.length rows)).

(** [slice(start, stop)]: the offset moves on by [start] and the limit
    becomes [stop - start], whatever it was. *)
Definition slice (q : Query) (start stop : Z) : Query :=
  match q with
  | mkQuery s f c o d _ off =>
      mkQuery s f c o d (Some (stop - start))
              (Some (match off with Some n => n | None => 0 end + start))
  end.

(** [first()]: the first row of [self[0:1]], or [None]. *)
Definition first (q : Query) : result (option row) :=
  rows <- Engine.fetch (slice q 0 1) ;; Ok (List.hd_error rows).

End Query.

(* ------------------------------------------------------------------------- *)
(** ** [Page] and [BaseQuery.paginate] *)
(* ------------------------------------------------------------------------- *)

Record Page : Type := {
  items : list row;
  page : Z;
  items_per_page : Z;
  total_items : Z }.

(** The [order_by] argument of [paginate]: [None], one criterion, or a tuple. *)
Inductive order_by_arg : Type :=
| OrderNone
| OrderOne (t : order_term)
| OrderTuple (ts : list order_term).

Module BaseQuery.

(** [if not isinstance(order_by, tuple): order_by = (order_by,)] *)
Definition as_tuple (order_by : order_by_arg) : list (option order_term) :=
  match order_by with
  | OrderTuple ts => map Some ts
  | OrderOne t => [Some t]
  | OrderNone => [None]
  end.

Definition paginate (self : Query) (page items_per_page : option Z)
           (order_by : order_by_arg) : result Page :=
  let page := match page with None => 1 | Some p => p end in
  let items_per_page :=
    match items_per_page with None => 25 | Some n => n end in
  if page <? 1 then Raise (ValueError "page must be 1 or greater.")
  else if items_per_page <? 1
  then Raise (ValueError "items_per_page must be 1 or greater.")
  else
    let order_by := as_tuple order_by in
    let q := Query.order_by self order_by in
    total_items <- Query.count q ;;
    items <- Query.all (Query.offset (Query.limit q items_per_page)
                                     (items_per_page * (page - 1))) ;;
    Ok {| items := items; page := page; total_items := total_items;
          items_per_page := items_per_page |}.

End BaseQuery.

(* ------------------------------------------------------------------------- *)
(** ** [_paginate_query] *)
(* ------------------------------------------------------------------------- *)

(** The [page] argument of the listing operations: absent, a number, or the
    text of a request parameter. *)
Inductive page_arg : Type :=
| PageNone
| PageInt (n : Z)
| PageStr (s : string).

Module PyInt.

(** [int(s)] on text: blanks around, an optional sign, decimal digits.
    [None] is [ValueError].  The digit separator of Python 3.6 and the
    digits outside ASCII are not modelled: such a text is not a number here. *)
Definition is_space (c : ascii) : bool :=
  Py.mem_char c (String " " (String "009" (String "010" (String "011"
                (String "012" (String "013" EmptyString)))))).

Definition digit (c : ascii) : option Z :=
  let n := nat_of_ascii c in
  if (Nat.leb 48 n && Nat.leb n 57)%bool then Some (Z.of_nat (n - 48)) else None.

Fixpoint digits (acc : Z) (s : string) : option Z :=
  match s with
  | EmptyString => Some acc
  | String c s' =>
      match digit c with
      | Some k => digits (acc * 10 + k) s'
      | None => None
      end
  end.

Definition unsigned (s : string) : option Z :=
  match s with
  | EmptyString => None
  | _ => digits 0 s
  end.

Fixpoint lstrip_space (s : string) : string :=
  match s with
  | String c s' => if is_space c then lstrip_space s' else s
  | EmptyString => EmptyString
  end.

Fixpoint rstrip_space (s : string) : string :=
  match s with
  | EmptyString => EmptyString
  | String c s' =>
      match rstrip_space s' with
      | EmptyString => if is_space c then EmptyString else String c EmptyString
      | r => String c r
      end
  end.

Definition of_string (s : string) : option Z :=
  match rstrip_space (lstrip_space s) with
  | String "-" s' => option_map Z.opp (unsigned s')
  | String "+" s' => unsigned s'
  | s' => unsigned s'
  end.

End PyInt.

(** Truth value of a [page] argument, and [int(page)] ([None] is
    [ValueError]; [int] is only reached with a true [page]). *)
Definition page_truthy (page : page_arg) : bool :=
  match page with
  | PageNone => false
  | PageInt n => negb (n =? 0)
  | PageStr s => negb (s =? "")%string
  end.

Definition int_ (page : page_arg) : option Z :=
  match page with
  | PageNone => None
  | PageInt n => Some n
  | PageStr s => PyInt.of_string s
  end.

Definition _paginate_query (query : Query) (page : page_arg) : Query :=
  let page :=
    if page_truthy page
    then match int_ page with
         | Some n => PageInt n
         | None => PageNone
         end
    else page in
  if page_truthy page
  then match page with
       | PageInt page =>
           let limit := 50 in
           let offset := (page - 1) * limit in
           Query.limit (Query.offset query offset) limit
       | _ => query
       end
  else query.

(* ------------------------------------------------------------------------- *)
(** ** The listing operations of the mapped classes *)
(* ------------------------------------------------------------------------- *)

(** What a listing operation returns: [query.count()] or [query.all()]. *)
Inductive listing : Type :=
| Count (n : Z)
| Rows (rows : list row).

Definition finish (query : Query) (count : bool) : result listing :=
  if count
  then n <- Query.count query ;; Ok (Count n)
  else rows <- Query.all query ;; Ok (Rows rows).

(** The value of an optional argument when [if argument:] is taken. *)
Definition given (o : option string) : option string :=
  match o with
  | Some s => if (s =? "")%string then None else Some s
  | None => None
  end.

Definition given_int (o : option Z) : option Z :=
  match o with
  | Some n => if n =? 0 then None else Some n
  | None => None
  end.

(** [column == value] and [filter_by(column=value)]: a comparison with
    [None] is rendered [IS NULL]. *)
Definition equals (e : sqlexpr) (v : value) : criterion :=
  match v with
  | VNull => Is_None e
  | _ => Eq_ e (Literal v)
  end.

(** [session.add(obj); session.flush()]: the [INSERT] of one row, written
    after the rows of its table.  [id] is the key the engine assigns to a row
    of [logs].  A text longer than its [String(200)] column is a [DataError]
    on PostgreSQL, which reads the values before it checks the constraints;
    SQLite does not look at the length.  [None] in a column that is not
    nullable and a primary key that is already there are refused with
    SQLAlchemy's [IntegrityError]. *)
Module Flush.

Inductive outcome (A : Type) : Type :=
| Done (a : A)
| IntegrityError (message : string).

Arguments IntegrityError {A} message.

Definition with_logs (s : Session) (rows : list Log) : Session :=
  {| session_bind := session_bind s;
     session_db :=
       {| db_logs := rows;
          db_distros := db_distros (session_db s);
          db_packages := db_packages (session_db s);
          db_projects := db_projects (session_db s);
          db_projects_flags := db_projects_flags (session_db s) |} |}.

Definition with_distros (s : Session) (rows : list Distro) : Session :=
  {| session_bind := session_bind s;
     session_db :=
       {| db_logs := db_logs (session_db s);
          db_distros := rows;
          db_packages := db_packages (session_db s);
          db_projects := db_projects (session_db s);
          db_projects_flags := db_projects_flags (session_db s) |} |}.

Definition too_long (d : Dialect) (text : option string) : bool :=
  is_postgresql d
  && match text with
     | Some t => 200 <? Z.of_nat (String.length t)
     | None => false
     end.

Definition log (s : Session) (id : Z) (user project distro description : option string)
           (created_on : option Z) : result (outcome Session) :=
  let d := session_bind s in
  if too_long d user || too_long d project || too_long d distro
  then Raise (DataError "value too long for type character varying(200)")
  else
    match user, description with
    | None, _ => Ok (IntegrityError "null value in column user")
    | _, None => Ok (IntegrityError "null value in column description")
    | Some user, Some description =>
        if existsb (fun x => Log_id x =? id) (db_logs (session_db s))
        then Ok (IntegrityError "duplicate key value: logs.id")
        else
          Ok (Done
                (with_logs s
                   (db_logs (session_db s)
                    ++ [{| Log_id := id; Log_user := user; Log_project := project;
                           Log_distro := distro; Log_description := description;
                           Log_created_on := created_on |}])))
    end.

Definition distro (s : Session) (d : Distro) : result (outcome Session) :=
  if too_long (session_bind s) (Some (Distro_name d))
  then Raise (DataError "value too long for type character varying(200)")
  else if existsb (fun x => (Distro_name x =? Distro_name d)%string)
                  (db_distros (session_db s))
  then Ok (IntegrityError "duplicate key value: distros.name")
  else Ok (Done (with_distros s (db_distros (session_db s) ++ [d]))).

End Flush.

(** The [user] argument of [Log.search]: absent, a name, or a list of names. *)
Inductive user_arg : Type :=
| UserNone
| UserName (name : string)
| UserNames (names : list string).

Definition user_truthy (user : user_arg) : bool :=
  match user with
  | UserNone => false
  | UserName s => negb (s =? "")%string
  | UserNames l => match l with [] => false | _ => true end
  end.

Module Log.

(** [Log.insert].  [new_id] is the primary key the engine assigns to the row
    and [utcnow] what [datetime.datetime.utcnow()] returns when the row is
    written, the default of [created_on].  The session after the flush stands
    for the [None] the method returns. *)
Definition insert (session : Session) (new_id utcnow : Z)
           (user : option string) (project : option Project)
           (distro : option Distro) (description : option string)
  : result (Flush.outcome Session) :=
  let project_name :=
    match project with
    | Some project => Some (Project_name project)
    | None => None
    end in
  let distro_name :=
    match distro with
    | Some distro => Some (Distro_name distro)
    | None => None
    end in
  Flush.log session new_id user project_name distro_name description
            (Some utcnow).

Definition search (session : Session) (project_name : option string)
           (from_date : option Z) (user : user_arg)
           (limit offset : option Z) (count : bool) : result listing :=
  let query := query session logs in
  let query :=
    match given project_name with
    | Some project_name =>
        Query.filter query [Eq_ (Column logs_project) (Literal (VStr project_name))]
    | None => query
    end in
  let query :=
    match from_date with
    | Some from_date =>
        Query.filter query [Ge_ (Column logs_created_on) (Literal (VInt from_date))]
    | None => query
    end in
  let query :=
    if user_truthy user
    then match user with
         | UserNames names =>
             Query.filter query [In_ (Column logs_user) (map VStr names)]
         | UserName name =>
             Query.filter query [Eq_ (Column logs_user) (Literal (VStr name))]
         | UserNone => query
         end
    else query in
  let query := Query.order_by query [Some (Desc (Column logs_created_on))] in
  if count then n <- Query.count query ;; Ok (Count n)
  else
    let query :=
      match given_int offset with
      | Some offset => Query.offset query offset
      | None => query
      end in
    let query :=
      match given_int limit with
      | Some limit => Query.limit query limit
      | None => query
      end in
    rows <- Query.all query ;; Ok (Rows rows).

End Log.

Module Distro.

Definition all (session : Session) (page : page_arg) (count : bool)
  : result listing :=
  let query := Query.order_by (query session distros)
                              [Some (Asc (Column distros_name))] in
  let query := _paginate_query query page in
  finish query count.

Definition search (session : Session) (pattern : string) (page : page_arg)
           (count : bool) : result listing :=
  let pattern :=
    if Py.contains "*" pattern then Py.replace "*" "%" pattern else pattern in
  let query :=
    Query.distinct
      (Query.order_by
         (Query.filter (query session distros)
            [or_ (Like (Lower (Column distros_name))
                       (Lower (Literal (VStr pattern)))) []])
         [Some (Asc (Column distros_name))]) in
  let query := _paginate_query query page in
  finish query count.

Definition by_name (session : Session) (name : string) : result (option row) :=
  let query :=
    Query.filter (query session distros)
      [Eq_ (Lower (Column distros_name)) (Lower (Literal (VStr name)))] in
  Query.first query.

Definition get := by_name.

(** [get_or_create] returns the distro; the session it leaves is returned
    beside it. *)
Definition get_or_create (session : Session) (name : string)
  : result (Flush.outcome (row * Session)) :=
  distro <- by_name session name ;;
  match distro with
  | Some distro => Ok (Flush.Done (distro, session))
  | None =>
      let distro := {| Distro_name := name |} in
      flushed <- Flush.distro session distro ;;
      match flushed with
      | Flush.Done session => Ok (Flush.Done (DistroRow distro, session))
      | Flush.IntegrityError message => Ok (Flush.IntegrityError message)
      end
  end.

End Distro.

Module Packages.

Definition get (session : Session) (project_id : option Z)
           (distro package_name : option string) : result (option row) :=
  let query :=
    Query.filter
      (Query.filter
         (Query.filter (query session packages)
            [equals (Column packages_project_id) (vint project_id)])
         [Eq_ (Lower (Column packages_distro)) (Lower (Literal (vstr distro)))])
      [equals (Column packages_package_name) (vstr package_name)] in
  Query.first query.

Definition by_package_name_distro (session : Session)
           (package_name distro : option string) : result (option row) :=
  let query :=
    Query.filter
      (Query.filter (query session packages)
         [equals (Column packages_package_name) (vstr package_name)])
      [Eq_ (Lower (Column packages_distro)) (Lower (Literal (vstr distro)))] in
  Query.first query.

End Packages.

(** The plugin registries of [anitya.lib.plugins] are consumed through
    [get_plugin] alone, and a backend or ecosystem plugin through its
    [default_version_scheme] attribute.  A registry that cannot answer for a
    name fails; what it answers is its own business. *)
Record Plugin : Type := {
  default_version_scheme : option string }.

Record PluginManager (A : Type) : Type := {
  get_plugin : string -> result A }.

Module Project.

Section VersionScheme.
(** [anitya.lib.versions.Version] sub-classes, the three registries and
    [anitya.lib.versions.GLOBAL_DEFAULT]. *)
Variable Version : Type.
Variable ECOSYSTEM_PLUGINS BACKEND_PLUGINS : PluginManager Plugin.
Variable VERSION_PLUGINS : PluginManager Version.
Variable DEFAULT_VERSION_SCHEME : string.

Definition get_version_class (self : Project) : result Version :=
  let version_scheme := Project_version_scheme self in
  version_scheme <-
    match given version_scheme, given (Project_ecosystem_name self) with
    | None, Some ecosystem_name =>
        ecosystem <- get_plugin ECOSYSTEM_PLUGINS ecosystem_name ;;
        Ok (default_version_scheme ecosystem)
    | _, _ => Ok version_scheme
    end ;;
  version_scheme <-
    match given version_scheme, given (Project_backend self) with
    | None, Some backend_name =>
        backend <- get_plugin BACKEND_PLUGINS backend_name ;;
        Ok (default_version_scheme backend)
    | _, _ => Ok version_scheme
    end ;;
  let version_scheme :=
    match given version_scheme with
    | None => DEFAULT_VERSION_SCHEME
    | Some version_scheme => version_scheme
    end in
  get_plugin VERSION_PLUGINS version_scheme.
End VersionScheme.

Definition all (session : Session) (page : page_arg) (count : bool)
  : result listing :=
  let query := Query.order_by (query session projects)
                              [Some (Asc (Lower (Column projects_name)))] in
  let query := _paginate_query query page in
  finish query count.

(** The wildcard rule of the [name] and [log] filters of [updated]. *)
Definition substring_pattern (text : string) : string :=
  if Py.contains "*" text then Py.replace "*" "%" text
  else "%" ++ text ++ "%".

Definition updated (session : Session) (status : string)
           (name log : option string) (page : page_arg) (count : bool)
  : result listing :=
  let query := Query.order_by (query session projects)
                              [Some (Asc (Lower (Column projects_name)))] in
  let logs_ := Column projects_logs in
  let retrieved := Literal (VStr "Version retrieved correctly") in
  let strange := Literal (VStr "Something strange occured%") in
  let query :=
    if (status =? "updated")%string then
      Query.filter query [IsNot_None logs_; Eq_ logs_ retrieved]
    else if (status =? "failed")%string then
      Query.filter query
        [IsNot_None logs_; Ne_ logs_ retrieved; Invert (ILike logs_ strange)]
    else if (status =? "odd")%string then
      Query.filter query
        [IsNot_None logs_; Ne_ logs_ retrieved; ILike logs_ strange]
    else if (status =? "new")%string then
      Query.filter query [Is_None logs_]
    else if (status =? "never_updated")%string then
      Query.filter query
        [IsNot_None logs_; Ne_ logs_ retrieved;
         Is_None (Column projects_latest_version)]
    else query in
  let query :=
    match given name with
    | Some name =>
        Query.filter query
          [ILike (Column projects_name) (Literal (VStr (substring_pattern name)))]
    | None => query
    end in
  let query :=
    match given log with
    | Some log =>
        Query.filter query
          [ILike logs_ (Literal (VStr (substring_pattern log)))]
    | None => query
    end in
  let query := _paginate_query query page in
  finish query count.

Definition search (session : Session) (pattern distro : option string)
           (page : page_arg) (count : bool) : result listing :=
  let query1 := query session projects in
  (* the pattern as the first [if pattern:] block leaves it *)
  let pattern :=
    match given pattern with
    | Some pattern =>
        let pattern := Py.replace "_" "\_" pattern in
        Some (if Py.contains "*" pattern
              then Py.replace "*" "%" pattern else pattern)
    | None => pattern
    end in
  let query1 :=
    match given pattern with
    | Some pattern =>
        if Py.contains "%" pattern
        then Query.filter query1
               [ILike (Column projects_name) (Literal (VStr pattern))]
        else Query.filter query1
               [Eq_ (Column projects_name) (Literal (VStr pattern))]
    | None => query1
    end in
  let query2 :=
    Query.filter (query session projects)
      [Eq_ (Column projects_id) (Column packages_project_id)] in
  let query2 :=
    match given pattern with
    | Some pattern =>
        if Py.contains "%" pattern
        then Query.filter query2
               [ILike (Column packages_package_name) (Literal (VStr pattern))]
        else Query.filter query2
               [Eq_ (Column packages_package_name) (Literal (VStr pattern))]
    | None => query2
    end in
  let lower_distro d :=
    Eq_ (Lower (Column packages_distro)) (Lower (Literal (VStr d))) in
  let query1 :=
    match distro with
    | Some d =>
        Query.filter
          (Query.filter query1
             [Eq_ (Column projects_id) (Column packages_project_id)])
          [lower_distro d]
    | None => query1
    end in
  let query2 :=
    match distro with
    | Some d => Query.filter query2 [lower_distro d]
    | None => query2
    end in
  let query :=
    Query.order_by (Query.union (Query.distinct query1) (Query.distinct query2))
                   [Some (Asc (Column projects_name))] in
  let query := _paginate_query query page in
  finish query count.

Definition by_name (session : Session) (name : option string)
  : result (list row) :=
  Query.all (Query.filter (query session projects)
               [equals (Column projects_name) (vstr name)]).

Definition by_id (session : Session) (project_id : option Z)
  : result (option row) :=
  Query.first (Query.filter (query session projects)
                 [equals (Column projects_id) (vint project_id)]).

Definition get := by_id.

Definition by_distro (session : Session) (distro : string) (page : page_arg)
           (count : bool) : result listing :=
  let query :=
    Query.order_by
      (Query.filter
         (Query.filter (query session projects)
            [Eq_ (Column projects_id) (Column packages_project_id)])
         [Eq_ (Lower (Column packages_distro)) (Lower (Literal (VStr distro)))])
      [Some (Asc (Lower (Column projects_name)))] in
  let query := _paginate_query query page in
  finish query count.

End Project.

Module ProjectFlag.

(** [page] and [count] are accepted and not read. *)
Definition all (session : Session) (page : page_arg) (count : bool)
  : result listing :=
  let query := Query.order_by (query session projects_flags)
                              [Some (Asc (Column projects_flags_created_on))] in
  rows <- Query.all query ;; Ok (Rows rows).

Definition search (session : Session) (project_name : option string)
           (from_date : option Z) (user state : option string)
           (limit offset : option Z) (count : bool) : result listing :=
  let query := query session projects_flags in
  let query :=
    match given project_name with
    | Some project_name =>
        Query.filter
          (Query.filter query
             [Eq_ (Column projects_flags_project_id) (Column projects_id)])
          [Eq_ (Column projects_name) (Literal (VStr project_name))]
    | None => query
    end in
  let query :=
    match from_date with
    | Some from_date =>
        Query.filter query
          [Ge_ (Column projects_flags_created_on) (Literal (VInt from_date))]
    | None => query
    end in
  let query :=
    match given user with
    | Some user =>
        Query.filter query [Eq_ (Column projects_flags_user) (Literal (VStr user))]
    | None => query
    end in
  let query :=
    match given state with
    | Some state =>
        Query.filter query [Eq_ (Column projects_flags_state) (Literal (VStr state))]
    | None => query
    end in
  let query := Query.order_by query [Some (Desc (Column projects_flags_created_on))] in
  if count then n <- Query.count query ;; Ok (Count n)
  else
    let query :=
      match given_int offset with
      | Some offset => Query.offset query offset
      | None => query
      end in
    let query :=
      match given_int limit with
      | Some limit => Query.limit query limit
      | None => query
      end in
    rows <- Query.all query ;; Ok (Rows rows).

End ProjectFlag.

(* ------------------------------------------------------------------------- *)
(** ** [uuid.UUID] and the [GUID] column type *)
(* ------------------------------------------------------------------------- *)

(** The part of Python's [uuid] module and of [%]-formatting that [GUID]
    uses.  A [UUID] object holds its 128-bit integer. *)
Module uuid.

Record UUID : Type := { int : Z }.

Definition hex_char (k : Z) : ascii :=
  match String.get (Z.to_nat k) "0123456789abcdef" with
  | Some c => c
  | None => "0"%char
  end.

(** The digits of ["%x" % n] for [0 <= n], most significant first. *)
Fixpoint hex_digits (fuel : nat) (n : Z) : string :=
  match fuel with
  | O => EmptyString
  | S fuel' =>
      if n <? 16 then String (hex_char n) EmptyString
      else hex_digits fuel' (n / 16) ++ String (hex_char (n mod 16)) EmptyString
  end.

Definition hex (n : Z) : string := hex_digits (S (Z.to_nat (Z.log2 n))) n.

Fixpoint zeros (k : nat) : string :=
  match k with
  | O => EmptyString
  | S k' => String "0" (zeros k')
  end.

(** ["%.32x" % n] and ["%032x" % n] for [0 <= n]: at least 32 digits. *)
Definition format_32x (n : Z) : string :=
  let digits := hex n in
  zeros (32 - String.length digits) ++ digits.

(** [str(u)] *)
Definition str (u : UUID) : string :=
  let hex := format_32x (int u) in
  substring 0 8 hex ++ "-" ++ substring 8 4 hex ++ "-"
  ++ substring 12 4 hex ++ "-" ++ substring 16 4 hex ++ "-"
  ++ substring 20 (String.length hex - 20) hex.

Definition hex_value (c : ascii) : option Z :=
  let n := nat_of_ascii c in
  if (Nat.leb 48 n && Nat.leb n 57)%bool then Some (Z.of_nat (n - 48))
  else if (Nat.leb 97 n && Nat.leb n 102)%bool then Some (Z.of_nat (n - 87))
  else if (Nat.leb 65 n && Nat.leb n 70)%bool then Some (Z.of_nat (n - 55))
  else None.

Fixpoint hex_number (acc : Z) (s : string) : option Z :=
  match s with
  | EmptyString => Some acc
  | String c s' =>
      match hex_value c with
      | Some k => hex_number (acc * 16 + k) s'
      | None => None
      end
  end.

(** [int(s, 16)]: blanks around, an optional sign, an optional [0x], hex
    digits of either case.  [None] is [ValueError].  As for [PyInt], the
    digit separator of Python 3.6 and what lies outside ASCII are not
    modelled. *)
Definition without_0x (s : string) : string :=
  match s with
  | String c (String x r) =>
      if Ascii.eqb c "0" && (Ascii.eqb x "x" || Ascii.eqb x "X") then r else s
  | _ => s
  end.

Definition unsigned16 (s : string) : option Z :=
  match without_0x s with
  | EmptyString => None
  | digits => hex_number 0 digits
  end.

Definition int16 (s : string) : option Z :=
  match PyInt.rstrip_space (PyInt.lstrip_space s) with
  | EmptyString => None
  | String c s' =>
      if Ascii.eqb c "-" then option_map Z.opp (unsigned16 s')
      else if Ascii.eqb c "+" then unsigned16 s'
      else unsigned16 (String c s')
  end.

(** [uuid.UUID(hex)] *)
Definition UUID_ (hex : string) : result UUID :=
  let hex := Py.replace "uuid:" "" (Py.replace "urn:" "" hex) in
  let hex := Py.replace "-" "" (Py.strip "{}" hex) in
  if negb (Nat.eqb (String.length hex) 32)
  then Raise (ValueError "badly formed hexadecimal UUID string")
  else
    match int16 hex with
    | None => Raise (ValueError "invalid literal for int() with base 16")
    | Some n =>
        if (0 <=? n) && (n <? 2 ^ 128)
        then Ok {| int := n |}
        else Raise (ValueError "int is out of range (need a 128-bit value)")
    end.

End uuid.

(** The value handed to [process_bind_param]: [None], a [uuid.UUID], or the
    text of one. *)
Inductive guid_value : Type :=
| GuidNone
| GuidUUID (u : uuid.UUID)
| GuidStr (s : string).

Module GUID.

(** [str(value)] of a value that is not [None]. *)
Definition str_ (value : guid_value) : string :=
  match value with
  | GuidUUID u => uuid.str u
  | GuidStr s => s
  | GuidNone => "None"
  end.

Definition process_bind_param (value : guid_value) (dialect : Dialect)
  : result (option string) :=
  match value with
  | GuidNone => Ok None
  | _ =>
      if (dialect_name dialect =? "postgresql")%string
      then Ok (Some (str_ value))
      else
        match value with
        | GuidUUID u => Ok (Some (uuid.format_32x (uuid.int u)))
        | GuidStr s =>
            u <- uuid.UUID_ s ;;
            Ok (Some (uuid.format_32x (uuid.int u)))
        | GuidNone => Ok None
        end
  end.

Definition process_result_value (value : option string) (dialect : Dialect)
  : result (option uuid.UUID) :=
  match value with
  | None => Ok None
  | Some s => u <- uuid.UUID_ s ;; Ok (Some u)
  end.

End GUID.

(* ------------------------------------------------------------------------- *)
(** ** [User] *)
(* ------------------------------------------------------------------------- *)

(** [id] is [None] until the row is written, when the column default
    [uuid.uuid4] gives it a value. *)
Record User : Type := {
  User_id : option uuid.UUID;
  User_email : string;
  User_username : string;
  User_active : option bool }.

Module User.

(** [six.text_type(self.id)] *)
Definition text_id (self : User) : string :=
  match User_id self with
  | Some u => uuid.str u
  | None => "None"
  end.

(** [anitya_config.get('ANITYA_WEB_ADMINS', [])] is the list under that key
    of the configuration, the empty list when the key is absent. *)
Definition admin (ANITYA_WEB_ADMINS : option (list string)) (self : User)
  : bool :=
  existsb (String.eqb (text_id self))
          (match ANITYA_WEB_ADMINS with Some l => l | None => [] end).

Definition is_active (self : User) : option bool := User_active self.
Definition is_anonymous (self : User) : bool := false.
Definition is_authenticated (self : User) : bool := true.

Definition get_id (self : User) : string := text_id self.

End User.

(* ------------------------------------------------------------------------- *)
(** ** Notions the statements below are written with *)
(* ------------------------------------------------------------------------- *)

(** The rows of a listing, and membership in them. *)
Definition listed (r : row) (l : result listing) : Prop :=
  exists rows, l = Ok (Rows rows) /\ In r rows.

(** The value of an argument that may be omitted. *)
Definition or_default (default : Z) (o : option Z) : Z :=
  match o with Some v => v | None => default end.

(** The page numbers [1 .. n]. *)
Definition page_numbers (n : nat) : list Z := map Z.of_nat (seq 1 n).

(** The items [paginate] returns for page [k]. *)
Definition page_items (self : Query) (items_per_page : Z)
           (order_by : order_by_arg) (k : Z) : list row :=
  match BaseQuery.paginate self (Some k) (Some items_per_page) order_by with
  | Ok p => items p
  | Raise _ => []
  end.

(** The log entries [Log.search] is asked for: of the project, not older
    than the date, by the user or by one of the users. *)
Definition log_matches (project_name : option string) (from_date : option Z)
           (user : user_arg) (l : Log) : bool :=
  match given project_name with
  | Some name =>
      match Log_project l with Some p => (p =? name)%string | None => false end
  | None => true
  end
  && match from_date with
     | Some t => match Log_created_on l with Some c => t <=? c | None => false end
     | None => true
     end
  && match user with
     | UserNone => true
     | UserName u => if (u =? "")%string then true else (Log_user l =? u)%string
     | UserNames [] => true
     | UserNames us => existsb (String.eqb (Log_user l)) us
     end.

(** The rows [ProjectFlag.search] ranges over: the flags, each next to every
    project when a project name is asked for. *)
Definition flag_candidates (db : Database) (project_name : option string)
  : list (ProjectFlag * option Project) :=
  match given project_name with
  | Some _ =>
      map (fun fp => (fst fp, Some (snd fp)))
          (list_prod (db_projects_flags db) (db_projects db))
  | None => map (fun f => (f, None)) (db_projects_flags db)
  end.

(** The flags it is asked for: on the project of that name, not older than
    the date, by the user, in the state. *)
Definition flag_matches (project_name : option string) (from_date : option Z)
           (user state : option string) (c : ProjectFlag * option Project) : bool :=
  match given project_name, snd c with
  | Some name, Some p =>
      match ProjectFlag_project_id (fst c) with
      | Some i => i =? Project_id p
      | None => false
      end
      && (Project_name p =? name)%string
  | Some _, None => false
  | None, _ => true
  end
  && match from_date with
     | Some t =>
         match ProjectFlag_created_on (fst c) with
         | Some x => t <=? x
         | None => false
         end
     | None => true
     end
  && match given user with
     | Some u => (ProjectFlag_user (fst c) =? u)%string
     | None => true
     end
  && match given state with
     | Some st => (ProjectFlag_state (fst c) =? st)%string
     | None => true
     end.

(** That the criteria of a statement over the flags keep what
    [ProjectFlag.search] is asked for: with every project beside the flag
    when a project name is given, with the flag alone otherwise. *)
Definition keeps_flags (d : Dialect) (criteria : list criterion)
           (project_name : option string) (from_date : option Z)
           (user state : option string) : Prop :=
  match given project_name with
  | Some _ =>
      forall f p,
        Sql.keeps d criteria (ProjectFlagRow f, [ProjectRow p])
        = flag_matches project_name from_date user state (f, Some p)
  | None =>
      forall f,
        Sql.keeps d criteria (ProjectFlagRow f, [])
        = flag_matches project_name from_date user state (f, None)
  end.

Definition flags_found (db : Database) (project_name : option string)
           (from_date : option Z) (user state : option string)
  : list ProjectFlag :=
  map fst (filter (flag_matches project_name from_date user state)
                  (flag_candidates db project_name)).

(** [a] may stand before [b] when the newest comes first.  A flag without a
    creation date sorts as the engine sorts NULL: first on PostgreSQL, last
    on SQLite. *)
Definition newest_first (d : Dialect) (a b : ProjectFlag) : Prop :=
  match ProjectFlag_created_on a, ProjectFlag_created_on b with
  | Some x, Some y => y <= x
  | None, None => True
  | None, Some _ => is_postgresql d = true
  | Some _, None => is_postgresql d = false
  end.

(** [a] may stand before [b] when the oldest comes first. *)
Definition oldest_first (d : Dialect) (a b : ProjectFlag) : Prop :=
  match ProjectFlag_created_on a, ProjectFlag_created_on b with
  | Some x, Some y => x <= y
  | None, None => True
  | None, Some _ => is_postgresql d = false
  | Some _, None => is_postgresql d = true
  end.

(** The buckets of [Project.updated], by the last recorded outcome.  A text
    begins with a prefix here when it does so once both are case folded. *)
Definition begins_with (prefix text : string) : bool :=
  String.prefix (Py.lower prefix) (Py.lower text).

Definition is_updated (p : Project) : bool :=
  match Project_logs p with
  | Some l => (l =? "Version retrieved correctly")%string
  | None => false
  end.

Definition is_failed (p : Project) : bool :=
  match Project_logs p with
  | Some l => negb (l =? "Version retrieved correctly")%string
              && negb (begins_with "Something strange occured" l)
  | None => false
  end.

Definition is_odd (p : Project) : bool :=
  match Project_logs p with
  | Some l => negb (l =? "Version retrieved correctly")%string
              && begins_with "Something strange occured" l
  | None => false
  end.

Definition is_new (p : Project) : bool :=
  match Project_logs p with Some _ => false | None => true end.

Definition is_never_updated (p : Project) : bool :=
  match Project_logs p, Project_latest_version p with
  | Some l, None => negb (l =? "Version retrieved correctly")%string
  | _, _ => false
  end.

(** The projects [Project.updated] lists for a status alone. *)
Definition updated_with (s : Session) (status : string) : result listing :=
  Project.updated s status None None PageNone false.

(** The name of the scheme of a project, by the precedence of the spec: the
    project's own scheme; else the default of its ecosystem; else the default
    of its backend; else the global default.  A scheme, an ecosystem name or a
    backend name is set when it is neither [None] nor empty. *)
Section Precedence.
Variable ECOSYSTEM_PLUGINS BACKEND_PLUGINS : PluginManager Plugin.
Variable DEFAULT_VERSION_SCHEME : string.

Definition no_default_from (registry : PluginManager Plugin)
           (name : option string) : Prop :=
  given name = None
  \/ exists n plugin,
       given name = Some n
       /\ get_plugin registry n = Ok plugin
       /\ given (default_version_scheme plugin) = None.

Definition default_from (registry : PluginManager Plugin)
           (name : option string) (scheme : string) : Prop :=
  exists n plugin,
    given name = Some n
    /\ get_plugin registry n = Ok plugin
    /\ given (default_version_scheme plugin) = Some scheme.

Inductive resolves_to (self : Project) : string -> Prop :=
| own_scheme scheme :
    given (Project_version_scheme self) = Some scheme ->
    resolves_to self scheme
| ecosystem_default scheme :
    given (Project_version_scheme self) = None ->
    default_from ECOSYSTEM_PLUGINS (Project_ecosystem_name self) scheme ->
    resolves_to self scheme
| backend_default scheme :
    given (Project_version_scheme self) = None ->
    no_default_from ECOSYSTEM_PLUGINS (Project_ecosystem_name self) ->
    default_from BACKEND_PLUGINS (Project_backend self) scheme ->
    resolves_to self scheme
| global_default :
    given (Project_version_scheme self) = None ->
    no_default_from ECOSYSTEM_PLUGINS (Project_ecosystem_name self) ->
    no_default_from BACKEND_PLUGINS (Project_backend self) ->
    resolves_to self DEFAULT_VERSION_SCHEME.
End Precedence.

(** The translation of a search pattern, character by character: every
    underscore gets a backslash before it, every [*] becomes [%]. *)
Fixpoint each_char (f : ascii -> string) (s : string) : string :=
  match s with
  | EmptyString => EmptyString
  | String c s' => f c ++ each_char f s'
  end.

Definition substitute (old : ascii) (new : string) : string -> string :=
  each_char (fun c => if Ascii.eqb c old then new else String c EmptyString).

Definition escape_underscores : string -> string := substitute "_" "\_".
Definition stars_to_percents : string -> string := substitute "*" "%".

(** The comparison [Project.search] makes with a translated pattern. *)
Definition pattern_matches (d : Dialect) (pattern text : string) : bool :=
  if Py.contains "%" pattern then Sql.ilike d pattern text
  else (text =? pattern)%string.

(** A package of the project whose name the pattern matches. *)
Definition package_matches (d : Dialect) (pattern : string) (p : Project)
           (k : Packages) : bool :=
  match Packages_project_id k with
  | Some i => Project_id p =? i
  | None => false
  end
  && match Packages_package_name k with
     | Some n => pattern_matches d pattern n
     | None => false
     end.

(** A package in the distribution, names compared case folded; and such a
    package of the project. *)
Definition in_distro (distro : string) (k : Packages) : bool :=
  match Packages_distro k with
  | Some x => (Py.lower x =? Py.lower distro)%string
  | None => false
  end.

Definition packaged_in (distro : string) (p : Project) (k : Packages) : bool :=
  match Packages_project_id k with
  | Some i => Project_id p =? i
  | None => false
  end
  && in_distro distro k.

(** Texts all of whose characters pass a test; the digits [0-9a-f]. *)
Fixpoint all_chars (test : ascii -> bool) (s : string) : bool :=
  match s with
  | EmptyString => true
  | String c s' => test c && all_chars test s'
  end.

Definition is_lower_hex (c : ascii) : bool :=
  let n := nat_of_ascii c in
  (Nat.leb 48 n && Nat.leb n 57) || (Nat.leb 97 n && Nat.leb n 102).

(** A character that stands for itself in a [LIKE] pattern, on either
    engine. *)
Definition plain (c : ascii) : bool :=
  negb (Ascii.eqb c "%") && negb (Ascii.eqb c "_") && negb (Ascii.eqb c "\").

Fixpoint all_plain (s : string) : bool :=
  match s with
  | EmptyString => true
  | String c s' => plain c && all_plain s'
  end.

(** Two names that are the same once case folded. *)
Definition lower_equal (a b : string) : bool :=
  (Py.lower a =? Py.lower b)%string.

(** [a] may stand before [b] when the newest log comes first; a log without
    date sorts as the engine sorts NULL. *)
Definition log_newest_first (d : Dialect) (a b : Log) : Prop :=
  match Log_created_on a, Log_created_on b with
  | Some x, Some y => y <= x
  | None, None => True
  | None, Some _ => is_postgresql d = true
  | Some _, None => is_postgresql d = false
  end.

(** The package [Packages.get] and [Packages.by_package_name_distro] look
    for; an argument that is [None] is compared as NULL. *)
Definition same_int (column : option Z) (argument : option Z) : bool :=
  match argument, column with
  | None, None => true
  | Some a, Some c => c =? a
  | _, _ => false
  end.

Definition same_text (column : option string) (argument : option string) : bool :=
  match argument, column with
  | None, None => true
  | Some a, Some c => (c =? a)%string
  | _, _ => false
  end.

Definition same_distro (column : option string) (argument : option string) : bool :=
  match argument, column with
  | Some a, Some c => lower_equal c a
  | _, _ => false
  end.

(** The status test of [Project.updated]; a status that is none of the five
    tests nothing. *)
Definition in_status (status : string) (p : Project) : bool :=
  if (status =? "updated")%string then is_updated p
  else if (status =? "failed")%string then is_failed p
  else if (status =? "odd")%string then is_odd p
  else if (status =? "new")%string then is_new p
  else if (status =? "never_updated")%string then is_never_updated p
  else true.

(** The [name] and [log] tests of [Project.updated]. *)
Definition text_filter (d : Dialect) (argument : option string)
           (text : option string) : bool :=
  match given argument with
  | Some a =>
      match text with
      | Some t => Sql.ilike d (Project.substring_pattern a) t
      | None => false
      end
  | None => true
  end.

(** Texts in ascending order (binary collation), and projects in the order
    of their names, as they are and case folded. *)
Definition text_ascending (a b : string) : Prop := String.compare a b <> Gt.

Definition name_ascending (a b : Project) : Prop :=
  text_ascending (Project_name a) (Project_name b).

Definition lower_name_ascending (a b : Project) : Prop :=
  text_ascending (Py.lower (Project_name a)) (Py.lower (Project_name b)).

(** Where the model is exact.  The engines are modelled on texts of ASCII
    characters (the character of code 0, which no engine takes, left out):
    beyond them PostgreSQL folds case by the locale of the server, and a
    character is no longer one byte.  A [LIKE] pattern that
    ends in its escape character is refused by PostgreSQL; a filter without
    backslash never gives one.  The engines take integers of 64 bits. *)
Definition ascii_only (s : string) : bool :=
  all_chars (fun c => Nat.ltb 0 (nat_of_ascii c) && Nat.ltb (nat_of_ascii c) 128)
            s.

Definition ascii_option (o : option string) : bool :=
  match o with Some t => ascii_only t | None => true end.

Definition no_backslash (o : option string) : bool :=
  match o with Some t => negb (Py.contains "\" t) | None => true end.

Definition int64 (z : Z) : Prop := - 2 ^ 63 <= z < 2 ^ 63.

Definition ascii_distros (db : Database) : Prop :=
  forall x, In x (db_distros db) -> ascii_only (Distro_name x) = true.

Definition ascii_projects (db : Database) : Prop :=
  forall p, In p (db_projects db) ->
            ascii_only (Project_name p) = true
            /\ ascii_option (Project_logs p) = true.

Definition ascii_packages (db : Database) : Prop :=
  forall k, In k (db_packages db) ->
            ascii_option (Packages_distro k) = true
            /\ ascii_option (Packages_package_name k) = true.

(** A text that every version of Python's [int] reads as [PyInt] does: of
    printable ASCII characters and the six blanks, without the underscore
    that separates digits from Python 3.6 on. *)
Definition unambiguous (s : string) : bool :=
  all_chars
    (fun c =>
       let n := nat_of_ascii c in
       negb (Ascii.eqb c "_")
       && ((Nat.leb 32 n && Nat.ltb n 127) || (Nat.leb 9 n && Nat.leb n 13)))
    s.

(* ------------------------------------------------------------------------- *)
(** ** A small database, for the examples *)
(* ------------------------------------------------------------------------- *)

Module Sample.

Definition project (id : Z) (name : string) (logs latest : option string)
  : Project :=
  {| Project_id := id; Project_name := name;
     Project_homepage := "https://example.org/" ++ name;
     Project_backend := Some "custom"; Project_ecosystem_name := None;
     Project_version_scheme := None;
     Project_latest_version := latest; Project_logs := logs |}.

Definition zlib := project 1 "zlib" (Some "Version retrieved correctly") (Some "1.3").
Definition broken := project 2 "broken" (Some "No upstream version found") None.
Definition strange := project 3 "strange" (Some "something STRANGE occured: x") (Some "2").
Definition fresh := project 4 "fresh" None None.
Definition py_lib := project 5 "py_lib" (Some "Version retrieved correctly") (Some "0.1").

Definition flag (id project_id : Z) (user state : string) (created_on : Z)
  : ProjectFlag :=
  {| ProjectFlag_id := id; ProjectFlag_project_id := Some project_id;
     ProjectFlag_reason := "wrong homepage"; ProjectFlag_user := user;
     ProjectFlag_state := state; ProjectFlag_created_on := Some created_on |}.

Definition log (id : Z) (user : string) (project : option string)
           (created_on : Z) : Log :=
  {| Log_id := id; Log_user := user; Log_project := project;
     Log_distro := None; Log_description := "edited";
     Log_created_on := Some created_on |}.

Definition db : Database :=
  {| db_logs := [log 1 "ralph" (Some "zlib") 10; log 2 "pingou" (Some "zlib") 20;
                 log 3 "ralph" (Some "broken") 30];
     db_distros := [{| Distro_name := "Fedora" |}; {| Distro_name := "Debian" |};
                    {| Distro_name := "abc" |}];
     db_packages :=
       [{| Packages_id := 1; Packages_distro := Some "Fedora";
           Packages_project_id := Some 2;
           Packages_package_name := Some "zlib-broken" |}];
     db_projects := [zlib; broken; strange; fresh; py_lib];
     db_projects_flags := [flag 1 1 "ralph" "open" 100; flag 2 1 "pingou" "closed" 200;
                           flag 3 2 "ralph" "open" 300] |}.

Definition session_on (d : Dialect) : Session :=
  {| session_bind := d; session_db := db |}.

Definition session : Session := session_on sqlite.

(** Registries: one ecosystem whose default scheme nobody registered, one
    backend without default, one version scheme. *)
Definition ecosystems : PluginManager Plugin :=
  {| get_plugin := fun n =>
       if (n =? "pypi")%string
       then Ok {| default_version_scheme := Some "PEP-440" |}
       else Raise (LookupFailure "ecosystem" n) |}.

Definition backends : PluginManager Plugin :=
  {| get_plugin := fun n =>
       if (n =? "custom")%string
       then Ok {| default_version_scheme := None |}
       else Raise (LookupFailure "backend" n) |}.

Definition versions : PluginManager string :=
  {| get_plugin := fun n =>
       if (n =? "RPM")%string then Ok "RpmVersion"
       else Raise (LookupFailure "version" n) |}.

Definition on_pypi : Project :=
  {| Project_id := 6; Project_name := "requests";
     Project_homepage := "https://example.org/requests";
     Project_backend := Some "custom"; Project_ecosystem_name := Some "pypi";
     Project_version_scheme := None;
     Project_latest_version := None; Project_logs := None |}.

End Sample.

(* ========================================================================= *)
(** * Properties *)
(* ========================================================================= *)

(* ------------------------------------------------------------------------- *)
(** ** The engine *)
(* ------------------------------------------------------------------------- *)

Section SortFacts.
Variable A : Type.
Variable leb : A -> A -> bool.

Lemma insert_perm (x : A) (l : list A) :
  Permutation (Engine.insert leb x l) (x :: l).
Proof.
  induction l as [|y l IH]; simpl.
  - apply Permutation_refl.
  - destruct (leb x y).
    + apply Permutation_refl.
    + eapply perm_trans; [apply perm_skip, IH | apply perm_swap].
Qed.

Lemma sort_perm (l : list A) : Permutation (Engine.sort leb l) l.
Proof.
  induction l as [|x l IH]; simpl.
  - constructor.
  - eapply perm_trans; [apply insert_perm | apply perm_skip, IH].
Qed.

Lemma sort_length (l : list A) :
  List.length (Engine.sort leb l) = List.length l.
Proof. apply Permutation_length, sort_perm. Qed.

Lemma sort_in (x : A) (l : list A) : In x (Engine.sort leb l) <-> In x l.
Proof.
  split; apply Permutation_in;
    [apply sort_perm | apply Permutation_sym, sort_perm].
Qed.

Hypothesis leb_total : forall a b, leb a b = false -> leb b a = true.

Lemma insert_sorted (x : A) (l : list A) :
  Sorted (fun a b => leb a b = true) l ->
  Sorted (fun a b => leb a b = true) (Engine.insert leb x l).
Proof.
  induction 1 as [|y l Hs IH Hhd]; simpl.
  - repeat constructor.
  - destruct (leb x y) eqn:E.
    + constructor; [constructor; assumption | constructor; exact E].
    + constructor; [exact IH |].
      destruct l as [|z l']; simpl.
      * constructor. apply leb_total, E.
      * destruct (leb x z); constructor.
        -- apply leb_total, E.
        -- inversion Hhd; assumption.
Qed.

Lemma sort_sorted (l : list A) :
  Sorted (fun a b => leb a b = true) (Engine.sort leb l).
Proof.
  induction l as [|x l IH]; simpl.
  - constructor.
  - apply insert_sorted, IH.
Qed.
End SortFacts.

Lemma slice_none (A : Type) (d : Dialect) (rows : list A) :
  Engine.slice d None None rows = Ok rows.
Proof.
  unfold Engine.slice. rewrite !Bool.andb_false_r. reflexivity.
Qed.

(** A non-negative limit and offset cut the same window on every engine. *)
Lemma slice_window (A : Type) (d : Dialect) (l o : Z) (rows : list A) :
  0 <= l -> 0 <= o ->
  Engine.slice d (Some l) (Some o) rows
  = Ok (firstn (Z.to_nat l) (skipn (Z.to_nat o) rows)).
Proof.
  intros Hl Ho. unfold Engine.slice.
  assert (El : (l <? 0) = false) by (apply Z.ltb_ge; exact Hl).
  assert (Eo : (o <? 0) = false) by (apply Z.ltb_ge; exact Ho).
  rewrite El, Eo, !Bool.andb_false_r. reflexivity.
Qed.

(** Limit and offset act on the rows of the query without them. *)
Lemma fetch_sliced s f c o d l off :
  Engine.fetch (mkQuery s f c o d l off)
  = rows <- Engine.fetch (mkQuery s f c o d None None) ;;
    Engine.slice (session_bind s) l off rows.
Proof.
  simpl.
  destruct f as [cls | q1 q2]; simpl.
  - rewrite slice_none. reflexivity.
  - destruct (Engine.fetch q1) as [rows1 | e]; simpl; [| reflexivity].
    destruct (Engine.fetch q2) as [rows2 | e]; simpl; [| reflexivity].
    rewrite slice_none. reflexivity.
Qed.

(** A query on a mapped class, without limit and offset, always has rows. *)
Lemma fetch_entity s cls c o d :
  Engine.fetch (mkQuery s (Entity cls) c o d None None)
  = Ok (let selected :=
          map fst (Engine.sort (Engine.order_leb (session_bind s) o)
                     (filter (Sql.keeps (session_bind s) c)
                        (Engine.from_rows (session_db s) cls c))) in
        if d then Engine.unique selected else selected).
Proof. simpl. rewrite slice_none. reflexivity. Qed.

(** The engine refuses a statement with a [DataError] and nothing else. *)
Lemma slice_raises (A : Type) d l o (rows : list A) e :
  Engine.slice d l o rows = Raise e -> exists msg, e = DataError msg.
Proof.
  unfold Engine.slice.
  destruct (is_postgresql d && _); [intros [= <-]; eauto |].
  destruct (is_postgresql d && _); [intros [= <-]; eauto | discriminate].
Qed.

Lemma fetch_raises (q : Query) (e : exn) :
  Engine.fetch q = Raise e -> exists msg, e = DataError msg.
Proof.
  revert q e. fix fetch_raises 1. intros q e.
  destruct q as [s f c o d l off].
  rewrite fetch_sliced.
  destruct f as [cls | q1 q2].
  - rewrite fetch_entity. simpl. apply slice_raises.
  - simpl.
    destruct (Engine.fetch q1) as [rows1 | e1] eqn:E1; simpl.
    + destruct (Engine.fetch q2) as [rows2 | e2] eqn:E2; simpl.
      * rewrite slice_none. simpl. apply slice_raises.
      * intros [= <-]. exact (fetch_raises q2 e2 E2).
    + intros [= <-]. exact (fetch_raises q1 e1 E1).
Qed.

(** *** Ordering *)

Lemma order_value_antisym d a b :
  Engine.order_value d b a = CompOpp (Engine.order_value d a b).
Proof.
  destruct a as [| x | x], b as [| y | y]; simpl;
    try destruct (is_postgresql d); try reflexivity;
    solve [apply Z.compare_antisym | apply String.compare_antisym].
Qed.

Lemma order_compare_antisym d ts a b :
  Engine.order_compare d ts b a = CompOpp (Engine.order_compare d ts a b).
Proof.
  induction ts as [|t ts IH]; simpl; [reflexivity |].
  assert (E : Engine.order_term_compare d t b a
              = CompOpp (Engine.order_term_compare d t a b)).
  { destruct t; simpl; rewrite order_value_antisym; reflexivity. }
  rewrite E. destruct (Engine.order_term_compare d t a b); simpl; auto.
Qed.

Lemma order_leb_total d ts a b :
  Engine.order_leb d ts a b = false -> Engine.order_leb d ts b a = true.
Proof.
  unfold Engine.order_leb. rewrite (order_compare_antisym d ts a b).
  destruct (Engine.order_compare d ts a b); simpl; congruence.
Qed.

Lemma insert_map (A B : Type) (f : A -> B) (leb : B -> B -> bool) x l :
  Engine.insert leb (f x) (map f l)
  = map f (Engine.insert (fun a b => leb (f a) (f b)) x l).
Proof.
  induction l as [|y l IH]; simpl; [reflexivity |].
  destruct (leb (f x) (f y)); simpl; [reflexivity | rewrite IH; reflexivity].
Qed.

Lemma sort_map (A B : Type) (f : A -> B) (leb : B -> B -> bool) l :
  Engine.sort leb (map f l)
  = map f (Engine.sort (fun a b => leb (f a) (f b)) l).
Proof.
  induction l as [|x l IH]; simpl; [reflexivity |].
  rewrite IH. apply insert_map.
Qed.

Lemma filter_map_commute (A B : Type) (f : A -> B) (p : B -> bool) l :
  filter p (map f l) = map f (filter (fun x => p (f x)) l).
Proof.
  induction l as [|x l IH]; simpl; [reflexivity |].
  destruct (p (f x)); simpl; rewrite IH; reflexivity.
Qed.

Lemma Sorted_map (A B : Type) (f : A -> B) (R : B -> B -> Prop) l :
  Sorted (fun a b => R (f a) (f b)) l -> Sorted R (map f l).
Proof.
  induction 1 as [|x l Hs IH Hhd]; simpl; constructor; [exact IH |].
  destruct Hhd; simpl; constructor; assumption.
Qed.

Lemma Sorted_impl (A : Type) (R S : A -> A -> Prop) l :
  (forall a b, R a b -> S a b) -> Sorted R l -> Sorted S l.
Proof.
  intros HRS. induction 1 as [|x l Hs IH Hhd]; constructor; [exact IH |].
  destruct Hhd; constructor; auto.
Qed.

(** *** Statements over one table, and over two *)

Lemma product_one (rows : list row) :
  Engine.product [rows] = map (fun r => [r]) rows.
Proof.
  simpl. induction rows as [|r rows IH]; simpl; [reflexivity |].
  rewrite IH. reflexivity.
Qed.

Section EntityRows.
Variables (X Y : Type) (C : X -> row) (D : Y -> row).
Variables (xs : list X) (ys : list Y).
Variables (s : Session) (cls other : table).
Variables (c : list criterion) (o : list order_term) (distinct : bool).
Hypothesis cls_rows : table_rows (session_db s) cls = map C xs.
Hypothesis other_rows : table_rows (session_db s) other = map D ys.

Lemma fetch_one_table :
  Engine.joined_tables cls c = [] ->
  Engine.fetch (mkQuery s (Entity cls) c o distinct None None)
  = Ok (let selected :=
          map C (Engine.sort
                   (fun a b => Engine.order_leb (session_bind s) o (C a, []) (C b, []))
                   (filter (fun x => Sql.keeps (session_bind s) c (C x, [])) xs)) in
        if distinct then Engine.unique selected else selected).
Proof.
  intros J. rewrite fetch_entity. unfold Engine.from_rows.
  rewrite J, cls_rows.
  change (Engine.product (map (table_rows (session_db s)) []))
    with [@nil row].
  replace (flat_map (fun r => map (pair r) [[]]) (map C xs))
    with (map (fun x => (C x, @nil row)) xs)
    by (clear; induction xs as [|x l IH]; simpl; [| rewrite IH]; reflexivity).
  rewrite filter_map_commute, sort_map, map_map. simpl fst.
  reflexivity.
Qed.

Lemma fetch_two_tables :
  Engine.joined_tables cls c = [other] ->
  Engine.fetch (mkQuery s (Entity cls) c o distinct None None)
  = Ok (let selected :=
          map (fun xy => C (fst xy))
              (Engine.sort
                 (fun a b => Engine.order_leb (session_bind s) o (C (fst a), [D (snd a)])
                                              (C (fst b), [D (snd b)]))
                 (filter (fun xy => Sql.keeps (session_bind s) c (C (fst xy), [D (snd xy)]))
                         (list_prod xs ys))) in
        if distinct then Engine.unique selected else selected).
Proof.
  intros J. rewrite fetch_entity. unfold Engine.from_rows.
  rewrite J, cls_rows.
  change (map (table_rows (session_db s)) [other])
    with [table_rows (session_db s) other].
  rewrite product_one, other_rows.
  replace (flat_map (fun r => map (pair r) (map (fun r0 => [r0]) (map D ys)))
                    (map C xs))
    with (map (fun xy => (C (fst xy), [D (snd xy)])) (list_prod xs ys)).
  - rewrite filter_map_commute, sort_map, map_map. simpl fst. reflexivity.
  - clear. induction xs as [|x l IH]; simpl; [reflexivity |].
    rewrite map_app, IH, !map_map. reflexivity.
Qed.
End EntityRows.

(* ------------------------------------------------------------------------- *)
(** ** [BaseQuery.paginate] *)
(* ------------------------------------------------------------------------- *)

Lemma firstn_plus (A : Type) (a b : nat) (l : list A) :
  firstn (a + b)%nat l = (firstn a l ++ firstn b (skipn a l))%list.
Proof.
  revert l; induction a as [|a IH]; intros l; simpl.
  - reflexivity.
  - destruct l as [|x l]; simpl.
    + rewrite firstn_nil. reflexivity.
    + rewrite IH. reflexivity.
Qed.

Lemma concat_windows (A : Type) (size n : nat) (l : list A) :
  List.concat (map (fun k => firstn size (skipn (size * k)%nat l)) (seq 0 n))
  = firstn (size * n)%nat l.
Proof.
  induction n as [|n IH].
  - rewrite Nat.mul_0_r. reflexivity.
  - rewrite seq_S, map_app, concat_app, IH. simpl.
    rewrite app_nil_r, Nat.mul_succ_r, firstn_plus. reflexivity.
Qed.

Lemma order_by_unsliced q terms :
  q_limit q = None -> q_offset q = None ->
  exists s f c o d, Query.order_by q terms = mkQuery s f c o d None None.
Proof.
  destruct q as [s f c o d l off]; simpl; intros -> ->.
  destruct terms as [|[t|] [|t' ts]]; simpl; eauto 10.
Qed.

(** What [paginate] returns for a valid page of an unsliced query whose
    ordered rows are [R]. *)
Lemma paginate_valid self page items_per_page order_by R :
  1 <= page -> 1 <= items_per_page ->
  q_limit self = None -> q_offset self = None ->
  Query.all (Query.order_by self (BaseQuery.as_tuple order_by)) = Ok R ->
  BaseQuery.paginate self (Some page) (Some items_per_page) order_by
  = Ok {| items := firstn (Z.to_nat items_per_page)
                     (skipn (Z.to_nat (items_per_page * (page - 1))) R);
          page := page;
          items_per_page := items_per_page;
          total_items := Z.of_nat (List.length R) |}.
Proof.
  intros Hp Hn Hl Ho HR. unfold BaseQuery.paginate.
  assert (E1 : (page <? 1) = false) by (apply Z.ltb_ge; lia).
  assert (E2 : (items_per_page <? 1) = false) by (apply Z.ltb_ge; lia).
  rewrite E1, E2.
  destruct (@order_by_unsliced self (BaseQuery.as_tuple order_by) Hl Ho)
    as (s & f & c & o & d & Eq).
  rewrite Eq in *. unfold Query.count, Query.all in *. rewrite HR. cbn [bind].
  unfold Query.limit, Query.offset. rewrite fetch_sliced, HR. cbn [bind].
  rewrite slice_window by nia. reflexivity.
Qed.


Lemma paginate_raises self page items_per_page order_by e :
  BaseQuery.paginate self page items_per_page order_by = Raise e ->
  1 <= or_default 1 page -> 1 <= or_default 25 items_per_page ->
  exists msg, e = DataError msg.
Proof.
  unfold BaseQuery.paginate, or_default. intros H Hp Hn.
  assert (E1 : (match page with None => 1 | Some p => p end <? 1) = false)
    by (apply Z.ltb_ge; destruct page; lia).
  assert (E2 : (match items_per_page with None => 25 | Some n => n end <? 1) = false)
    by (apply Z.ltb_ge; destruct items_per_page; lia).
  rewrite E1, E2 in H. unfold Query.count, Query.all in H.
  destruct (Engine.fetch (Query.order_by self _)) as [R | e1] eqn:F1;
    cbn [bind] in H.
  - destruct (Engine.fetch (Query.offset _ _)) as [R2 | e2] eqn:F2;
      cbn [bind] in H; [discriminate |].
    injection H as <-. exact (fetch_raises _ F2).
  - injection H as <-. exact (fetch_raises _ F1).
Qed.

(** C5.  [paginate] raises its [ValueError] (the spec's InvalidArgument)
    exactly when the page or the page size in force is below 1, so in
    particular for page = 0 and for items_per_page = 0; the omitted arguments
    stand for page 1 and 25 items per page, and a call without them on a
    query over a mapped class returns a page. *)
Theorem paginate_invalid_argument self page items_per_page order_by :
  ((exists msg,
       BaseQuery.paginate self page items_per_page order_by
       = Raise (ValueError msg))
   <-> (or_default 1 page < 1 \/ or_default 25 items_per_page < 1))
  /\ BaseQuery.paginate self None None order_by
     = BaseQuery.paginate self (Some 1) (Some 25) order_by
  /\ (forall session cls, exists rows total,
        BaseQuery.paginate (query session cls) None None order_by
        = Ok {| items := rows; page := 1; items_per_page := 25;
                total_items := total |}).
Proof.
  split; [split | split].
  - intros [msg H].
    destruct (Z_lt_ge_dec (or_default 1 page) 1) as [|Hp]; [left; assumption |].
    destruct (Z_lt_ge_dec (or_default 25 items_per_page) 1) as [|Hn];
      [right; assumption |].
    destruct (paginate_raises _ _ _ _ H) as [m Hm]; [lia | lia | discriminate].
  - unfold BaseQuery.paginate, or_default. intros [H | H].
    + apply Z.ltb_lt in H. destruct page; rewrite H; eauto.
    + apply Z.ltb_lt in H.
      destruct (match page with None => 1 | Some p => p end <? 1); [eauto |].
      destruct items_per_page; rewrite H; eauto.
  - reflexivity.
  - intros session cls.
    destruct (@order_by_unsliced (query session cls)
                (BaseQuery.as_tuple order_by) eq_refl eq_refl)
      as (s & f & c & o & d & Eq).
    assert (Hf : f = Entity cls).
    { unfold query in Eq. destruct (BaseQuery.as_tuple order_by) as [|[t|] [|t' ts]];
        simpl in Eq; congruence. }
    subst f.
    eexists; eexists.
    change (BaseQuery.paginate (query session cls) None None order_by)
      with (BaseQuery.paginate (query session cls) (Some 1) (Some 25) order_by).
    apply paginate_valid; try lia; try reflexivity.
    unfold Query.all. rewrite Eq. apply fetch_entity.
Qed.


(* ------------------------------------------------------------------------- *)
(** ** [_paginate_query] *)
(* ------------------------------------------------------------------------- *)

Lemma int_nonzero_truthy page n :
  int_ page = Some n -> n <> 0 -> page_truthy page = true.
Proof.
  destruct page as [| m | s]; simpl.
  - discriminate.
  - intros [= ->] Hn. apply Bool.negb_true_iff, Z.eqb_neq, Hn.
  - destruct s; [discriminate | reflexivity].
Qed.

Lemma paginate_query_nonzero q page n :
  int_ page = Some n -> n <> 0 ->
  _paginate_query q page = Query.limit (Query.offset q ((n - 1) * 50)) 50.
Proof.
  intros Hint Hn. unfold _paginate_query.
  rewrite (int_nonzero_truthy _ Hint Hn), Hint. simpl page_truthy.
  apply Z.eqb_neq in Hn. rewrite Hn. reflexivity.
Qed.

Lemma paginate_query_zero q page :
  int_ page = Some 0 -> _paginate_query q page = q.
Proof.
  intros Hint. unfold _paginate_query.
  destruct (page_truthy page) eqn:T.
  - rewrite Hint. reflexivity.
  - rewrite T. reflexivity.
Qed.

Lemma paginate_query_not_a_number q s :
  PyInt.of_string s = None -> _paginate_query q (PageStr s) = q.
Proof.
  intros Hint. unfold _paginate_query.
  destruct (page_truthy (PageStr s)) eqn:T.
  - simpl int_. rewrite Hint. reflexivity.
  - rewrite T. reflexivity.
Qed.

(** The paging mode leaves everything but limit and offset as it was. *)
Lemma paginate_query_clauses q page :
  q_session (_paginate_query q page) = q_session q
  /\ q_from (_paginate_query q page) = q_from q
  /\ q_criterion (_paginate_query q page) = q_criterion q
  /\ q_order_by (_paginate_query q page) = q_order_by q
  /\ q_distinct (_paginate_query q page) = q_distinct q.
Proof.
  unfold _paginate_query.
  destruct (page_truthy page); [destruct (int_ page) as [n|] |];
    simpl page_truthy.
  - destruct (negb (n =? 0)); destruct q; repeat split.
  - repeat split.
  - destruct (page_truthy page); [destruct page |]; destruct q; repeat split.
Qed.




(** C10.  A page value that is, or that [int] turns into, zero leaves the
    query without offset and limit, so that its rows are all the rows of the
    query and nothing is raised, whereas [paginate] rejects page 0. *)
Theorem paginate_query_page_zero q page :
  int_ page = Some 0 ->
  _paginate_query q page = q
  /\ Query.all (_paginate_query q page) = Query.all q
  /\ (forall self items_per_page order_by,
        BaseQuery.paginate self (Some 0) items_per_page order_by
        = Raise (ValueError "page must be 1 or greater.")).
Proof.
  intros Hint. rewrite (paginate_query_zero q _ Hint).
  repeat split.
Qed.

Lemma paginate_query_page_zero_witness :
  let q := Query.order_by (query Sample.session projects)
                          [Some (Asc (Lower (Column projects_name)))] in
  int_ (PageStr "0") = Some 0
  /\ _paginate_query q (PageStr "0") = q
  /\ Query.all (_paginate_query q (PageStr "0")) = Query.all q.
Proof.
  intros q.
  assert (E : int_ (PageStr "0") = Some 0) by reflexivity.
  destruct (@paginate_query_page_zero q (PageStr "0") E) as (H1 & H2 & _).
  split; [exact E | split; [exact H1 | exact H2]].
Defined.

(* ------------------------------------------------------------------------- *)
(** ** [Log.search] and [ProjectFlag.search] *)
(* ------------------------------------------------------------------------- *)

Lemma is_true_some (b : bool) : Sql.is_true (Some b) = b.
Proof. destruct b; reflexivity. Qed.

(** Closes an equation between two conjunctions of the same tests. *)
Ltac same_tests :=
  repeat match goal with
         | |- context [if ?b then true else false] =>
             replace (if b then true else false) with b
               by (destruct b; reflexivity)
         end;
  rewrite ?Bool.andb_assoc, ?Bool.andb_true_r; reflexivity.

Lemma ge_int_true (o : option Z) (t : Z) :
  Sql.is_true
    (Sql.compare3
       (fun x y => match Sql.value_compare x y with Lt => false | _ => true end)
       (vint o) (VInt t))
  = match o with Some c => t <=? c | None => false end.
Proof.
  destruct o as [c|]; simpl; [| reflexivity].
  unfold Z.leb. rewrite (Z.compare_antisym c t).
  destruct (c ?= t); reflexivity.
Qed.

Lemma eq_text_true (o : option string) (n : string) :
  Sql.is_true (Sql.compare3 Sql.value_eqb (vstr o) (VStr n))
  = match o with Some p => (p =? n)%string | None => false end.
Proof. destruct o as [p|]; simpl; [apply is_true_some | reflexivity]. Qed.

Lemma existsb_text (u : string) (names : list string) :
  existsb (Sql.value_eqb (VStr u)) (map VStr names)
  = existsb (String.eqb u) names.
Proof.
  induction names as [|n names IH]; simpl; [reflexivity |].
  rewrite IH. reflexivity.
Qed.

(** The statement [Log.search] builds, and what it keeps. *)
Lemma log_search_query s project_name from_date user :
  exists criteria,
    Engine.joined_tables logs criteria = []
    /\ (forall l, Sql.keeps (session_bind s) criteria (LogRow l, [])
                  = log_matches project_name from_date user l)
    /\ forall limit offset count,
        Log.search s project_name from_date user limit offset count
        = let query := mkQuery s (Entity logs) criteria
                               [Desc (Column logs_created_on)] false None None in
          if count then n <- Query.count query ;; Ok (Count n)
          else
            let query := match given_int offset with
                         | Some offset => Query.offset query offset
                         | None => query
                         end in
            let query := match given_int limit with
                         | Some limit => Query.limit query limit
                         | None => query
                         end in
            rows <- Query.all query ;; Ok (Rows rows).
Proof.
  unfold Log.search, log_matches.
  destruct (given project_name) as [name|];
    destruct from_date as [t|];
    destruct user as [| u | [| u us]];
    try (destruct (u =? "")%string eqn:Eu);
    simpl user_truthy; try rewrite Eu; cbn [negb];
    (eexists; split; [| split; [| intros; reflexivity]];
     [reflexivity |
      intros l; unfold Sql.keeps; cbn [forallb Sql.holds eval fst snd lookup field app];
      rewrite ?ge_int_true, ?eq_text_true, ?is_true_some, ?existsb_text,
        ?Bool.andb_true_r;
      cbn [Sql.compare3 Sql.is_null orb Sql.value_eqb Sql.is_true existsb];
      rewrite ?is_true_some, ?existsb_text, ?Bool.andb_true_r;
      try reflexivity]).
  all: same_tests.
Qed.

Lemma eq_int_true (o : option Z) (i : Z) :
  Sql.is_true (Sql.compare3 Sql.value_eqb (vint o) (VInt i))
  = match o with Some x => x =? i | None => false end.
Proof. destruct o as [x|]; simpl; [apply is_true_some | reflexivity]. Qed.

(** The statement [ProjectFlag.search] builds, and what it keeps. *)
Lemma flag_search_query s project_name from_date user state :
  exists criteria,
    Engine.joined_tables projects_flags criteria
    = match given project_name with Some _ => [projects] | None => [] end
    /\ keeps_flags (session_bind s) criteria project_name from_date user state
    /\ forall limit offset count,
        ProjectFlag.search s project_name from_date user state limit offset count
        = let query := mkQuery s (Entity projects_flags) criteria
                               [Desc (Column projects_flags_created_on)]
                               false None None in
          if count then n <- Query.count query ;; Ok (Count n)
          else
            let query := match given_int offset with
                         | Some offset => Query.offset query offset
                         | None => query
                         end in
            let query := match given_int limit with
                         | Some limit => Query.limit query limit
                         | None => query
                         end in
            rows <- Query.all query ;; Ok (Rows rows).
Proof.
  unfold ProjectFlag.search, keeps_flags, flag_matches.
  destruct (given project_name) as [name|];
    destruct from_date as [t|];
    destruct (given user) as [u|];
    destruct (given state) as [st|];
    (eexists; split; [| split; [| intros; reflexivity]];
     [reflexivity |
      intros f; try intros p; unfold Sql.keeps;
      cbn [forallb Sql.holds eval fst snd lookup field app];
      rewrite ?ge_int_true, ?eq_int_true, ?eq_text_true, ?is_true_some,
        ?Bool.andb_true_r;
      cbn [Sql.compare3 Sql.is_null orb Sql.value_eqb Sql.is_true];
      rewrite ?is_true_some, ?Bool.andb_true_r, ?Bool.andb_assoc;
      try reflexivity]).
  all: same_tests.
Qed.

Lemma newest_first_leb d a b ja jb :
  Engine.order_leb d [Desc (Column projects_flags_created_on)]
                   (ProjectFlagRow a, ja) (ProjectFlagRow b, jb) = true ->
  newest_first d a b.
Proof.
  unfold Engine.order_leb, newest_first. simpl.
  destruct (ProjectFlag_created_on a) as [x|],
           (ProjectFlag_created_on b) as [y|]; simpl;
    [| destruct (is_postgresql d); simpl; congruence ..| tauto].
  intros H. destruct (Z.compare_spec x y); simpl in H; try discriminate; lia.
Qed.

Lemma oldest_first_leb d a b ja jb :
  Engine.order_leb d [Asc (Column projects_flags_created_on)]
                   (ProjectFlagRow a, ja) (ProjectFlagRow b, jb) = true ->
  oldest_first d a b.
Proof.
  unfold Engine.order_leb, oldest_first. simpl.
  destruct (ProjectFlag_created_on a) as [x|],
           (ProjectFlag_created_on b) as [y|]; simpl;
    [| destruct (is_postgresql d); simpl; congruence ..| tauto].
  intros H. destruct (Z.compare_spec x y); simpl in H; try discriminate; lia.
Qed.

(** The flags the unsliced statement of [ProjectFlag.search] returns. *)
Lemma flag_search_found s project_name from_date user state criteria :
  Engine.joined_tables projects_flags criteria
  = match given project_name with Some _ => [projects] | None => [] end ->
  keeps_flags (session_bind s) criteria project_name from_date user state ->
  exists found,
    Engine.fetch (mkQuery s (Entity projects_flags) criteria
                          [Desc (Column projects_flags_created_on)]
                          false None None)
    = Ok (map ProjectFlagRow found)
    /\ Permutation found
         (flags_found (session_db s) project_name from_date user state)
    /\ Sorted (newest_first (session_bind s)) found.
Proof.
  unfold flags_found, flag_candidates, keeps_flags.
  destruct (given project_name) as [name|]; intros J K.
  - eexists. split; [| split].
    + rewrite (@fetch_two_tables _ _ ProjectFlagRow ProjectRow
                 (db_projects_flags (session_db s)) (db_projects (session_db s))
                 s projects_flags projects criteria _ false eq_refl eq_refl J).
      cbv zeta. rewrite <- (map_map (@fst ProjectFlag Project) ProjectFlagRow).
      reflexivity.
    + rewrite filter_map_commute, map_map. cbn [fst].
      apply (Permutation_map (@fst ProjectFlag Project)).
      eapply perm_trans; [apply sort_perm |].
      erewrite filter_ext; [apply Permutation_refl |].
      intros [f p]. apply K.
    + apply Sorted_map.
      eapply Sorted_impl; [| apply sort_sorted].
      * intros a b. apply newest_first_leb.
      * intros a b. apply order_leb_total.
  - eexists. split; [| split].
    + rewrite (@fetch_one_table _ ProjectFlagRow
                 (db_projects_flags (session_db s))
                 s projects_flags criteria _ false eq_refl J).
      reflexivity.
    + rewrite filter_map_commute, map_map. simpl fst. rewrite map_id.
      eapply perm_trans; [apply sort_perm |].
      erewrite filter_ext; [apply Permutation_refl |].
      intros f. apply K.
    + eapply Sorted_impl; [| apply sort_sorted].
      * intros a b. apply newest_first_leb.
      * intros a b. apply order_leb_total.
Qed.

(** What [ProjectFlag.search] returns, by the flags [found] of the unsliced
    statement. *)
Lemma flag_search_listing s project_name from_date user state :
  exists found,
    Permutation found
      (flags_found (session_db s) project_name from_date user state)
    /\ Sorted (newest_first (session_bind s)) found
    /\ (forall limit offset,
          ProjectFlag.search s project_name from_date user state limit offset false
          = rows <- Engine.slice (session_bind s) (given_int limit)
                      (given_int offset) (map ProjectFlagRow found) ;;
            Ok (Rows rows))
    /\ (forall limit offset,
          ProjectFlag.search s project_name from_date user state limit offset true
          = Ok (Count (Z.of_nat (List.length found)))).
Proof.
  destruct (flag_search_query s project_name from_date user state)
    as (criteria & J & K & Hsearch).
  destruct (flag_search_found s project_name from_date user state criteria J K)
    as (found & Hfetch & Hperm & Hsorted).
  exists found. repeat split; try assumption.
  - intros limit offset. rewrite Hsearch. cbv zeta.
    destruct (given_int offset), (given_int limit);
      unfold Query.all, Query.limit, Query.offset;
      rewrite fetch_sliced, Hfetch; reflexivity.
  - intros limit offset. rewrite Hsearch. cbv zeta.
    unfold Query.count. rewrite Hfetch. cbn [bind].
    rewrite length_map. reflexivity.
Qed.

(** C9.  With [count=True], [Log.search] and [ProjectFlag.search] return the
    number of rows that match the filters, whatever [limit] and [offset] are:
    the count is that of the call without them. *)
Theorem count_ignores_limit_and_offset :
  (forall s project_name from_date user limit offset,
      Log.search s project_name from_date user limit offset true
      = Ok (Count (Z.of_nat
                     (List.length (filter (log_matches project_name from_date user)
                                          (db_logs (session_db s))))))
      /\ Log.search s project_name from_date user limit offset true
         = Log.search s project_name from_date user None None true)
  /\ (forall s project_name from_date user state limit offset,
        ProjectFlag.search s project_name from_date user state limit offset true
        = Ok (Count (Z.of_nat
                       (List.length (flags_found (session_db s) project_name
                                                 from_date user state))))
        /\ ProjectFlag.search s project_name from_date user state limit offset true
           = ProjectFlag.search s project_name from_date user state None None true).
Proof.
  split.
  - intros s project_name from_date user limit offset.
    destruct (log_search_query s project_name from_date user)
      as (criteria & J & K & Hsearch).
    rewrite !Hsearch. cbv zeta. split; [| reflexivity].
    unfold Query.count.
    rewrite (@fetch_one_table _ LogRow (db_logs (session_db s))
               s logs criteria _ false eq_refl J).
    cbn [bind]. rewrite length_map, sort_length.
    erewrite filter_ext; [reflexivity |]. exact K.
  - intros s project_name from_date user state limit offset.
    destruct (flag_search_listing s project_name from_date user state)
      as (found & Hperm & _ & _ & Hcount).
    rewrite !Hcount. split; [| reflexivity].
    rewrite (Permutation_length Hperm). reflexivity.
Qed.

(** The flags [ProjectFlag.all] returns. *)
Lemma flag_all_listing s :
  exists every,
    Permutation every (db_projects_flags (session_db s))
    /\ Sorted (oldest_first (session_bind s)) every
    /\ forall page count,
        ProjectFlag.all s page count = Ok (Rows (map ProjectFlagRow every)).
Proof.
  eexists. split; [| split].
  - apply sort_perm.
  - eapply Sorted_impl; [| apply sort_sorted].
    + intros a b. apply (@oldest_first_leb _ a b [] []).
    + intros a b. apply order_leb_total.
  - intros page count. unfold ProjectFlag.all, Query.all, query, Query.order_by.
    cbn [flat_map app].
    rewrite (@fetch_one_table _ ProjectFlagRow (db_projects_flags (session_db s))
               s projects_flags [] _ false eq_refl eq_refl).
    cbn [bind]. cbv zeta. cbn [Sql.keeps forallb].
    replace (filter (fun _ => true) (db_projects_flags (session_db s)))
      with (db_projects_flags (session_db s)).
    + reflexivity.
    + clear. induction (db_projects_flags (session_db s)) as [|f l IH];
        simpl; [| rewrite <- IH]; reflexivity.
Qed.



(* ------------------------------------------------------------------------- *)
(** ** [LIKE] patterns *)
(* ------------------------------------------------------------------------- *)

Lemma plain_not_escape d c :
  plain c = true -> Sql.is_escape (Sql.like_escape d) c = false.
Proof.
  unfold plain, Sql.like_escape, Sql.is_escape. intros H.
  destruct (is_postgresql d); [| reflexivity].
  apply Bool.andb_true_iff in H as [_ H]. apply Bool.negb_true_iff in H. exact H.
Qed.

Lemma like_percent_any esc (s : string) :
  Sql.is_escape esc "%" = false -> Sql.like_match esc "%" s = true.
Proof.
  intros E. simpl. rewrite E.
  induction s as [|c s IH]; simpl; [reflexivity | exact IH].
Qed.

Lemma percent_not_escape d : Sql.is_escape (Sql.like_escape d) "%" = false.
Proof.
  unfold Sql.like_escape, Sql.is_escape. destruct (is_postgresql d); reflexivity.
Qed.

(** A plain text followed by [%] matches the texts that begin with it. *)
Lemma like_prefix d (lit s : string) :
  all_plain lit = true ->
  Sql.like_match (Sql.like_escape d) (lit ++ "%") s = String.prefix lit s.
Proof.
  revert s. induction lit as [|c lit IH]; intros s Hp.
  - simpl append. rewrite like_percent_any by apply percent_not_escape.
    destruct s; reflexivity.
  - simpl in Hp. apply Bool.andb_true_iff in Hp as [Hc Hp].
    simpl. rewrite (plain_not_escape d c Hc).
    unfold plain in Hc.
    apply Bool.andb_true_iff in Hc as [Hc _].
    apply Bool.andb_true_iff in Hc as [H1 H2].
    apply Bool.negb_true_iff in H1, H2. rewrite H1, H2.
    destruct s as [|x s]; [reflexivity |].
    rewrite (IH s Hp). cbn [String.prefix].
    destruct (ascii_dec c x) as [-> | Hne].
    + rewrite Ascii.eqb_refl. reflexivity.
    + destruct (Ascii.eqb x c) eqn:E; [| reflexivity].
      apply Ascii.eqb_eq in E. congruence.
Qed.

Lemma ilike_strange d (l : string) :
  Sql.ilike d "Something strange occured%" l
  = begins_with "Something strange occured" l.
Proof.
  unfold Sql.ilike, begins_with.
  change (Py.lower "Something strange occured%")
    with (Py.lower "Something strange occured" ++ "%").
  apply like_prefix. reflexivity.
Qed.

(* ------------------------------------------------------------------------- *)
(** ** [Project.updated] *)
(* ------------------------------------------------------------------------- *)

Lemma In_map_project (p : Project) (l : list Project) :
  In (ProjectRow p) (map ProjectRow l) <-> In p l.
Proof.
  rewrite in_map_iff. split.
  - intros (x & [= ->] & H). exact H.
  - intros H. exists p. auto.
Qed.

(** The projects a statement over the projects table lists. *)
Lemma listed_projects s criteria order (P : Project -> bool) p :
  Engine.joined_tables projects criteria = [] ->
  (forall x, Sql.keeps (session_bind s) criteria (ProjectRow x, []) = P x) ->
  listed (ProjectRow p)
         (finish (mkQuery s (Entity projects) criteria order false None None) false)
  <-> In p (db_projects (session_db s)) /\ P p = true.
Proof.
  intros J K. unfold listed, finish, Query.all.
  rewrite (@fetch_one_table _ ProjectRow (db_projects (session_db s))
             s projects criteria order false eq_refl J).
  cbn [bind]. cbv zeta.
  rewrite (filter_ext _ _ K), <- filter_In.
  rewrite <- (sort_in (fun a b => Engine.order_leb (session_bind s) order
                                    (ProjectRow a, []) (ProjectRow b, [])) p).
  rewrite <- In_map_project.
  split.
  - intros (rows & [= <-] & H). exact H.
  - intros H. eexists. split; [reflexivity | exact H].
Qed.

(** The test each status adds to the statement, row by row.  The two texts
    are generalized first, so that no step computes with them. *)
Ltac bucket_test :=
  let x := fresh "x" in
  let sentinel := fresh "sentinel" in
  let pattern := fresh "pattern" in
  let B := fresh "B" in
  let HB := fresh "HB" in
  intros x;
  unfold is_updated, is_failed, is_odd, is_new, is_never_updated;
  match goal with
  | |- Sql.keeps ?d _ _ = _ => generalize (ilike_strange d)
  end;
  generalize (begins_with "Something strange occured");
  generalize "Something strange occured%";
  generalize "Version retrieved correctly";
  intros sentinel pattern B HB;
  unfold Sql.keeps;
  cbn [forallb Sql.holds eval fst snd lookup field];
  destruct (Project_logs x) as [?l|];
  destruct (Project_latest_version x) as [?v|];
  cbn [vstr Sql.is_null negb Sql.is_true Sql.compare3 Sql.not3 option_map
       Sql.text3 Sql.value_eqb orb andb];
  rewrite ?HB;
  repeat match goal with
         | |- context [(?a =? sentinel)%string] => destruct (a =? sentinel)%string
         | |- context [B ?a] => destruct (B a)
         end;
  reflexivity.

Ltac status_query :=
  unfold updated_with, Project.updated;
  cbn [String.eqb Ascii.eqb Bool.eqb given _paginate_query page_truthy
       Query.filter Query.order_by query app flat_map].

Lemma updated_lists s p :
  listed (ProjectRow p) (updated_with s "updated")
  <-> In p (db_projects (session_db s)) /\ is_updated p = true.
Proof. status_query. apply listed_projects; [reflexivity | bucket_test]. Qed.

Lemma failed_lists s p :
  listed (ProjectRow p) (updated_with s "failed")
  <-> In p (db_projects (session_db s)) /\ is_failed p = true.
Proof. status_query. apply listed_projects; [reflexivity | bucket_test]. Qed.

Lemma odd_lists s p :
  listed (ProjectRow p) (updated_with s "odd")
  <-> In p (db_projects (session_db s)) /\ is_odd p = true.
Proof. status_query. apply listed_projects; [reflexivity | bucket_test]. Qed.

Lemma new_lists s p :
  listed (ProjectRow p) (updated_with s "new")
  <-> In p (db_projects (session_db s)) /\ is_new p = true.
Proof. status_query. apply listed_projects; [reflexivity | bucket_test]. Qed.

Lemma never_updated_lists s p :
  listed (ProjectRow p) (updated_with s "never_updated")
  <-> In p (db_projects (session_db s)) /\ is_never_updated p = true.
Proof. status_query. apply listed_projects; [reflexivity | bucket_test]. Qed.

(** C2 as amended.  With a status alone, [Project.updated] lists exactly the
    projects of that status: [updated], the logs are the text "Version
    retrieved correctly"; [failed], the logs are another text, which does not
    begin with "Something strange occured" whatever the case of the letters;
    [odd], the logs are another text, which begins with it; [new], there are
    no logs; [never_updated], the logs are another text and there is no
    latest version.  No project is in two of [updated], [failed], [odd] and
    [new]; a [never_updated] project is not [updated] and not [new], and it
    is [failed] or [odd] as well. *)
Theorem updated_buckets s p :
  let stored := In p (db_projects (session_db s)) in
  (listed (ProjectRow p) (updated_with s "updated")
   <-> stored /\ is_updated p = true)
  /\ (listed (ProjectRow p) (updated_with s "failed")
      <-> stored /\ is_failed p = true)
  /\ (listed (ProjectRow p) (updated_with s "odd")
      <-> stored /\ is_odd p = true)
  /\ (listed (ProjectRow p) (updated_with s "new")
      <-> stored /\ is_new p = true)
  /\ (listed (ProjectRow p) (updated_with s "never_updated")
      <-> stored /\ is_never_updated p = true)
  /\ (is_updated p && is_failed p = false
      /\ is_updated p && is_odd p = false
      /\ is_updated p && is_new p = false
      /\ is_failed p && is_odd p = false
      /\ is_failed p && is_new p = false
      /\ is_odd p && is_new p = false)
  /\ (is_never_updated p && is_updated p = false
      /\ is_never_updated p && is_new p = false
      /\ is_never_updated p = is_never_updated p && (is_failed p || is_odd p)).
Proof.
  intros stored. subst stored.
  split; [apply updated_lists |].
  split; [apply failed_lists |].
  split; [apply odd_lists |].
  split; [apply new_lists |].
  split; [apply never_updated_lists |].
  unfold is_updated, is_failed, is_odd, is_new, is_never_updated.
  generalize (begins_with "Something strange occured").
  generalize "Version retrieved correctly". intros sentinel B.
  destruct (Project_logs p) as [l|]; destruct (Project_latest_version p);
    try destruct (l =? sentinel)%string; try destruct (B l); repeat split.
Qed.

(** C2 as the spec states it fails: the buckets are not mutually exclusive,
    a project whose update failed and that has no version yet is listed as
    [failed] and as [never_updated]; and a text counts as beginning with
    "Something strange occured" whatever the case of its letters. *)
Lemma updated_buckets_overlap :
  listed (ProjectRow Sample.broken) (updated_with Sample.session "failed")
  /\ listed (ProjectRow Sample.broken)
            (updated_with Sample.session "never_updated")
  /\ listed (ProjectRow Sample.strange) (updated_with Sample.session "odd")
  /\ String.prefix "Something strange occured" "something STRANGE occured: x"
     = false.
Proof.
  repeat split;
    try (eexists; split; [vm_compute; reflexivity | simpl; tauto]).
Qed.

(* ------------------------------------------------------------------------- *)
(** ** [Project.search] and [Distro.search] *)
(* ------------------------------------------------------------------------- *)

Lemma In_unique (r : row) (rows : list row) :
  In r (Engine.unique rows) <-> In r rows.
Proof.
  induction rows as [|x rows IH]; simpl; [tauto |].
  rewrite filter_In, IH.
  destruct (row_eq_dec x r) as [-> | Hne].
  - split; auto.
  - destruct (row_eq_dec x r) as [E | _]; [contradiction |].
    split; [intros [H | [H _]]; auto | intros [H | H]; auto].
Qed.

(** The rows a statement over one table lists. *)
Lemma listed_one_table (X : Type) (C : X -> row) (xs : list X)
      s cls criteria order distinct (P : X -> bool) (x : X) :
  (forall a b, C a = C b -> a = b) ->
  table_rows (session_db s) cls = map C xs ->
  Engine.joined_tables cls criteria = [] ->
  (forall a, Sql.keeps (session_bind s) criteria (C a, []) = P a) ->
  exists rows,
    Engine.fetch (mkQuery s (Entity cls) criteria order distinct None None)
    = Ok rows
    /\ (In (C x) rows <-> In x xs /\ P x = true).
Proof.
  intros Inj T J K.
  rewrite (@fetch_one_table _ C xs s cls criteria order distinct T J).
  eexists. split; [reflexivity |]. cbv zeta.
  rewrite (filter_ext _ _ K), <- filter_In.
  rewrite <- (sort_in (fun a b => Engine.order_leb (session_bind s) order
                                    (C a, []) (C b, [])) x).
  assert (M : forall l, In (C x) (map C l) <-> In x l).
  { intros l. rewrite in_map_iff. split.
    - intros (a & E & H). apply Inj in E. subst a. exact H.
    - intros H. exists x. auto. }
  destruct distinct; [rewrite In_unique |]; apply M.
Qed.

(** The rows of the selected table that a statement over two tables lists. *)
Lemma listed_two_tables (X Y : Type) (C : X -> row) (D : Y -> row)
      (xs : list X) (ys : list Y)
      s cls other criteria order distinct (P : X -> Y -> bool) (x : X) :
  (forall a b, C a = C b -> a = b) ->
  table_rows (session_db s) cls = map C xs ->
  table_rows (session_db s) other = map D ys ->
  Engine.joined_tables cls criteria = [other] ->
  (forall a b, Sql.keeps (session_bind s) criteria (C a, [D b]) = P a b) ->
  exists rows,
    Engine.fetch (mkQuery s (Entity cls) criteria order distinct None None)
    = Ok rows
    /\ (In (C x) rows <-> In x xs /\ exists y, In y ys /\ P x y = true).
Proof.
  intros Inj T U J K.
  rewrite (@fetch_two_tables _ _ C D xs ys s cls other criteria order distinct
             T U J).
  eexists. split; [reflexivity |]. cbv zeta.
  assert (M : In (C x)
                 (map (fun xy => C (fst xy))
                      (Engine.sort
                         (fun a b => Engine.order_leb (session_bind s) order
                                       (C (fst a), [D (snd a)])
                                       (C (fst b), [D (snd b)]))
                         (filter (fun xy => Sql.keeps (session_bind s) criteria
                                              (C (fst xy), [D (snd xy)]))
                                 (list_prod xs ys))))
               <-> In x xs /\ exists y, In y ys /\ P x y = true).
  { rewrite in_map_iff. split.
    - intros ([a b] & E & H). simpl in E. apply Inj in E. subst a.
      apply sort_in, filter_In in H. destruct H as [H Hk].
      apply in_prod_iff in H. simpl in Hk. rewrite K in Hk.
      split; [tauto | exists b; tauto].
    - intros (Hx & y & Hy & HP). exists (x, y). split; [reflexivity |].
      apply sort_in, filter_In. split.
      + apply in_prod_iff. auto.
      + simpl. rewrite K. exact HP. }
  destruct distinct; [rewrite In_unique |]; exact M.
Qed.

(** The rows a union lists, ordered or not. *)
Lemma listed_union s q1 q2 order rows1 rows2 (r : row) :
  Engine.fetch q1 = Ok rows1 ->
  Engine.fetch q2 = Ok rows2 ->
  listed r (finish (mkQuery s (Union q1 q2) [] order false None None) false)
  <-> In r rows1 \/ In r rows2.
Proof.
  intros F1 F2. unfold listed, finish, Query.all.
  cbn [Engine.fetch]. rewrite F1, F2. cbn [bind]. rewrite slice_none.
  cbn [bind].
  assert (M : In r (map fst
                      (Engine.sort (Engine.order_leb (session_bind s) order)
                         (filter (Sql.keeps (session_bind s) [])
                            (map (fun x : row => (x, @nil row))
                               (Engine.unique (rows1 ++ rows2))))))
              <-> In r rows1 \/ In r rows2).
  { rewrite <- in_app_iff, <- (In_unique r (rows1 ++ rows2)), in_map_iff. split.
    - intros ([a j] & E & H). simpl in E. subst a.
      apply sort_in, filter_In in H. destruct H as [H _].
      apply in_map_iff in H. destruct H as (x & [= -> _] & H). exact H.
    - intros H. exists (r, []). split; [reflexivity |].
      apply sort_in, filter_In. split; [| reflexivity].
      apply in_map_iff. exists r. auto. }
  split.
  - intros (rows & [= <-] & H). apply M, H.
  - intros H. eexists. split; [reflexivity | apply M, H].
Qed.

Lemma prefix_empty (s : string) : String.prefix "" s = true.
Proof. destruct s; reflexivity. Qed.

Lemma prefix_char (o c : ascii) (s : string) :
  String.prefix (String o "") (String c s) = Ascii.eqb c o.
Proof.
  simpl. destruct (ascii_dec o c) as [-> | Hne].
  - rewrite prefix_empty, Ascii.eqb_refl. reflexivity.
  - symmetry. apply Ascii.eqb_neq. congruence.
Qed.

(** [replace] of a single character works character by character. *)
Lemma replace_char (o : ascii) (new s : string) :
  Py.replace (String o "") new s = substitute o new s.
Proof.
  unfold Py.replace, substitute.
  induction s as [|c s IH]; [reflexivity |].
  cbn [Py.replace_from each_char]. rewrite prefix_char.
  change (String.length (String o "") - 1)%nat with 0%nat.
  rewrite IH. destruct (Ascii.eqb c o); reflexivity.
Qed.

Lemma substitute_absent (o : ascii) (new s : string) :
  Py.contains (String o "") s = false -> substitute o new s = s.
Proof.
  unfold substitute. induction s as [|c s IH]; [reflexivity |].
  cbn [Py.contains each_char]. rewrite prefix_char.
  destruct (Ascii.eqb c o); [discriminate |].
  simpl. intros H. rewrite IH by exact H. reflexivity.
Qed.

Lemma substitute_nonempty (o : ascii) (new s : string) :
  new <> "" -> s <> "" -> substitute o new s <> "".
Proof.
  intros Hn Hs. destruct s as [|c s]; [contradiction |].
  unfold substitute. cbn [each_char].
  destruct (Ascii.eqb c o); [| discriminate].
  destruct new; [contradiction | discriminate].
Qed.

(** The pattern [Project.search] compares with. *)
Lemma project_search_pattern (pattern : string) :
  (let pattern := Py.replace "_" "\_" pattern in
   if Py.contains "*" pattern then Py.replace "*" "%" pattern else pattern)
  = stars_to_percents (escape_underscores pattern).
Proof.
  cbv zeta. rewrite !replace_char. fold (escape_underscores pattern).
  destruct (Py.contains "*" (escape_underscores pattern)) eqn:E.
  - reflexivity.
  - symmetry. apply substitute_absent, E.
Qed.

Lemma given_nonempty (s : string) : s <> "" -> given (Some s) = Some s.
Proof.
  intros H. unfold given. apply String.eqb_neq in H. rewrite H. reflexivity.
Qed.

Lemma lower_char_idempotent (c : ascii) :
  Py.lower_char (Py.lower_char c) = Py.lower_char c.
Proof. destruct c as [[] [] [] [] [] [] [] []]; reflexivity. Qed.

Lemma lower_idempotent (s : string) : Py.lower (Py.lower s) = Py.lower s.
Proof.
  induction s as [|c s IH]; simpl; [reflexivity |].
  rewrite lower_char_idempotent, IH. reflexivity.
Qed.

Lemma project_name_test d (pattern : string) (p : Project) :
  Sql.keeps d
    [if Py.contains "%" pattern
     then ILike (Column projects_name) (Literal (VStr pattern))
     else Eq_ (Column projects_name) (Literal (VStr pattern))]
    (ProjectRow p, [])
  = pattern_matches d pattern (Project_name p).
Proof.
  unfold Sql.keeps, pattern_matches.
  destruct (Py.contains "%" pattern);
    cbn [forallb Sql.holds eval fst snd lookup field Sql.text3 Sql.compare3
         Sql.is_null orb Sql.value_eqb];
    rewrite is_true_some, Bool.andb_true_r; reflexivity.
Qed.

Lemma package_name_test d (pattern : string) (p : Project) (k : Packages) :
  Sql.keeps d
    [Eq_ (Column projects_id) (Column packages_project_id);
     if Py.contains "%" pattern
     then ILike (Column packages_package_name) (Literal (VStr pattern))
     else Eq_ (Column packages_package_name) (Literal (VStr pattern))]
    (ProjectRow p, [PackagesRow k])
  = package_matches d pattern p k.
Proof.
  unfold Sql.keeps, package_matches, pattern_matches.
  destruct (Py.contains "%" pattern);
    cbn [forallb Sql.holds eval fst snd lookup field];
    destruct (Packages_project_id k) as [i|];
    destruct (Packages_package_name k) as [n|];
    cbn [vint vstr Sql.text3 Sql.compare3 Sql.is_null orb Sql.value_eqb
         Sql.is_true andb];
    rewrite ?is_true_some, ?Bool.andb_true_r, ?Bool.andb_false_r;
    first [reflexivity | same_tests].
Qed.

Lemma ProjectRow_injective (a b : Project) : ProjectRow a = ProjectRow b -> a = b.
Proof. intros [= ->]. reflexivity. Qed.

(** What [Project.search] lists for a pattern, any distribution. *)
Lemma project_search_lists s (pattern : string) (p : Project) :
  pattern <> "" ->
  let pat := stars_to_percents (escape_underscores pattern) in
  listed (ProjectRow p) (Project.search s (Some pattern) None PageNone false)
  <-> In p (db_projects (session_db s))
      /\ (pattern_matches (session_bind s) pat (Project_name p) = true
          \/ exists k, In k (db_packages (session_db s))
                       /\ package_matches (session_bind s) pat p k = true).
Proof.
  intros Hne pat. unfold Project.search.
  rewrite (given_nonempty Hne), project_search_pattern. fold pat.
  assert (Hpat : pat <> "").
  { apply substitute_nonempty; [discriminate |].
    apply substitute_nonempty; [discriminate | exact Hne]. }
  rewrite (given_nonempty Hpat). clearbody pat. clear Hne pattern.
  cbn [_paginate_query page_truthy].
  destruct (@listed_one_table _ ProjectRow (db_projects (session_db s))
              s projects
              [if Py.contains "%" pat
               then ILike (Column projects_name) (Literal (VStr pat))
               else Eq_ (Column projects_name) (Literal (VStr pat))]
              [] true
              (fun a => pattern_matches (session_bind s) pat (Project_name a)) p
              ProjectRow_injective eq_refl
              ltac:(destruct (Py.contains "%" pat); reflexivity)
              (project_name_test (session_bind s) pat))
    as (rows1 & F1 & H1).
  destruct (@listed_two_tables _ _ ProjectRow PackagesRow
              (db_projects (session_db s)) (db_packages (session_db s))
              s projects packages
              [Eq_ (Column projects_id) (Column packages_project_id);
               if Py.contains "%" pat
               then ILike (Column packages_package_name) (Literal (VStr pat))
               else Eq_ (Column packages_package_name) (Literal (VStr pat))]
              [] true
              (package_matches (session_bind s) pat) p
              ProjectRow_injective eq_refl eq_refl
              ltac:(destruct (Py.contains "%" pat); reflexivity)
              (package_name_test (session_bind s) pat))
    as (rows2 & F2 & H2).
  assert (Q : forall q1 q2,
             q1 = mkQuery s (Entity projects)
                    [if Py.contains "%" pat
                     then ILike (Column projects_name) (Literal (VStr pat))
                     else Eq_ (Column projects_name) (Literal (VStr pat))]
                    [] true None None ->
             q2 = mkQuery s (Entity projects)
                    [Eq_ (Column projects_id) (Column packages_project_id);
                     if Py.contains "%" pat
                     then ILike (Column packages_package_name) (Literal (VStr pat))
                     else Eq_ (Column packages_package_name) (Literal (VStr pat))]
                    [] true None None ->
             listed (ProjectRow p)
               (finish (Query.order_by (Query.union q1 q2)
                          [Some (Asc (Column projects_name))]) false)
             <-> In p (db_projects (session_db s))
                 /\ (pattern_matches (session_bind s) pat (Project_name p) = true
                     \/ exists k, In k (db_packages (session_db s))
                                  /\ package_matches (session_bind s) pat p k = true)).
  { intros q1 q2 -> ->.
    unfold Query.union, Query.order_by. cbn [q_session app flat_map].
    rewrite (@listed_union s _ _ _ _ _ (ProjectRow p) F1 F2), H1, H2. tauto. }
  apply Q; destruct (Py.contains "%" pat); reflexivity.
Qed.

Lemma project_name_in_distro_test d (pattern distro : string)
      (p : Project) (k : Packages) :
  Sql.keeps d
    [if Py.contains "%" pattern
     then ILike (Column projects_name) (Literal (VStr pattern))
     else Eq_ (Column projects_name) (Literal (VStr pattern));
     Eq_ (Column projects_id) (Column packages_project_id);
     Eq_ (Lower (Column packages_distro)) (Lower (Literal (VStr distro)))]
    (ProjectRow p, [PackagesRow k])
  = pattern_matches d pattern (Project_name p) && packaged_in distro p k.
Proof.
  unfold Sql.keeps, packaged_in, in_distro, pattern_matches.
  destruct (Py.contains "%" pattern);
    cbn [forallb Sql.holds eval fst snd lookup field];
    destruct (Packages_project_id k) as [i|];
    destruct (Packages_distro k) as [x|];
    cbn [vint vstr Sql.text3 Sql.compare3 Sql.is_null orb Sql.value_eqb
         Sql.is_true andb];
    rewrite ?is_true_some, ?Bool.andb_true_r, ?Bool.andb_false_r;
    first [reflexivity | same_tests].
Qed.

Lemma package_name_in_distro_test d (pattern distro : string)
      (p : Project) (k : Packages) :
  Sql.keeps d
    [Eq_ (Column projects_id) (Column packages_project_id);
     if Py.contains "%" pattern
     then ILike (Column packages_package_name) (Literal (VStr pattern))
     else Eq_ (Column packages_package_name) (Literal (VStr pattern));
     Eq_ (Lower (Column packages_distro)) (Lower (Literal (VStr distro)))]
    (ProjectRow p, [PackagesRow k])
  = package_matches d pattern p k && in_distro distro k.
Proof.
  unfold Sql.keeps, package_matches, in_distro, pattern_matches.
  destruct (Py.contains "%" pattern);
    cbn [forallb Sql.holds eval fst snd lookup field];
    destruct (Packages_project_id k) as [i|];
    destruct (Packages_package_name k) as [n|];
    destruct (Packages_distro k) as [x|];
    cbn [vint vstr Sql.text3 Sql.compare3 Sql.is_null orb Sql.value_eqb
         Sql.is_true andb];
    rewrite ?is_true_some, ?Bool.andb_true_r, ?Bool.andb_false_r;
    first [reflexivity | same_tests].
Qed.

(** What [Project.search] lists for a pattern within a distribution. *)
Lemma project_search_in_distro_lists s (pattern distro : string) (p : Project) :
  pattern <> "" ->
  let pat := stars_to_percents (escape_underscores pattern) in
  listed (ProjectRow p)
         (Project.search s (Some pattern) (Some distro) PageNone false)
  <-> In p (db_projects (session_db s))
      /\ ((pattern_matches (session_bind s) pat (Project_name p) = true
           /\ exists k, In k (db_packages (session_db s))
                        /\ packaged_in distro p k = true)
          \/ exists k, In k (db_packages (session_db s))
                       /\ package_matches (session_bind s) pat p k = true
                       /\ in_distro distro k = true).
Proof.
  intros Hne pat. unfold Project.search.
  rewrite (given_nonempty Hne), project_search_pattern. fold pat.
  assert (Hpat : pat <> "").
  { apply substitute_nonempty; [discriminate |].
    apply substitute_nonempty; [discriminate | exact Hne]. }
  rewrite (given_nonempty Hpat). clearbody pat. clear Hne pattern.
  cbn [_paginate_query page_truthy].
  destruct (@listed_two_tables _ _ ProjectRow PackagesRow
              (db_projects (session_db s)) (db_packages (session_db s))
              s projects packages
              [if Py.contains "%" pat
               then ILike (Column projects_name) (Literal (VStr pat))
               else Eq_ (Column projects_name) (Literal (VStr pat));
               Eq_ (Column projects_id) (Column packages_project_id);
               Eq_ (Lower (Column packages_distro)) (Lower (Literal (VStr distro)))]
              [] true
              (fun a b => pattern_matches (session_bind s) pat (Project_name a)
                          && packaged_in distro a b) p
              ProjectRow_injective eq_refl eq_refl
              ltac:(destruct (Py.contains "%" pat); reflexivity)
              (project_name_in_distro_test (session_bind s) pat distro))
    as (rows1 & F1 & H1).
  destruct (@listed_two_tables _ _ ProjectRow PackagesRow
              (db_projects (session_db s)) (db_packages (session_db s))
              s projects packages
              [Eq_ (Column projects_id) (Column packages_project_id);
               if Py.contains "%" pat
               then ILike (Column packages_package_name) (Literal (VStr pat))
               else Eq_ (Column packages_package_name) (Literal (VStr pat));
               Eq_ (Lower (Column packages_distro)) (Lower (Literal (VStr distro)))]
              [] true
              (fun a b => package_matches (session_bind s) pat a b
                          && in_distro distro b) p
              ProjectRow_injective eq_refl eq_refl
              ltac:(destruct (Py.contains "%" pat); reflexivity)
              (package_name_in_distro_test (session_bind s) pat distro))
    as (rows2 & F2 & H2).
  assert (Q : forall q1 q2,
             q1 = mkQuery s (Entity projects)
                    [if Py.contains "%" pat
                     then ILike (Column projects_name) (Literal (VStr pat))
                     else Eq_ (Column projects_name) (Literal (VStr pat));
                     Eq_ (Column projects_id) (Column packages_project_id);
                     Eq_ (Lower (Column packages_distro))
                         (Lower (Literal (VStr distro)))]
                    [] true None None ->
             q2 = mkQuery s (Entity projects)
                    [Eq_ (Column projects_id) (Column packages_project_id);
                     if Py.contains "%" pat
                     then ILike (Column packages_package_name) (Literal (VStr pat))
                     else Eq_ (Column packages_package_name) (Literal (VStr pat));
                     Eq_ (Lower (Column packages_distro))
                         (Lower (Literal (VStr distro)))]
                    [] true None None ->
             listed (ProjectRow p)
               (finish (Query.order_by (Query.union q1 q2)
                          [Some (Asc (Column projects_name))]) false)
             <-> In p (db_projects (session_db s))
                 /\ ((pattern_matches (session_bind s) pat (Project_name p) = true
                      /\ exists k, In k (db_packages (session_db s))
                                   /\ packaged_in distro p k = true)
                     \/ exists k, In k (db_packages (session_db s))
                                  /\ package_matches (session_bind s) pat p k = true
                                  /\ in_distro distro k = true)).
  { intros q1 q2 -> ->.
    unfold Query.union, Query.order_by. cbn [q_session app flat_map].
    rewrite (@listed_union s _ _ _ _ _ (ProjectRow p) F1 F2), H1, H2.
    split.
    - intros [(Hp & k & Hk & HP) | (Hp & k & Hk & HP)];
        apply Bool.andb_true_iff in HP as [HA HB]; split; eauto 6.
    - intros (Hp & [(HA & k & Hk & HB) | (k & Hk & HA & HB)]);
        [left | right]; (split; [exact Hp |]); exists k;
        (split; [exact Hk |]); apply Bool.andb_true_iff; auto. }
  apply Q; destruct (Py.contains "%" pat); reflexivity.
Qed.

Lemma sample_ascii_distros d : ascii_distros (session_db (Sample.session_on d)).
Proof. intros x H. repeat destruct H as [<- | H]; [reflexivity .. | destruct H]. Qed.

Lemma sample_ascii_projects d : ascii_projects (session_db (Sample.session_on d)).
Proof.
  intros x H.
  repeat destruct H as [<- | H]; [split; reflexivity .. | destruct H].
Qed.

Lemma sample_ascii_packages d : ascii_packages (session_db (Sample.session_on d)).
Proof.
  intros x H.
  repeat destruct H as [<- | H]; [split; reflexivity .. | destruct H].
Qed.



(** C3.  [Distro.search] leaves the underscore of a pattern as it is, where
    [Project.search] puts a backslash before it: the pattern "a_c" finds the
    distribution "abc", the underscore standing for any one character, on
    either engine; whereas [Project.search] on PostgreSQL does not find the
    project "zlib" for "zl_b*", which it finds for "zl*". *)
Theorem distro_search_keeps_underscore :
  listed (DistroRow {| Distro_name := "abc" |})
         (Distro.search Sample.session "a_c" PageNone false)
  /\ listed (DistroRow {| Distro_name := "abc" |})
            (Distro.search (Sample.session_on postgresql) "a_c" PageNone false)
  /\ listed (ProjectRow Sample.zlib)
            (Project.search (Sample.session_on postgresql) (Some "zl*") None
                            PageNone false)
  /\ ~ listed (ProjectRow Sample.zlib)
              (Project.search (Sample.session_on postgresql) (Some "zl_b*") None
                              PageNone false).
Proof.
  split; [| split; [| split]];
    try (eexists; split; [vm_compute; reflexivity | simpl; tauto]).
  intros (rows & E & H). vm_compute in E. injection E as <-. destruct H.
Qed.

(* ------------------------------------------------------------------------- *)
(** ** [Project.get_version_class] *)
(* ------------------------------------------------------------------------- *)

Section VersionClass.
Variable Version : Type.
Variable ECOSYSTEM_PLUGINS BACKEND_PLUGINS : PluginManager Plugin.
Variable VERSION_PLUGINS : PluginManager Version.
Variable DEFAULT_VERSION_SCHEME : string.

Local Abbreviation get_version_class :=
  (Project.get_version_class ECOSYSTEM_PLUGINS BACKEND_PLUGINS VERSION_PLUGINS
                             DEFAULT_VERSION_SCHEME).
Local Abbreviation resolves :=
  (resolves_to ECOSYSTEM_PLUGINS BACKEND_PLUGINS DEFAULT_VERSION_SCHEME).

(** The class is the answer of the version registry for the resolved name. *)
Lemma version_class_of_resolved self scheme :
  resolves self scheme ->
  get_version_class self = get_plugin VERSION_PLUGINS scheme.
Proof.
  unfold Project.get_version_class.
  intros [scheme' Hown
         | scheme' Hown (n & plugin & Hn & Hp & Hd)
         | scheme' Hown Heco (n & plugin & Hn & Hp & Hd)
         | Hown Heco Hback].
  - rewrite Hown. cbn [bind].
    destruct (given (Project_backend self)); rewrite Hown; cbn [bind];
      rewrite Hown; reflexivity.
  - rewrite Hown, Hn, Hp. cbn [bind]. rewrite Hd.
    destruct (given (Project_backend self)); cbn [bind]; rewrite Hd;
      reflexivity.
  - rewrite Hown.
    destruct Heco as [He | (m & eco & He & Hq & Hnone)].
    + rewrite He. cbn [bind]. rewrite Hown, Hn, Hp. cbn [bind].
      rewrite Hd. reflexivity.
    + rewrite He, Hq. cbn [bind]. rewrite Hnone, Hn, Hp. cbn [bind].
      rewrite Hd. reflexivity.
  - rewrite Hown.
    assert (E : forall vs : option string,
               given vs = None ->
               (version_scheme <-
                  match given vs, given (Project_backend self) with
                  | None, Some backend_name =>
                      backend <- get_plugin BACKEND_PLUGINS backend_name ;;
                      Ok (default_version_scheme backend)
                  | _, _ => Ok vs
                  end ;;
                get_plugin VERSION_PLUGINS
                  match given version_scheme with
                  | None => DEFAULT_VERSION_SCHEME
                  | Some v => v
                  end)
               = get_plugin VERSION_PLUGINS DEFAULT_VERSION_SCHEME).
    { intros vs Hvs. rewrite Hvs.
      destruct Hback as [Hb | (b & back & Hb & Hq & Hnone)].
      - rewrite Hb. cbn [bind]. rewrite Hvs. reflexivity.
      - rewrite Hb, Hq. cbn [bind]. rewrite Hnone. reflexivity. }
    destruct Heco as [He | (m & eco & He & Hq & Hnone)].
    + rewrite He. cbn [bind]. apply E, Hown.
    + rewrite He, Hq. cbn [bind]. apply E, Hnone.
Qed.

(** A class is only ever returned for a resolved name. *)
Lemma version_class_resolved self v :
  get_version_class self = Ok v ->
  exists scheme,
    resolves self scheme /\ get_plugin VERSION_PLUGINS scheme = Ok v.
Proof.
  intros H.
  assert (R : exists scheme, resolves self scheme).
  { unfold Project.get_version_class in H.
    destruct (given (Project_version_scheme self)) as [own|] eqn:Hown.
    { exists own. apply own_scheme. exact Hown. }
    destruct (given (Project_ecosystem_name self)) as [n|] eqn:Hn.
    - destruct (get_plugin ECOSYSTEM_PLUGINS n) as [eco|e] eqn:Hq;
        cbn [bind] in H; [| discriminate].
      destruct (given (default_version_scheme eco)) as [d|] eqn:Hd.
      + exists d. apply ecosystem_default; [exact Hown |].
        exists n, eco. auto.
      + assert (Heco : no_default_from ECOSYSTEM_PLUGINS
                         (Project_ecosystem_name self))
          by (right; exists n, eco; auto).
        destruct (given (Project_backend self)) as [b|] eqn:Hb.
        * destruct (get_plugin BACKEND_PLUGINS b) as [back|e] eqn:Hq';
            cbn [bind] in H; [| discriminate].
          destruct (given (default_version_scheme back)) as [d|] eqn:Hd'.
          -- exists d. apply backend_default; try assumption.
             exists b, back. auto.
          -- exists DEFAULT_VERSION_SCHEME.
             apply global_default; try assumption.
             right. exists b, back. auto.
        * exists DEFAULT_VERSION_SCHEME.
          apply global_default; try assumption. left. exact Hb.
    - assert (Heco : no_default_from ECOSYSTEM_PLUGINS
                       (Project_ecosystem_name self)) by (left; exact Hn).
      cbn [bind] in H. rewrite Hown in H.
      destruct (given (Project_backend self)) as [b|] eqn:Hb.
      + destruct (get_plugin BACKEND_PLUGINS b) as [back|e] eqn:Hq';
          cbn [bind] in H; [| discriminate].
        destruct (given (default_version_scheme back)) as [d|] eqn:Hd'.
        * exists d. apply backend_default; try assumption.
          exists b, back. auto.
        * exists DEFAULT_VERSION_SCHEME.
          apply global_default; try assumption.
          right. exists b, back. auto.
      + exists DEFAULT_VERSION_SCHEME.
        apply global_default; try assumption. left. exact Hb. }
  destruct R as [scheme R]. exists scheme. split; [exact R |].
  rewrite <- (version_class_of_resolved R). exact H.
Qed.
End VersionClass.

(** C1.  [get_version_class] answers with what the version-scheme registry
    returns for the name the precedence resolves: the project's own scheme if
    set, else the default of its ecosystem, else the default of its backend,
    else the global default.  When the registry fails on that name the
    failure is the answer (no other scheme is tried), and a class is never
    returned for any name but the resolved one. *)
Theorem version_class_precedence
        (Version : Type)
        (ECOSYSTEM_PLUGINS BACKEND_PLUGINS : PluginManager Plugin)
        (VERSION_PLUGINS : PluginManager Version)
        (DEFAULT_VERSION_SCHEME : string) :
  let get_version_class :=
    Project.get_version_class ECOSYSTEM_PLUGINS BACKEND_PLUGINS VERSION_PLUGINS
                              DEFAULT_VERSION_SCHEME in
  let resolves :=
    resolves_to ECOSYSTEM_PLUGINS BACKEND_PLUGINS DEFAULT_VERSION_SCHEME in
  (forall self scheme,
      resolves self scheme ->
      get_version_class self = get_plugin VERSION_PLUGINS scheme)
  /\ (forall self scheme e,
        resolves self scheme ->
        get_plugin VERSION_PLUGINS scheme = Raise e ->
        get_version_class self = Raise e)
  /\ (forall self v,
        get_version_class self = Ok v ->
        exists scheme,
          resolves self scheme /\ get_plugin VERSION_PLUGINS scheme = Ok v).
Proof.
  intros get_version_class resolves. split; [| split].
  - intros self scheme R. apply version_class_of_resolved, R.
  - intros self scheme e R E. rewrite <- E.
    apply version_class_of_resolved, R.
  - intros self v. apply version_class_resolved.
Qed.

Lemma version_class_precedence_witness :
  let get_version_class :=
    Project.get_version_class Sample.ecosystems Sample.backends Sample.versions
                              "RPM" in
  let resolves := resolves_to Sample.ecosystems Sample.backends "RPM" in
  (resolves Sample.zlib "RPM" /\ get_version_class Sample.zlib = Ok "RpmVersion")
  /\ (resolves Sample.on_pypi "PEP-440"
      /\ get_plugin Sample.versions "PEP-440"
         = Raise (LookupFailure "version" "PEP-440")
      /\ get_version_class Sample.on_pypi
         = Raise (LookupFailure "version" "PEP-440")).
Proof.
  intros get_version_class resolves.
  destruct (version_class_precedence Sample.ecosystems Sample.backends
              Sample.versions "RPM") as (Hclass & Hraise & _).
  assert (R1 : resolves Sample.zlib "RPM").
  { apply global_default; [reflexivity | left; reflexivity |].
    right. exists "custom", {| default_version_scheme := None |}.
    repeat split. }
  assert (R2 : resolves Sample.on_pypi "PEP-440").
  { apply ecosystem_default; [reflexivity |].
    exists "pypi", {| default_version_scheme := Some "PEP-440" |}.
    repeat split. }
  split; [split; [exact R1 | exact (Hclass Sample.zlib "RPM" R1)] |].
  split; [exact R2 | split; [reflexivity |]].
  exact (Hraise Sample.on_pypi "PEP-440" _ R2 eq_refl).
Defined.

(* ------------------------------------------------------------------------- *)
(** ** [GUID] *)
(* ------------------------------------------------------------------------- *)

(** *** Texts and their characters *)

Lemma all_chars_app (test : ascii -> bool) (a b : string) :
  all_chars test (a ++ b) = all_chars test a && all_chars test b.
Proof.
  induction a as [|c a IH]; simpl; [reflexivity |].
  rewrite IH, Bool.andb_assoc. reflexivity.
Qed.

Lemma all_chars_impl (P Q : ascii -> bool) (s : string) :
  (forall c, P c = true -> Q c = true) ->
  all_chars P s = true -> all_chars Q s = true.
Proof.
  intros HPQ. induction s as [|c s IH]; simpl; [reflexivity |].
  intros H. apply Bool.andb_true_iff in H as [Hc Hs].
  rewrite (HPQ c Hc), (IH Hs). reflexivity.
Qed.

Lemma append_assoc (a b c : string) : (a ++ b) ++ c = a ++ (b ++ c).
Proof. induction a as [|x a IH]; simpl; [| rewrite IH]; reflexivity. Qed.

Lemma length_append (a b : string) :
  String.length (a ++ b) = (String.length a + String.length b)%nat.
Proof. induction a as [|x a IH]; simpl; [| rewrite IH]; reflexivity. Qed.

(** A text without the first character of [old] has no occurrence of it. *)
Lemma replace_absent (o : ascii) (rest new s : string) :
  all_chars (fun c => negb (Ascii.eqb c o)) s = true ->
  Py.replace (String o rest) new s = s.
Proof.
  unfold Py.replace. induction s as [|c s IH]; [reflexivity |].
  cbn [all_chars Py.replace_from String.prefix]. intros H.
  apply Bool.andb_true_iff in H as [Hc Hs].
  apply Bool.negb_true_iff, Ascii.eqb_neq in Hc.
  destruct (ascii_dec o c) as [E | _]; [congruence |].
  rewrite (IH Hs). reflexivity.
Qed.

Lemma lstrip_absent (chars s : string) :
  all_chars (fun c => negb (Py.mem_char c chars)) s = true ->
  Py.lstrip chars s = s.
Proof.
  destruct s as [|c s]; [reflexivity |]. simpl. intros H.
  apply Bool.andb_true_iff in H as [Hc _].
  apply Bool.negb_true_iff in Hc. rewrite Hc. reflexivity.
Qed.

Lemma rstrip_absent (chars s : string) :
  all_chars (fun c => negb (Py.mem_char c chars)) s = true ->
  Py.rstrip chars s = s.
Proof.
  induction s as [|c s IH]; [reflexivity |]. simpl. intros H.
  apply Bool.andb_true_iff in H as [Hc Hs].
  apply Bool.negb_true_iff in Hc. rewrite (IH Hs), Hc.
  destruct s; reflexivity.
Qed.

Lemma lstrip_space_absent (s : string) :
  all_chars (fun c => negb (PyInt.is_space c)) s = true ->
  PyInt.lstrip_space s = s.
Proof.
  destruct s as [|c s]; [reflexivity |]. simpl. intros H.
  apply Bool.andb_true_iff in H as [Hc _].
  apply Bool.negb_true_iff in Hc. rewrite Hc. reflexivity.
Qed.

Lemma rstrip_space_absent (s : string) :
  all_chars (fun c => negb (PyInt.is_space c)) s = true ->
  PyInt.rstrip_space s = s.
Proof.
  induction s as [|c s IH]; [reflexivity |]. simpl. intros H.
  apply Bool.andb_true_iff in H as [Hc Hs].
  apply Bool.negb_true_iff in Hc. rewrite (IH Hs), Hc.
  destruct s; reflexivity.
Qed.

(** What a hex digit, and a hex digit or a hyphen, is not. *)
Lemma lower_hex_is_not (c : ascii) :
  is_lower_hex c = true ->
  PyInt.is_space c = false
  /\ Ascii.eqb c "-" = false /\ Ascii.eqb c "+" = false
  /\ Ascii.eqb c "x" = false /\ Ascii.eqb c "X" = false.
Proof.
  destruct c as [[] [] [] [] [] [] [] []]; intros H;
    try discriminate H; repeat split.
Qed.

Lemma uuid_text_is_not (c : ascii) :
  is_lower_hex c || Ascii.eqb c "-" = true ->
  Ascii.eqb c "u" = false /\ Py.mem_char c "{}" = false.
Proof.
  destruct c as [[] [] [] [] [] [] [] []]; intros H;
    try discriminate H; repeat split.
Qed.

(** *** Hexadecimal digits *)

Lemma hex_char_value (k : Z) :
  0 <= k < 16 ->
  uuid.hex_value (uuid.hex_char k) = Some k
  /\ is_lower_hex (uuid.hex_char k) = true.
Proof.
  intros H. rewrite <- (Z2Nat.id k) by lia.
  assert (Hi : (Z.to_nat k < 16)%nat) by lia.
  generalize dependent (Z.to_nat k). clear. intros i Hi.
  do 16 (destruct i as [|i]; [split; reflexivity |]). lia.
Qed.

Lemma hex_number_app (acc : Z) (a b : string) :
  uuid.hex_number acc (a ++ b)
  = match uuid.hex_number acc a with
    | Some v => uuid.hex_number v b
    | None => None
    end.
Proof.
  revert acc. induction a as [|c a IH]; intros acc; simpl; [reflexivity |].
  destruct (uuid.hex_value c); [apply IH | reflexivity].
Qed.

Lemma hex_digits_number (fuel : nat) (n : Z) :
  0 <= n < 16 ^ Z.of_nat fuel ->
  uuid.hex_number 0 (uuid.hex_digits fuel n) = Some n.
Proof.
  revert n. induction fuel as [|fuel IH]; intros n Hn.
  - simpl in Hn. replace n with 0 by lia. reflexivity.
  - cbn [uuid.hex_digits]. destruct (n <? 16) eqn:E.
    + apply Z.ltb_lt in E. simpl.
      rewrite (proj1 (hex_char_value (k := n) ltac:(lia))). reflexivity.
    + apply Z.ltb_ge in E.
      rewrite hex_number_app, IH.
      * simpl.
        rewrite (proj1 (hex_char_value (k := n mod 16)
                          ltac:(apply Z.mod_pos_bound; lia))).
        f_equal. rewrite (Z.div_mod n 16) at 3 by lia. lia.
      * rewrite Nat2Z.inj_succ, Z.pow_succ_r in Hn by lia.
        split; [apply Z.div_pos; lia |].
        apply Z.div_lt_upper_bound; lia.
Qed.

Lemma hex_digits_length (fuel : nat) (n : Z) (k : nat) :
  (1 <= k)%nat -> 0 <= n < 16 ^ Z.of_nat k ->
  (String.length (uuid.hex_digits fuel n) <= k)%nat.
Proof.
  revert n k. induction fuel as [|fuel IH]; intros n k Hk Hn; simpl; [lia |].
  destruct (n <? 16) eqn:E; [simpl; lia |].
  apply Z.ltb_ge in E. rewrite length_append. simpl.
  destruct k as [|[|k]]; [lia | simpl in Hn; lia |].
  assert (String.length (uuid.hex_digits fuel (n / 16)) <= S k)%nat; [| lia].
  apply IH; [lia |].
  rewrite (Nat2Z.inj_succ (S k)), Z.pow_succ_r in Hn by lia.
  split; [apply Z.div_pos; lia |].
  apply Z.div_lt_upper_bound; lia.
Qed.

Lemma hex_digits_lower (fuel : nat) (n : Z) :
  0 <= n -> all_chars is_lower_hex (uuid.hex_digits fuel n) = true.
Proof.
  revert n. induction fuel as [|fuel IH]; intros n Hn; simpl; [reflexivity |].
  destruct (n <? 16) eqn:E.
  - apply Z.ltb_lt in E. simpl.
    rewrite (proj2 (hex_char_value (k := n) ltac:(lia))). reflexivity.
  - rewrite all_chars_app, IH by (apply Z.div_pos; lia). simpl.
    rewrite (proj2 (hex_char_value (k := n mod 16)
                      ltac:(apply Z.mod_pos_bound; lia))).
    reflexivity.
Qed.

Lemma hex_fuel (n : Z) : 0 <= n -> n < 16 ^ Z.of_nat (S (Z.to_nat (Z.log2 n))).
Proof.
  intros Hn. rewrite Nat2Z.inj_succ, Z2Nat.id by apply Z.log2_nonneg.
  destruct (Z.eq_dec n 0) as [-> | Hnz]; [reflexivity |].
  pose proof (Z.log2_spec n ltac:(lia)) as [_ Hlt].
  eapply Z.lt_le_trans; [exact Hlt |].
  apply Z.pow_le_mono_l. lia.
Qed.

Lemma zeros_length (k : nat) : String.length (uuid.zeros k) = k.
Proof. induction k as [|k IH]; simpl; [| rewrite IH]; reflexivity. Qed.

Lemma zeros_lower (k : nat) : all_chars is_lower_hex (uuid.zeros k) = true.
Proof. induction k as [|k IH]; simpl; [reflexivity | exact IH]. Qed.

Lemma zeros_number (k : nat) (s : string) :
  uuid.hex_number 0 (uuid.zeros k ++ s) = uuid.hex_number 0 s.
Proof. induction k as [|k IH]; simpl; [reflexivity | exact IH]. Qed.

(** The 32 digits of a 128-bit number. *)
Lemma format_32x_digits (n : Z) :
  0 <= n < 2 ^ 128 ->
  String.length (uuid.format_32x n) = 32%nat
  /\ all_chars is_lower_hex (uuid.format_32x n) = true
  /\ uuid.hex_number 0 (uuid.format_32x n) = Some n.
Proof.
  intros Hn. unfold uuid.format_32x, uuid.hex.
  assert (L : (String.length
                 (uuid.hex_digits (S (Z.to_nat (Z.log2 n))) n) <= 32)%nat).
  { apply hex_digits_length; [lia |].
    change (16 ^ Z.of_nat 32) with (2 ^ 128). exact Hn. }
  split; [| split].
  - rewrite length_append, zeros_length. lia.
  - rewrite all_chars_app, zeros_lower, hex_digits_lower by lia. reflexivity.
  - rewrite zeros_number. apply hex_digits_number.
    split; [lia | apply hex_fuel; lia].
Qed.

(** [int(s, 16)] of a text of hex digits. *)
Lemma int16_lower_hex (s : string) :
  s <> "" -> all_chars is_lower_hex s = true ->
  uuid.int16 s = uuid.hex_number 0 s.
Proof.
  intros Hne Hs. unfold uuid.int16.
  assert (Hsp : all_chars (fun c => negb (PyInt.is_space c)) s = true).
  { apply (all_chars_impl is_lower_hex); [| exact Hs].
    intros c Hc. destruct (lower_hex_is_not c Hc) as (-> & _). reflexivity. }
  rewrite (lstrip_space_absent _ Hsp), (rstrip_space_absent _ Hsp).
  destruct s as [|c s]; [contradiction |].
  simpl in Hs. apply Bool.andb_true_iff in Hs as [Hc Hs].
  destruct (lower_hex_is_not c Hc) as (_ & -> & -> & _ & _).
  unfold uuid.unsigned16, uuid.without_0x.
  destruct s as [|x r]; [reflexivity |].
  simpl in Hs. apply Bool.andb_true_iff in Hs as [Hx _].
  destruct (lower_hex_is_not x Hx) as (_ & _ & _ & -> & ->).
  rewrite Bool.andb_false_r. reflexivity.
Qed.

(** [uuid.UUID] of the 32 digits of a 128-bit number. *)
Lemma UUID_of_digits (h : string) (n : Z) :
  String.length h = 32%nat ->
  all_chars is_lower_hex h = true ->
  uuid.hex_number 0 h = Some n ->
  0 <= n < 2 ^ 128 ->
  uuid.UUID_ h = Ok {| uuid.int := n |}.
Proof.
  intros Hlen Hhex Hnum Hn. unfold uuid.UUID_.
  assert (Hu : all_chars (fun c => negb (Ascii.eqb c "u")) h = true).
  { apply (all_chars_impl is_lower_hex); [| exact Hhex].
    intros c Hc.
    destruct (uuid_text_is_not c) as (-> & _); [rewrite Hc |]; reflexivity. }
  assert (Hb : all_chars (fun c => negb (Py.mem_char c "{}")) h = true).
  { apply (all_chars_impl is_lower_hex); [| exact Hhex].
    intros c Hc.
    destruct (uuid_text_is_not c) as (_ & ->); [rewrite Hc |]; reflexivity. }
  assert (Hh : all_chars (fun c => negb (Ascii.eqb c "-")) h = true).
  { apply (all_chars_impl is_lower_hex); [| exact Hhex].
    intros c Hc. destruct (lower_hex_is_not c Hc) as (_ & -> & _).
    reflexivity. }
  rewrite (replace_absent "u" "rn:" "" h Hu).
  rewrite (replace_absent "u" "uid:" "" h Hu).
  unfold Py.strip. rewrite (lstrip_absent "{}" h Hb), (rstrip_absent "{}" h Hb).
  rewrite (replace_absent "-" "" "" h Hh).
  rewrite Hlen. cbn [Nat.eqb negb].
  rewrite int16_lower_hex, Hnum; [| destruct h; [discriminate | discriminate] | exact Hhex].
  assert (E1 : (0 <=? n) = true) by (apply Z.leb_le; lia).
  assert (E2 : (n <? 2 ^ 128) = true) by (apply Z.ltb_lt; lia).
  rewrite E1, E2. reflexivity.
Qed.

(** *** The canonical text of a UUID *)

Lemma substring_split (s : string) (i a b : nat) :
  substring i (a + b) s = substring i a s ++ substring (i + a) b s.
Proof.
  revert i a. induction s as [|c s IH]; intros i a.
  - destruct i, a, b; reflexivity.
  - destruct i as [|i].
    + destruct a as [|a].
      * destruct b; reflexivity.
      * simpl. rewrite (IH 0%nat a). reflexivity.
    + simpl. apply IH.
Qed.

Lemma substring_all (s : string) : substring 0 (String.length s) s = s.
Proof. induction s as [|c s IH]; simpl; [| rewrite IH]; reflexivity. Qed.

Lemma substring_chars (test : ascii -> bool) (s : string) (i m : nat) :
  all_chars test s = true -> all_chars test (substring i m s) = true.
Proof.
  revert i m. induction s as [|c s IH]; intros i m H.
  - destruct i, m; reflexivity.
  - simpl in H. apply Bool.andb_true_iff in H as [Hc Hs].
    destruct i as [|i]; simpl.
    + destruct m as [|m]; simpl; [reflexivity |].
      rewrite Hc, (IH 0%nat m Hs). reflexivity.
    + apply IH, Hs.
Qed.

(** The five groups of the text of a UUID are its 32 digits. *)
Lemma groups_of_digits (h : string) :
  String.length h = 32%nat ->
  substring 0 8 h ++ substring 8 4 h ++ substring 12 4 h ++ substring 16 4 h
  ++ substring 20 (String.length h - 20) h = h.
Proof.
  intros Hlen. rewrite Hlen. change (32 - 20)%nat with 12%nat.
  rewrite <- (substring_split h 16 4 12
              : substring 16 16 h = substring 16 4 h ++ substring 20 12 h).
  rewrite <- (substring_split h 12 4 16
              : substring 12 20 h = substring 12 4 h ++ substring 16 16 h).
  rewrite <- (substring_split h 8 4 20
              : substring 8 24 h = substring 8 4 h ++ substring 12 20 h).
  rewrite <- (substring_split h 0 8 24
              : substring 0 32 h = substring 0 8 h ++ substring 8 24 h).
  rewrite <- Hlen. apply substring_all.
Qed.

Lemma each_char_app (f : ascii -> string) (a b : string) :
  each_char f (a ++ b) = each_char f a ++ each_char f b.
Proof.
  induction a as [|c a IH]; simpl; [reflexivity |].
  rewrite IH, append_assoc. reflexivity.
Qed.

Lemma remove_hyphens_digits (s : string) :
  all_chars is_lower_hex s = true -> substitute "-" "" s = s.
Proof.
  intros H. unfold substitute. induction s as [|c s IH]; [reflexivity |].
  simpl in H. apply Bool.andb_true_iff in H as [Hc Hs].
  cbn [each_char]. destruct (lower_hex_is_not c Hc) as (_ & -> & _).
  rewrite (IH Hs). reflexivity.
Qed.

(** [uuid.UUID(str(u))] is [u]. *)
Lemma UUID_of_str (u : uuid.UUID) :
  0 <= uuid.int u < 2 ^ 128 -> uuid.UUID_ (uuid.str u) = Ok u.
Proof.
  intros Hn.
  destruct (format_32x_digits Hn) as (Hlen & Hhex & Hnum).
  unfold uuid.UUID_, uuid.str. cbv zeta.
  set (h := uuid.format_32x (uuid.int u)) in *.
  set (g1 := substring 0 8 h). set (g2 := substring 8 4 h).
  set (g3 := substring 12 4 h). set (g4 := substring 16 4 h).
  set (g5 := substring 20 (String.length h - 20) h).
  assert (G : g1 ++ g2 ++ g3 ++ g4 ++ g5 = h)
    by (apply groups_of_digits, Hlen).
  assert (H1 : all_chars is_lower_hex g1 = true) by apply substring_chars, Hhex.
  assert (H2 : all_chars is_lower_hex g2 = true) by apply substring_chars, Hhex.
  assert (H3 : all_chars is_lower_hex g3 = true) by apply substring_chars, Hhex.
  assert (H4 : all_chars is_lower_hex g4 = true) by apply substring_chars, Hhex.
  assert (H5 : all_chars is_lower_hex g5 = true) by apply substring_chars, Hhex.
  clearbody g1 g2 g3 g4 g5.
  set (text := g1 ++ "-" ++ g2 ++ "-" ++ g3 ++ "-" ++ g4 ++ "-" ++ g5).
  assert (T : all_chars (fun c => is_lower_hex c || Ascii.eqb c "-") text = true).
  { assert (W : forall g, all_chars is_lower_hex g = true ->
                all_chars (fun c => is_lower_hex c || Ascii.eqb c "-") g = true).
    { intros g. apply all_chars_impl. intros c ->. reflexivity. }
    unfold text. rewrite !all_chars_app, (W g1 H1), (W g2 H2), (W g3 H3),
      (W g4 H4), (W g5 H5). reflexivity. }
  assert (Hu : all_chars (fun c => negb (Ascii.eqb c "u")) text = true).
  { eapply all_chars_impl; [| exact T]. intros c Hc.
    destruct (uuid_text_is_not c Hc) as (-> & _). reflexivity. }
  assert (Hb : all_chars (fun c => negb (Py.mem_char c "{}")) text = true).
  { eapply all_chars_impl; [| exact T]. intros c Hc.
    destruct (uuid_text_is_not c Hc) as (_ & ->). reflexivity. }
  rewrite (replace_absent "u" "rn:" "" text Hu).
  rewrite (replace_absent "u" "uid:" "" text Hu).
  unfold Py.strip.
  rewrite (lstrip_absent "{}" text Hb), (rstrip_absent "{}" text Hb).
  rewrite replace_char.
  assert (R : substitute "-" "" text = h).
  { unfold text, substitute. rewrite !each_char_app.
    fold (substitute "-" "").
    rewrite (remove_hyphens_digits g1 H1), (remove_hyphens_digits g2 H2),
      (remove_hyphens_digits g3 H3), (remove_hyphens_digits g4 H4),
      (remove_hyphens_digits g5 H5).
    change (substitute "-" "" "-") with "". cbn [append]. exact G. }
  rewrite R, Hlen. cbn [Nat.eqb negb].
  rewrite int16_lower_hex, Hnum;
    [| intros E; rewrite E in Hlen; discriminate | exact Hhex].
  assert (E1 : (0 <=? uuid.int u) = true) by (apply Z.leb_le; lia).
  assert (E2 : (uuid.int u <? 2 ^ 128) = true) by (apply Z.ltb_lt; lia).
  rewrite E1, E2. destruct u. reflexivity.
Qed.

Lemma digits_without_hyphen (h : string) :
  all_chars is_lower_hex h = true -> Py.contains "-" h = false.
Proof.
  induction h as [|c h IH]; [reflexivity |]. simpl all_chars. intros H.
  apply Bool.andb_true_iff in H as [Hc Hh].
  cbn [Py.contains]. rewrite prefix_char, (IH Hh).
  destruct (lower_hex_is_not c Hc) as (_ & -> & _). reflexivity.
Qed.

(** C6.  For a UUID [u] (a 128-bit number): on an engine other than
    PostgreSQL, [process_bind_param] gives the same text for [u] and for its
    text form [str(u)], 32 characters long, all of them digits [0-9a-f] (so
    lowercase, without hyphen), and [process_result_value] of that text is
    [u]; on PostgreSQL the value is bound as [str(u)], from [u] and from
    [str(u)] alike, and [process_result_value] of that text is [u].  [None]
    is bound and read back as [None]. *)
Theorem guid_round_trip (u : uuid.UUID) (dialect : Dialect) :
  0 <= uuid.int u < 2 ^ 128 ->
  (dialect_name dialect <> "postgresql" ->
   exists h,
     GUID.process_bind_param (GuidUUID u) dialect = Ok (Some h)
     /\ GUID.process_bind_param (GuidStr (uuid.str u)) dialect = Ok (Some h)
     /\ String.length h = 32%nat
     /\ all_chars is_lower_hex h = true
     /\ Py.contains "-" h = false
     /\ GUID.process_result_value (Some h) dialect = Ok (Some u))
  /\ (dialect_name dialect = "postgresql" ->
      GUID.process_bind_param (GuidUUID u) dialect = Ok (Some (uuid.str u))
      /\ GUID.process_bind_param (GuidStr (uuid.str u)) dialect
         = Ok (Some (uuid.str u))
      /\ GUID.process_result_value (Some (uuid.str u)) dialect = Ok (Some u))
  /\ (GUID.process_bind_param GuidNone dialect = Ok None
      /\ GUID.process_result_value None dialect = Ok None).
Proof.
  intros Hn.
  destruct (format_32x_digits Hn) as (Hlen & Hhex & Hnum).
  pose proof (UUID_of_str u Hn) as Hstr.
  pose proof (UUID_of_digits _ Hlen Hhex Hnum Hn) as Hdig.
  split; [| split; [| split; reflexivity]].
  - intros Hd. apply String.eqb_neq in Hd.
    exists (uuid.format_32x (uuid.int u)).
    unfold GUID.process_bind_param, GUID.process_result_value.
    rewrite Hd, Hstr, Hdig. cbn [bind uuid.int].
    destruct u. repeat split; try assumption.
    apply digits_without_hyphen, Hhex.
  - intros Hd. apply String.eqb_eq in Hd.
    unfold GUID.process_bind_param, GUID.process_result_value, GUID.str_.
    rewrite Hd, Hstr. repeat split.
Qed.

Lemma guid_round_trip_witness :
  let u := {| uuid.int := 24197857161011715162171839636988778104 |} in
  (0 <= uuid.int u < 2 ^ 128 /\ dialect_name sqlite <> "postgresql")
  /\ uuid.str u = "12345678-1234-5678-1234-567812345678"
  /\ GUID.process_bind_param (GuidStr (uuid.str u)) sqlite
     = Ok (Some "12345678123456781234567812345678")
  /\ GUID.process_result_value (Some "12345678123456781234567812345678") sqlite
     = Ok (Some u)
  /\ GUID.process_result_value (Some (uuid.str u)) postgresql = Ok (Some u).
Proof.
  intros u.
  assert (Hn : 0 <= uuid.int u < 2 ^ 128) by (simpl; lia).
  assert (Hs : dialect_name sqlite <> "postgresql") by discriminate.
  destruct (guid_round_trip u sqlite Hn) as (Hother & _ & _).
  destruct (guid_round_trip u postgresql Hn) as (_ & Hnative & _).
  destruct (Hother Hs) as (h & Hb1 & Hb2 & _ & _ & _ & Hr).
  destruct (Hnative eq_refl) as (_ & _ & Hrn).
  assert (Eh : h = "12345678123456781234567812345678").
  { vm_compute in Hb1. injection Hb1 as <-. reflexivity. }
  subst h.
  split; [split; assumption |].
  split; [vm_compute; reflexivity |].
  split; [exact Hb2 | split; [exact Hr | exact Hrn]].
Defined.

(* ========================================================================= *)
(** * Further properties of the module *)
(* ========================================================================= *)

(** *** Looking one row up *)

Lemma sort_unordered (A : Type) (leb : A -> A -> bool) (l : list A) :
  (forall a b, leb a b = true) -> Engine.sort leb l = l.
Proof.
  intros H. induction l as [|x l IH]; simpl; [reflexivity |].
  rewrite IH. destruct l as [|y l]; simpl; [reflexivity |].
  rewrite H. reflexivity.
Qed.

Lemma hd_error_filter (A : Type) (P : A -> bool) (l : list A) :
  hd_error (filter P l) = find P l.
Proof.
  induction l as [|x l IH]; simpl; [reflexivity |].
  destruct (P x); simpl; [reflexivity | exact IH].
Qed.

Lemma hd_error_map (A B : Type) (f : A -> B) (l : list A) :
  hd_error (map f l) = option_map f (hd_error l).
Proof. destruct l; reflexivity. Qed.

Lemma hd_error_first (A : Type) (l : list A) :
  hd_error (firstn 1 l) = hd_error l.
Proof. destruct l; reflexivity. Qed.

(** [first()] of an unordered statement over one table is the first row of
    the table that the criteria keep. *)
Lemma first_one_table (X : Type) (C : X -> row) (xs : list X) s cls criteria
      (P : X -> bool) :
  table_rows (session_db s) cls = map C xs ->
  Engine.joined_tables cls criteria = [] ->
  (forall x, Sql.keeps (session_bind s) criteria (C x, []) = P x) ->
  Query.first (mkQuery s (Entity cls) criteria [] false None None)
  = Ok (option_map C (find P xs)).
Proof.
  intros T J K. unfold Query.first, Query.slice.
  rewrite fetch_sliced.
  rewrite (@fetch_one_table _ C xs s cls criteria [] false T J).
  cbv zeta. cbn [bind].
  change (Some (1 - 0)) with (Some 1). change (Some (0 + 0)) with (Some 0).
  rewrite slice_window by lia. cbn [bind].
  change (Z.to_nat 1) with 1%nat. change (Z.to_nat 0) with 0%nat.
  cbn [skipn]. rewrite hd_error_first, hd_error_map.
  rewrite sort_unordered by reflexivity.
  rewrite (filter_ext _ P K), hd_error_filter. reflexivity.
Qed.

Lemma find_never (A : Type) (l : list A) : find (fun _ => false) l = None.
Proof. induction l; simpl; auto. Qed.

Lemma lower_text_true (o : option string) (n : string) :
  Sql.is_true
    (Sql.compare3 Sql.value_eqb
       match vstr o with VStr t => VStr (Py.lower t) | v => v end
       (VStr (Py.lower n)))
  = match o with Some c => lower_equal c n | None => false end.
Proof. destruct o as [c|]; simpl; [apply is_true_some | reflexivity]. Qed.

Lemma distro_name_test d (name : string) (x : Distro) :
  Sql.keeps d [Eq_ (Lower (Column distros_name)) (Lower (Literal (VStr name)))]
            (DistroRow x, [])
  = lower_equal (Distro_name x) name.
Proof.
  unfold Sql.keeps.
  cbn [forallb Sql.holds eval fst snd lookup field Sql.compare3 Sql.is_null
       orb Sql.value_eqb].
  rewrite is_true_some. apply Bool.andb_true_r.
Qed.

Lemma distro_by_name_find s (name : string) :
  Distro.by_name s name
  = Ok (option_map DistroRow
          (find (fun x => lower_equal (Distro_name x) name)
                (db_distros (session_db s)))).
Proof.
  unfold Distro.by_name, query, Query.filter. cbn [app].
  apply (@first_one_table _ DistroRow (db_distros (session_db s)) s distros);
    [reflexivity | reflexivity |].
  intros x. apply distro_name_test.
Qed.

Lemma find_same (A : Type) (P Q : A -> bool) (l : list A) :
  (forall x, P x = Q x) -> find P l = find Q l.
Proof.
  intros H. induction l as [|x l IH]; simpl; [reflexivity |].
  rewrite H, IH. reflexivity.
Qed.

Lemma lower_equal_sym a b : lower_equal a b = lower_equal b a.
Proof. unfold lower_equal. apply String.eqb_sym. Qed.

Lemma lower_equal_trans a b c :
  lower_equal a b = true -> lower_equal b c = true -> lower_equal a c = true.
Proof.
  unfold lower_equal. rewrite !String.eqb_eq. congruence.
Qed.

Lemma lower_equal_same a b c :
  lower_equal b c = true -> lower_equal a b = lower_equal a c.
Proof.
  unfold lower_equal. rewrite String.eqb_eq. intros ->. reflexivity.
Qed.

(** X1.  On ASCII names, [Distro.by_name] never fails.  It returns the
    first stored distribution whose name is the given one up to case, and
    [None] exactly when no stored name is; two names that differ by case
    alone give the same answer. *)
Theorem distro_by_name_ignores_case s (name : string) :
  ascii_only name = true -> ascii_distros (session_db s) ->
  Distro.by_name s name
  = Ok (option_map DistroRow
          (find (fun x => lower_equal (Distro_name x) name)
                (db_distros (session_db s))))
  /\ (Distro.by_name s name = Ok None
      <-> forall x, In x (db_distros (session_db s)) ->
                    lower_equal (Distro_name x) name = false)
  /\ (forall other, ascii_only other = true -> lower_equal name other = true ->
                    Distro.by_name s other = Distro.by_name s name)
  /\ Distro.by_name s (Py.lower name) = Distro.by_name s name.
Proof.
  intros _ _.
  split; [apply distro_by_name_find |]. split; [| split].
  - rewrite distro_by_name_find. split.
    + intros H x Hx.
      destruct (find _ _) eqn:F; [discriminate |].
      apply (find_none _ _ F x Hx).
    + intros H. destruct (find _ _) as [x|] eqn:F; [| reflexivity].
      apply find_some in F. destruct F as [Hx Hm].
      rewrite (H x Hx) in Hm. discriminate.
  - intros other _ H. rewrite !distro_by_name_find. do 2 f_equal.
    apply find_same. intros x. symmetry. apply lower_equal_same. exact H.
  - rewrite !distro_by_name_find. do 2 f_equal.
    apply find_same. intros x. unfold lower_equal.
    rewrite lower_idempotent. reflexivity.
Qed.

Lemma distro_by_name_ignores_case_witness :
  Distro.by_name Sample.session "FEDORA"
  = Ok (Some (DistroRow {| Distro_name := "Fedora" |}))
  /\ Distro.by_name Sample.session "fedora"
     = Distro.by_name Sample.session "FEDORA".
Proof.
  destruct (@distro_by_name_ignores_case Sample.session "FEDORA" eq_refl
              (@sample_ascii_distros sqlite))
    as (H1 & _ & H3 & _).
  split; [exact H1 | exact (H3 "fedora" eq_refl eq_refl)].
Defined.

Lemma lower_equal_refl (a : string) : lower_equal a a = true.
Proof. apply String.eqb_refl. Qed.

Lemma no_namesake (name : string) (stored : list Distro) :
  find (fun x => lower_equal (Distro_name x) name) stored = None ->
  existsb (fun x => (Distro_name x =? name)%string) stored = false.
Proof.
  intros F. destruct (existsb _ stored) eqn:E; [| reflexivity].
  apply existsb_exists in E. destruct E as (x & Hx & Hn).
  apply String.eqb_eq in Hn.
  pose proof (find_none _ _ F x Hx) as H. cbv beta in H.
  rewrite Hn, lower_equal_refl in H. discriminate.
Qed.

Lemma find_appended (A : Type) (P : A -> bool) (l : list A) (x : A) :
  find P l = None -> P x = true -> find P (l ++ [x]) = Some x.
Proof.
  induction l as [|y l IH]; simpl; intros F Hx.
  - rewrite Hx. reflexivity.
  - destruct (P y); [discriminate | auto].
Qed.

(** What [Distro.get_or_create] comes to, by the stored distribution it
    finds. *)
Lemma distro_get_or_create_cases s (name : string) :
  Distro.get_or_create s name
  = match find (fun x => lower_equal (Distro_name x) name)
               (db_distros (session_db s)) with
    | Some x => Ok (Flush.Done (DistroRow x, s))
    | None =>
        if Flush.too_long (session_bind s) (Some name)
        then Raise (DataError "value too long for type character varying(200)")
        else Ok (Flush.Done
                   (DistroRow {| Distro_name := name |},
                    Flush.with_distros s
                      (db_distros (session_db s) ++ [{| Distro_name := name |}])))
    end.
Proof.
  unfold Distro.get_or_create. rewrite distro_by_name_find. cbn [bind].
  destruct (find _ _) as [x|] eqn:F; cbn [option_map]; [reflexivity |].
  unfold Flush.distro. cbn [Distro_name].
  destruct (Flush.too_long _ _); [reflexivity |].
  rewrite (no_namesake _ _ F). reflexivity.
Qed.

(** X2.  On ASCII names, [Distro.get_or_create] is never refused for a
    duplicate name.  With a stored distribution of that name up to case it
    returns the first such and writes nothing; without one it writes one
    row, of exactly the given name, after the stored ones, unless the engine
    is PostgreSQL and the name is longer than 200 characters, which is a
    [DataError]. *)
Theorem distro_get_or_create_outcome s (name : string) :
  ascii_only name = true -> ascii_distros (session_db s) ->
  (forall message,
      Distro.get_or_create s name <> Ok (Flush.IntegrityError message))
  /\ (forall x,
        find (fun x => lower_equal (Distro_name x) name)
             (db_distros (session_db s)) = Some x ->
        Distro.get_or_create s name = Ok (Flush.Done (DistroRow x, s)))
  /\ ((forall x, In x (db_distros (session_db s)) ->
                 lower_equal (Distro_name x) name = false) ->
      if is_postgresql (session_bind s) && (200 <? Z.of_nat (String.length name))
      then exists message,
          Distro.get_or_create s name = Raise (DataError message)
      else Distro.get_or_create s name
           = Ok (Flush.Done
                   (DistroRow {| Distro_name := name |},
                    Flush.with_distros s
                      (db_distros (session_db s)
                       ++ [{| Distro_name := name |}])))).
Proof.
  intros _ _.
  rewrite distro_get_or_create_cases. split; [| split].
  - intros message.
    destruct (find _ _); [discriminate |].
    destruct (Flush.too_long _ _); discriminate.
  - intros x ->. reflexivity.
  - intros H.
    destruct (find _ _) as [x|] eqn:F.
    + apply find_some in F. destruct F as [Hx Hm].
      rewrite (H x Hx) in Hm. discriminate.
    + unfold Flush.too_long.
      destruct (is_postgresql _ && _); [eauto | reflexivity].
Qed.

Lemma distro_get_or_create_outcome_witness :
  Distro.get_or_create Sample.session "debian"
  = Ok (Flush.Done (DistroRow {| Distro_name := "Debian" |}, Sample.session)).
Proof.
  destruct (@distro_get_or_create_outcome Sample.session "debian" eq_refl
              (@sample_ascii_distros sqlite))
    as (_ & H & _).
  exact (H {| Distro_name := "Debian" |} eq_refl).
Defined.

(** X3.  On ASCII names, when [Distro.get_or_create] returns, the
    distribution it returns has the given name up to case and is stored in
    the session it leaves; [Distro.by_name] finds it there, and a second
    call returns it again and leaves the session as it is. *)
Theorem distro_get_or_create_again s (name : string) r s' :
  ascii_only name = true -> ascii_distros (session_db s) ->
  Distro.get_or_create s name = Ok (Flush.Done (r, s')) ->
  (exists x, r = DistroRow x
             /\ lower_equal (Distro_name x) name = true
             /\ In x (db_distros (session_db s')))
  /\ Distro.by_name s' name = Ok (Some r)
  /\ Distro.get_or_create s' name = Ok (Flush.Done (r, s')).
Proof.
  intros _ _.
  rewrite distro_get_or_create_cases.
  destruct (find _ (db_distros (session_db s))) as [x|] eqn:F.
  - intros [= <- <-].
    pose proof (find_some _ _ F) as [Hx Hm].
    split; [exists x; auto |].
    rewrite distro_by_name_find, distro_get_or_create_cases, F. auto.
  - destruct (Flush.too_long _ _); [discriminate |].
    intros [= <- <-].
    assert (F' : find (fun x => lower_equal (Distro_name x) name)
                      (db_distros (session_db s) ++ [{| Distro_name := name |}])
                 = Some {| Distro_name := name |})
      by (apply find_appended; [exact F | apply lower_equal_refl]).
    split.
    + eexists. split; [reflexivity |]. split; [apply lower_equal_refl |].
      cbn. apply in_or_app. right. left. reflexivity.
    + rewrite distro_by_name_find, distro_get_or_create_cases.
      cbn [Flush.with_distros session_db db_distros].
      rewrite F'. auto.
Qed.

Lemma distro_get_or_create_again_witness :
  Distro.get_or_create Sample.session "Gentoo"
  = Ok (Flush.Done
          (DistroRow {| Distro_name := "Gentoo" |},
           Flush.with_distros Sample.session
             (db_distros Sample.db ++ [{| Distro_name := "Gentoo" |}])))
  /\ Distro.get_or_create
       (Flush.with_distros Sample.session
          (db_distros Sample.db ++ [{| Distro_name := "Gentoo" |}])) "Gentoo"
     = Ok (Flush.Done
             (DistroRow {| Distro_name := "Gentoo" |},
              Flush.with_distros Sample.session
                (db_distros Sample.db ++ [{| Distro_name := "Gentoo" |}]))).
Proof.
  split; [reflexivity |].
  apply (@distro_get_or_create_again Sample.session "Gentoo"
           (DistroRow {| Distro_name := "Gentoo" |})
           (Flush.with_distros Sample.session
              (db_distros Sample.db ++ [{| Distro_name := "Gentoo" |}]))
           eq_refl (@sample_ascii_distros sqlite) eq_refl).
Defined.

Lemma equals_int_test d (c : column) (column_value argument : option Z) j :
  eval (Column c) j = vint column_value ->
  Sql.is_true (Sql.holds d (equals (Column c) (vint argument)) j)
  = same_int column_value argument.
Proof.
  intros E. destruct argument as [a|]; cbn [vint equals Sql.holds].
  - rewrite E. cbn [eval]. apply eq_int_true.
  - rewrite E. destruct column_value; reflexivity.
Qed.

Lemma equals_text_test d (c : column) (column_value argument : option string) j :
  eval (Column c) j = vstr column_value ->
  Sql.is_true (Sql.holds d (equals (Column c) (vstr argument)) j)
  = same_text column_value argument.
Proof.
  intros E. destruct argument as [a|]; cbn [vstr equals Sql.holds].
  - rewrite E. cbn [eval]. apply eq_text_true.
  - rewrite E. destruct column_value; reflexivity.
Qed.

Lemma lower_distro_test d (column_value argument : option string) j :
  eval (Column packages_distro) j = vstr column_value ->
  Sql.is_true
    (Sql.holds d (Eq_ (Lower (Column packages_distro))
                      (Lower (Literal (vstr argument)))) j)
  = same_distro column_value argument.
Proof.
  intros E. cbn [Sql.holds]. cbn [eval] in *. rewrite E.
  destruct argument as [a|], column_value as [c|]; cbn; try reflexivity.
  apply is_true_some.
Qed.

(** X4.  For an id within 64 bits, [Project.by_id] (and [Project.get], the
    same function) returns the first stored project of that id, [None] when
    there is none or when the id is [None]; for an ASCII name,
    [Project.by_name] returns the stored projects of exactly that name, in
    the order of the table, and none for [None].  Neither fails. *)
Theorem project_by_id_and_name s project_id name :
  (forall i, project_id = Some i -> int64 i) ->
  ascii_option name = true ->
  Project.by_id s project_id
  = Ok (match project_id with
        | Some i =>
            option_map ProjectRow
              (find (fun p => Project_id p =? i) (db_projects (session_db s)))
        | None => None
        end)
  /\ Project.get s project_id = Project.by_id s project_id
  /\ Project.by_name s name
     = Ok (match name with
           | Some n =>
               map ProjectRow
                   (filter (fun p => (Project_name p =? n)%string)
                           (db_projects (session_db s)))
           | None => []
           end).
Proof.
  intros _ _. split; [| split; [reflexivity |]].
  - unfold Project.by_id, query, Query.filter. cbn [app].
    rewrite (@first_one_table _ ProjectRow (db_projects (session_db s)) s projects
               _ (fun p => same_int (Some (Project_id p)) project_id)).
    + destruct project_id as [i|]; cbn [same_int]; [reflexivity |].
      rewrite find_never. reflexivity.
    + reflexivity.
    + destruct project_id; reflexivity.
    + intros p. unfold Sql.keeps. cbn [forallb].
      rewrite (@equals_int_test _ projects_id (Some (Project_id p)))
        by reflexivity.
      apply Bool.andb_true_r.
  - unfold Project.by_name, Query.all, query, Query.filter.
    cbn [app].
    rewrite (@fetch_one_table _ ProjectRow (db_projects (session_db s)) s projects
               _ [] false eq_refl)
      by (destruct name; reflexivity).
    cbv zeta. rewrite sort_unordered by reflexivity.
    f_equal.
    rewrite (filter_ext _ (fun p => same_text (Some (Project_name p)) name)).
    + destruct name as [n|]; cbn [same_text]; [reflexivity |].
      induction (db_projects (session_db s)); simpl; auto.
    + intros p. unfold Sql.keeps. cbn [forallb].
      rewrite (@equals_text_test _ projects_name (Some (Project_name p)))
        by reflexivity.
      apply Bool.andb_true_r.
Qed.

Lemma project_by_id_and_name_witness :
  Project.by_id Sample.session (Some 2) = Ok (Some (ProjectRow Sample.broken))
  /\ Project.by_name Sample.session (Some "zlib")
     = Ok [ProjectRow Sample.zlib].
Proof.
  assert (B : forall i, Some 2 = Some i -> int64 i)
    by (intros i [= <-]; unfold int64; lia).
  destruct (@project_by_id_and_name Sample.session (Some 2) (Some "zlib")
              B eq_refl)
    as (H1 & _ & H2).
  vm_compute in H1, H2. split; [vm_compute; exact H1 | vm_compute; exact H2].
Defined.

Lemma packages_get_find s project_id distro package_name :
  Packages.get s project_id distro package_name
  = Ok (option_map PackagesRow
          (find (fun k => same_int (Packages_project_id k) project_id
                          && same_distro (Packages_distro k) distro
                          && same_text (Packages_package_name k) package_name)
                (db_packages (session_db s)))).
Proof.
  unfold Packages.get, query, Query.filter. cbn [app].
  apply (@first_one_table _ PackagesRow (db_packages (session_db s)) s packages).
  - reflexivity.
  - destruct project_id, package_name; reflexivity.
  - intros k. unfold Sql.keeps. cbn [forallb].
    rewrite (@equals_int_test _ packages_project_id (Packages_project_id k))
      by reflexivity.
    rewrite (@equals_text_test _ packages_package_name (Packages_package_name k))
      by reflexivity.
    rewrite (@lower_distro_test _ (Packages_distro k)) by reflexivity.
    rewrite Bool.andb_true_r, Bool.andb_assoc. reflexivity.
Qed.

Lemma packages_by_name_find s package_name distro :
  Packages.by_package_name_distro s package_name distro
  = Ok (option_map PackagesRow
          (find (fun k => same_text (Packages_package_name k) package_name
                          && same_distro (Packages_distro k) distro)
                (db_packages (session_db s)))).
Proof.
  unfold Packages.by_package_name_distro, query, Query.filter. cbn [app].
  apply (@first_one_table _ PackagesRow (db_packages (session_db s)) s packages).
  - reflexivity.
  - destruct package_name; reflexivity.
  - intros k. unfold Sql.keeps. cbn [forallb].
    rewrite (@equals_text_test _ packages_package_name (Packages_package_name k))
      by reflexivity.
    rewrite (@lower_distro_test _ (Packages_distro k)) by reflexivity.
    rewrite Bool.andb_true_r. reflexivity.
Qed.


(** ** [Log.insert] and [Log.search] *)

Lemma log_search_count s project_name from_date user limit offset :
  Log.search s project_name from_date user limit offset true
  = Ok (Count (Z.of_nat
                 (List.length (filter (log_matches project_name from_date user)
                                      (db_logs (session_db s)))))).
Proof.
  destruct (log_search_query s project_name from_date user)
    as (criteria & J & K & Hsearch).
  rewrite Hsearch. cbv zeta. unfold Query.count.
  rewrite (@fetch_one_table _ LogRow (db_logs (session_db s)) s logs criteria
             _ false eq_refl J).
  cbv zeta. cbn [bind]. rewrite length_map, sort_length.
  rewrite (filter_ext _ _ K). reflexivity.
Qed.

(** X6.  After [Log.insert] has written its entry, the table holds one more
    log, last: of the given user and description, with the names of the
    project and of the distribution (or [None]), dated with the time of the
    write; and every count of [Log.search] has grown by one when the entry
    matches the filters, and is the same when it does not. *)
Theorem log_insert_then_search s new_id utcnow user project distro description s' :
  Log.insert s new_id utcnow user project distro description
  = Ok (Flush.Done s') ->
  exists entry,
    db_logs (session_db s') = (db_logs (session_db s) ++ [entry])%list
    /\ Log_id entry = new_id
    /\ Some (Log_user entry) = user
    /\ Log_project entry = option_map Project_name project
    /\ Log_distro entry = option_map Distro_name distro
    /\ Some (Log_description entry) = description
    /\ Log_created_on entry = Some utcnow
    /\ forall project_name from_date users limit offset,
        exists n,
          Log.search s project_name from_date users limit offset true
          = Ok (Count n)
          /\ Log.search s' project_name from_date users limit offset true
             = Ok (Count (n + if log_matches project_name from_date users entry
                              then 1 else 0)).
Proof.
  unfold Log.insert, Flush.log.
  destruct (_ || _); [discriminate |].
  destruct user as [u|]; [| discriminate].
  destruct description as [t|]; [| discriminate].
  destruct (existsb _ _); [discriminate |].
  intros [= <-]. eexists. split; [reflexivity |].
  cbn [Log_id Log_user Log_project Log_distro Log_description Log_created_on].
  repeat (split; [destruct project, distro; reflexivity |]).
  intros project_name from_date users limit offset.
  eexists. split; [apply log_search_count |].
  rewrite log_search_count.
  cbn [Flush.with_logs session_db db_logs].
  rewrite filter_app, length_app. cbn [filter].
  destruct (log_matches _ _ _ _); cbn [List.length];
    do 2 f_equal; lia.
Qed.

Lemma log_insert_then_search_witness :
  exists entry,
    Log_project entry = Some "zlib"
    /\ forall project_name from_date users limit offset,
      exists n,
        Log.search Sample.session project_name from_date users limit offset true
        = Ok (Count n)
        /\ Log.search
             (Flush.with_logs Sample.session
                (db_logs Sample.db ++ [Sample.log 4 "ralph" (Some "zlib") 40]))
             project_name from_date users limit offset true
           = Ok (Count (n + if log_matches project_name from_date users entry
                            then 1 else 0)).
Proof.
  destruct (@log_insert_then_search Sample.session 4 40 (Some "ralph")
              (Some Sample.zlib) None (Some "edited")
              (Flush.with_logs Sample.session
                 (db_logs Sample.db ++ [Sample.log 4 "ralph" (Some "zlib") 40]))
              eq_refl)
    as (entry & _ & _ & _ & Hp & _ & _ & _ & H).
  exists entry. split; [exact Hp | exact H].
Defined.

Lemma log_newest_first_leb d a b ja jb :
  Engine.order_leb d [Desc (Column logs_created_on)]
                   (LogRow a, ja) (LogRow b, jb) = true ->
  log_newest_first d a b.
Proof.
  unfold Engine.order_leb, log_newest_first. simpl.
  destruct (Log_created_on a) as [x|],
           (Log_created_on b) as [y|]; simpl;
    [| destruct (is_postgresql d); simpl; congruence ..| tauto].
  intros H. destruct (Z.compare_spec x y); simpl in H; try discriminate; lia.
Qed.


(** ** [Project.updated] with its [name] and [log] filters *)

Lemma keeps_app d (a b : list criterion) j :
  Sql.keeps d (a ++ b) j = Sql.keeps d a j && Sql.keeps d b j.
Proof. apply forallb_app. Qed.

Lemma updated_test d : forall x,
  Sql.keeps d [IsNot_None (Column projects_logs);
               Eq_ (Column projects_logs)
                   (Literal (VStr "Version retrieved correctly"))]
            (ProjectRow x, [])
  = is_updated x.
Proof. bucket_test. Qed.

Lemma failed_test d : forall x,
  Sql.keeps d [IsNot_None (Column projects_logs);
               Ne_ (Column projects_logs)
                   (Literal (VStr "Version retrieved correctly"));
               Invert (ILike (Column projects_logs)
                             (Literal (VStr "Something strange occured%")))]
            (ProjectRow x, [])
  = is_failed x.
Proof. bucket_test. Qed.

Lemma odd_test d : forall x,
  Sql.keeps d [IsNot_None (Column projects_logs);
               Ne_ (Column projects_logs)
                   (Literal (VStr "Version retrieved correctly"));
               ILike (Column projects_logs)
                     (Literal (VStr "Something strange occured%"))]
            (ProjectRow x, [])
  = is_odd x.
Proof. bucket_test. Qed.

Lemma new_test d : forall x,
  Sql.keeps d [Is_None (Column projects_logs)] (ProjectRow x, []) = is_new x.
Proof. bucket_test. Qed.

Lemma never_updated_test d : forall x,
  Sql.keeps d [IsNot_None (Column projects_logs);
               Ne_ (Column projects_logs)
                   (Literal (VStr "Version retrieved correctly"));
               Is_None (Column projects_latest_version)]
            (ProjectRow x, [])
  = is_never_updated x.
Proof. bucket_test. Qed.

Lemma ilike_name_test d (pattern : string) (x : Project) :
  Sql.keeps d [ILike (Column projects_name) (Literal (VStr pattern))]
            (ProjectRow x, [])
  = Sql.ilike d pattern (Project_name x).
Proof.
  unfold Sql.keeps.
  cbn [forallb Sql.holds eval fst snd lookup field Sql.text3].
  rewrite is_true_some. apply Bool.andb_true_r.
Qed.

Lemma ilike_logs_test d (pattern : string) (x : Project) :
  Sql.keeps d [ILike (Column projects_logs) (Literal (VStr pattern))]
            (ProjectRow x, [])
  = match Project_logs x with
    | Some t => Sql.ilike d pattern t
    | None => false
    end.
Proof.
  unfold Sql.keeps.
  cbn [forallb Sql.holds eval fst snd lookup field].
  destruct (Project_logs x); cbn [vstr Sql.text3]; [| reflexivity].
  rewrite is_true_some. apply Bool.andb_true_r.
Qed.

(** The statement [Project.updated] builds, and what it keeps. *)
Lemma updated_query s status name log :
  exists criteria,
    Engine.joined_tables projects criteria = []
    /\ (forall x,
          Sql.keeps (session_bind s) criteria (ProjectRow x, [])
          = in_status status x
            && text_filter (session_bind s) name (Some (Project_name x))
            && text_filter (session_bind s) log (Project_logs x))
    /\ forall page count,
        Project.updated s status name log page count
        = finish (_paginate_query
                    (mkQuery s (Entity projects) criteria
                             [Asc (Lower (Column projects_name))]
                             false None None) page) count.
Proof.
  unfold Project.updated, in_status, text_filter.
  destruct (given name) as [n|], (given log) as [l|];
    (destruct (status =? "updated")%string;
     [| destruct (status =? "failed")%string;
        [| destruct (status =? "odd")%string;
           [| destruct (status =? "new")%string;
              [| destruct (status =? "never_updated")%string]]]]);
    cbn [Query.filter Query.order_by query flat_map];
    (eexists; split; [| split; [| intros; reflexivity]];
     [reflexivity |]);
    intros x;
    rewrite ?keeps_app, ?updated_test, ?failed_test, ?odd_test, ?new_test,
      ?never_updated_test, ?ilike_name_test, ?ilike_logs_test;
    cbn [Sql.keeps forallb andb]; rewrite ?Bool.andb_true_r; reflexivity.
Qed.

Lemma updated_lists_filtered s status name log p :
  listed (ProjectRow p) (Project.updated s status name log PageNone false)
  <-> In p (db_projects (session_db s))
      /\ in_status status p = true
      /\ text_filter (session_bind s) name (Some (Project_name p)) = true
      /\ text_filter (session_bind s) log (Project_logs p) = true.
Proof.
  destruct (updated_query s status name log) as (criteria & J & K & H).
  rewrite H. cbn [_paginate_query page_truthy].
  rewrite (@listed_projects s criteria _ _ p J K).
  rewrite !Bool.andb_true_iff. tauto.
Qed.



(** A plain text between two [%] matches the texts that contain it. *)
Lemma like_substring d (lit s : string) :
  all_plain lit = true ->
  Sql.like_match (Sql.like_escape d) (String "%" (lit ++ "%")) s
  = Py.contains lit s.
Proof.
  intros Hp. cbn [Sql.like_match]. rewrite percent_not_escape.
  cbn [Ascii.eqb Bool.eqb].
  induction s as [|c s IH].
  - rewrite like_prefix by exact Hp. reflexivity.
  - rewrite like_prefix by exact Hp. cbn [Py.contains]. rewrite <- IH.
    reflexivity.
Qed.

Lemma lower_app (a b : string) : Py.lower (a ++ b) = Py.lower a ++ Py.lower b.
Proof. induction a as [|c a IH]; simpl; [| rewrite IH]; reflexivity. Qed.

Lemma plain_lower (c : ascii) : plain (Py.lower_char c) = plain c.
Proof. destruct c as [[] [] [] [] [] [] [] []]; reflexivity. Qed.

Lemma all_plain_lower (s : string) : all_plain (Py.lower s) = all_plain s.
Proof.
  induction s as [|c s IH]; simpl; [reflexivity |].
  rewrite plain_lower, IH. reflexivity.
Qed.

Lemma substring_filter d (text s : string) :
  all_plain text = true -> Py.contains "*" text = false ->
  Sql.ilike d (Project.substring_pattern text) s
  = Py.contains (Py.lower text) (Py.lower s).
Proof.
  intros Hp Hs. unfold Sql.ilike, Project.substring_pattern. rewrite Hs.
  change ("%" ++ text ++ "%") with (String "%" (text ++ "%")).
  cbn [Py.lower]. rewrite lower_app.
  change (Py.lower "%") with "%".
  change (Py.lower_char "%") with "%"%char.
  apply like_substring. rewrite all_plain_lower. exact Hp.
Qed.

(** X10.  On ASCII texts, a [name] or [log] filter of [Project.updated]
    that has no [*], no [%], no [_] and no backslash keeps the projects
    whose name, or whose logs, contain the text, whatever the case of the
    letters. *)
Theorem updated_text_is_contained s status (text : string) p :
  text <> "" -> all_plain text = true -> Py.contains "*" text = false ->
  ascii_only text = true -> ascii_projects (session_db s) ->
  (listed (ProjectRow p)
          (Project.updated s status (Some text) None PageNone false)
   <-> In p (db_projects (session_db s))
       /\ in_status status p = true
       /\ Py.contains (Py.lower text) (Py.lower (Project_name p)) = true)
  /\ (listed (ProjectRow p)
             (Project.updated s status None (Some text) PageNone false)
      <-> In p (db_projects (session_db s))
          /\ in_status status p = true
          /\ exists logs, Project_logs p = Some logs
                          /\ Py.contains (Py.lower text) (Py.lower logs) = true).
Proof.
  intros Hne Hp Hs _ _. rewrite !updated_lists_filtered. unfold text_filter.
  rewrite (given_nonempty Hne). cbn [given].
  split.
  - rewrite (@substring_filter _ text _ Hp Hs). tauto.
  - destruct (Project_logs p) as [logs|].
    + rewrite (@substring_filter _ text _ Hp Hs). split.
      * intros (H1 & H2 & _ & H3). eauto 6.
      * intros (H1 & H2 & l & [= <-] & H3). auto.
    + split.
      * intros (_ & _ & _ & H). discriminate.
      * intros (_ & _ & l & H & _). discriminate.
Qed.

Lemma updated_text_is_contained_witness :
  listed (ProjectRow Sample.zlib)
         (Project.updated Sample.session "updated" (Some "LIB") None PageNone false).
Proof.
  apply (@updated_text_is_contained Sample.session "updated" "LIB" Sample.zlib
           ltac:(discriminate) eq_refl eq_refl eq_refl
           (@sample_ascii_projects sqlite)).
  split; [simpl; tauto | split; reflexivity].
Defined.

(** ** [Project.by_distro] *)

Lemma packaged_in_test d (distro : string) (p : Project) (k : Packages) :
  Sql.keeps d
    [Eq_ (Column projects_id) (Column packages_project_id);
     Eq_ (Lower (Column packages_distro)) (Lower (Literal (VStr distro)))]
    (ProjectRow p, [PackagesRow k])
  = packaged_in distro p k.
Proof.
  unfold Sql.keeps, packaged_in, in_distro.
  cbn [forallb Sql.holds eval fst snd lookup field].
  destruct (Packages_project_id k) as [i|];
    destruct (Packages_distro k) as [x|];
    cbn [vint vstr Sql.text3 Sql.compare3 Sql.is_null orb Sql.value_eqb
         Sql.is_true andb];
    rewrite ?is_true_some, ?Bool.andb_true_r, ?Bool.andb_false_r;
    first [reflexivity | same_tests].
Qed.

Lemma lower_name_leb d (a b : Project) ja jb :
  Engine.order_leb d [Asc (Lower (Column projects_name))]
                   (ProjectRow a, ja) (ProjectRow b, jb) = true ->
  lower_name_ascending a b.
Proof.
  unfold Engine.order_leb, lower_name_ascending, text_ascending. simpl.
  destruct (String.compare _ _); congruence.
Qed.

(** X11.  On ASCII texts, [Project.by_distro] lists the stored projects
    that have a package in the distribution, the name of the distribution
    compared without regard to case.  The statement has no [DISTINCT]: with
    [count] it returns the number of pairs of a project and one of its
    packages there.  When no project has two packages there, the list is
    that of these projects, in the order of their case-folded names. *)
Theorem by_distro_lists s (distro : string) :
  ascii_only distro = true ->
  ascii_projects (session_db s) -> ascii_packages (session_db s) ->
  (forall p,
      listed (ProjectRow p) (Project.by_distro s distro PageNone false)
      <-> In p (db_projects (session_db s))
          /\ exists k, In k (db_packages (session_db s))
                       /\ packaged_in distro p k = true)
  /\ exists pairs,
      Permutation pairs
        (filter (fun pk => packaged_in distro (fst pk) (snd pk))
                (list_prod (db_projects (session_db s))
                           (db_packages (session_db s))))
      /\ Sorted (fun a b => lower_name_ascending (fst a) (fst b)) pairs
      /\ Project.by_distro s distro PageNone true
         = Ok (Count (Z.of_nat (List.length pairs)))
      /\ (NoDup (map (fun pk => ProjectRow (fst pk)) pairs) ->
          Project.by_distro s distro PageNone false
          = Ok (Rows (map (fun pk => ProjectRow (fst pk)) pairs))).
Proof.
  intros _ _ _.
  unfold Project.by_distro.
  cbn [Query.filter Query.order_by query app flat_map].
  cbn [_paginate_query page_truthy].
  split.
  - intros p.
    destruct (@listed_two_tables _ _ ProjectRow PackagesRow
                (db_projects (session_db s)) (db_packages (session_db s))
                s projects packages
                [Eq_ (Column projects_id) (Column packages_project_id);
                 Eq_ (Lower (Column packages_distro))
                     (Lower (Literal (VStr distro)))]
                [Asc (Lower (Column projects_name))] false
                (packaged_in distro) p
                ProjectRow_injective eq_refl eq_refl eq_refl
                (packaged_in_test (session_bind s) distro))
      as (rows & F & H).
    unfold listed, finish, Query.all. rewrite F. cbn [bind]. rewrite <- H.
    split.
    + intros (rows' & [= <-] & Hin). exact Hin.
    + intros Hin. eauto.
  - unfold finish, Query.all, Query.count.
    rewrite (@fetch_two_tables _ _ ProjectRow PackagesRow
               (db_projects (session_db s)) (db_packages (session_db s))
               s projects packages
               [Eq_ (Column projects_id) (Column packages_project_id);
                Eq_ (Lower (Column packages_distro))
                    (Lower (Literal (VStr distro)))]
               [Asc (Lower (Column projects_name))] false
               eq_refl eq_refl eq_refl).
    cbv zeta. cbn [bind].
    eexists. split; [| split; [| split; [| intros _; reflexivity]]].
    + eapply perm_trans; [apply sort_perm |].
      rewrite (filter_ext _ (fun pk => packaged_in distro (fst pk) (snd pk)));
        [apply Permutation_refl |].
      intros [p k]. apply packaged_in_test.
    + eapply Sorted_impl; [| apply sort_sorted].
      * intros a b. apply lower_name_leb.
      * intros a b. apply order_leb_total.
    + rewrite length_map. reflexivity.
Qed.

Lemma by_distro_lists_witness :
  listed (ProjectRow Sample.broken)
         (Project.by_distro Sample.session "FEDORA" PageNone false)
  /\ Project.by_distro Sample.session "FEDORA" PageNone true = Ok (Count 1).
Proof.
  destruct (@by_distro_lists Sample.session "FEDORA" eq_refl
              (@sample_ascii_projects sqlite) (@sample_ascii_packages sqlite))
    as [H1 _].
  split; [| vm_compute; reflexivity].
  apply H1. split; [simpl; tauto |].
  eexists. split; [left; reflexivity | vm_compute; reflexivity].
Defined.

(** ** [Project.all] and [Distro.all] *)

Lemma filter_all (A : Type) (P : A -> bool) (l : list A) :
  (forall x, P x = true) -> filter P l = l.
Proof.
  intros H. induction l as [|x l IH]; simpl; [reflexivity |].
  rewrite H, IH. reflexivity.
Qed.

Lemma distro_name_leb d (a b : Distro) ja jb :
  Engine.order_leb d [Asc (Column distros_name)]
                   (DistroRow a, ja) (DistroRow b, jb) = true ->
  text_ascending (Distro_name a) (Distro_name b).
Proof.
  unfold Engine.order_leb, text_ascending. simpl.
  destruct (String.compare _ _); congruence.
Qed.

(** The rows of the statements of [Project.all] and [Distro.all]. *)
Lemma project_all_rows s :
  exists found,
    Permutation found (db_projects (session_db s))
    /\ Sorted lower_name_ascending found
    /\ forall page count,
        Project.all s page count
        = finish (_paginate_query
                    (mkQuery s (Entity projects) []
                             [Asc (Lower (Column projects_name))] false None None)
                    page) count
    /\ Engine.fetch (mkQuery s (Entity projects) []
                             [Asc (Lower (Column projects_name))] false None None)
       = Ok (map ProjectRow found).
Proof.
  eexists. split; [| split; [| split; [reflexivity |]]].
  3: { rewrite (@fetch_one_table _ ProjectRow (db_projects (session_db s))
                  s projects [] _ false eq_refl eq_refl).
       cbv zeta. rewrite filter_all by reflexivity. reflexivity. }
  - apply sort_perm.
  - eapply Sorted_impl; [| apply sort_sorted].
    + intros a b. apply lower_name_leb.
    + intros a b. apply order_leb_total.
Qed.

Lemma distro_all_rows s :
  exists found,
    Permutation found (db_distros (session_db s))
    /\ Sorted (fun a b => text_ascending (Distro_name a) (Distro_name b)) found
    /\ forall page count,
        Distro.all s page count
        = finish (_paginate_query
                    (mkQuery s (Entity distros) []
                             [Asc (Column distros_name)] false None None)
                    page) count
    /\ Engine.fetch (mkQuery s (Entity distros) []
                             [Asc (Column distros_name)] false None None)
       = Ok (map DistroRow found).
Proof.
  eexists. split; [| split; [| split; [reflexivity |]]].
  3: { rewrite (@fetch_one_table _ DistroRow (db_distros (session_db s))
                  s distros [] _ false eq_refl eq_refl).
       cbv zeta. rewrite filter_all by reflexivity. reflexivity. }
  - apply sort_perm.
  - eapply Sorted_impl; [| apply sort_sorted].
    + intros a b. apply distro_name_leb.
    + intros a b. apply order_leb_total.
Qed.


Lemma window_length (A : Type) (n : Z) (l : list A) :
  1 <= n ->
  Z.of_nat (List.length (firstn (Z.to_nat 50) (skipn (Z.to_nat ((n - 1) * 50)) l)))
  = Z.min 50 (Z.max 0 (Z.of_nat (List.length l) - 50 * (n - 1))).
Proof.
  intros Hn. rewrite length_firstn, length_skipn. lia.
Qed.



Lemma negative_page_fetch s f c o d n rows :
  Engine.fetch (mkQuery s f c o d None None) = Ok rows -> n < 0 ->
  Engine.fetch (mkQuery s f c o d (Some 50) (Some ((n - 1) * 50)))
  = if is_postgresql (session_bind s)
    then Raise (DataError "OFFSET must not be negative")
    else Engine.fetch (mkQuery s f c o d (Some 50) (Some ((1 - 1) * 50))).
Proof.
  intros F Hn.
  rewrite (fetch_sliced s f c o d (Some 50) (Some ((n - 1) * 50))).
  rewrite (fetch_sliced s f c o d (Some 50) (Some ((1 - 1) * 50))).
  rewrite F. cbn [bind]. unfold Engine.slice.
  assert (E : ((n - 1) * 50 <? 0) = true) by (apply Z.ltb_lt; lia).
  rewrite E.
  replace (Z.to_nat ((n - 1) * 50)) with 0%nat by lia.
  destruct (is_postgresql (session_bind s)); reflexivity.
Qed.

Lemma negative_page_finish s f c o d page n rows count :
  Engine.fetch (mkQuery s f c o d None None) = Ok rows ->
  int_ page = Some n -> n < 0 ->
  if is_postgresql (session_bind s)
  then exists message,
      finish (_paginate_query (mkQuery s f c o d None None) page) count
      = Raise (DataError message)
  else finish (_paginate_query (mkQuery s f c o d None None) page) count
       = finish (_paginate_query (mkQuery s f c o d None None) (PageInt 1)) count.
Proof.
  intros F Hint Hn.
  rewrite (@paginate_query_nonzero _ page n Hint) by lia.
  rewrite (@paginate_query_nonzero _ (PageInt 1) 1 eq_refl) by lia.
  unfold finish, Query.count, Query.all, Query.limit, Query.offset.
  rewrite (negative_page_fetch _ _ _ _ _ F Hn).
  destruct (is_postgresql (session_bind s)); [| reflexivity].
  destruct count; cbn [bind]; eauto.
Qed.



(** ** [BaseQuery.paginate] past the last page *)

(** X15.  A page past the last one is no error: for a query whose rows
    are distinct, and a page size and an offset within the 64 bits the
    engines take, [paginate] returns a page without items, which still
    carries the number of all the rows. *)
Theorem paginate_past_the_end self page items_per_page order_by R :
  1 <= page -> 1 <= items_per_page < 2 ^ 63 ->
  items_per_page * (page - 1) < 2 ^ 63 ->
  q_limit self = None -> q_offset self = None ->
  Query.all (Query.order_by self (BaseQuery.as_tuple order_by)) = Ok R ->
  NoDup R ->
  Z.of_nat (List.length R) <= items_per_page * (page - 1) ->
  BaseQuery.paginate self (Some page) (Some items_per_page) order_by
  = Ok {| items := []; page := page; items_per_page := items_per_page;
          total_items := Z.of_nat (List.length R) |}.
Proof.
  intros Hp [Hn _] _ Hl Ho HR _ Hend.
  rewrite (@paginate_valid self page items_per_page order_by R Hp Hn Hl Ho HR).
  rewrite skipn_all2 by lia. rewrite firstn_nil. reflexivity.
Qed.

Lemma paginate_past_the_end_witness :
  BaseQuery.paginate (query Sample.session projects) (Some 3) (Some 5) OrderNone
  = Ok {| items := []; page := 3; items_per_page := 5; total_items := 5 |}.
Proof.
  assert (HD : NoDup (map ProjectRow (db_projects Sample.db))).
  { repeat constructor; cbn [map In db_projects Sample.db];
      intros H; repeat destruct H as [H | H]; try discriminate H; exact H. }
  apply (@paginate_past_the_end (query Sample.session projects) 3 5 OrderNone
           (map ProjectRow (db_projects Sample.db)));
    [lia | lia | lia | reflexivity | reflexivity | reflexivity | exact HD
    | simpl; lia].
Defined.

(** ** [Project.search]: the rows, whatever the arguments *)

(** The rows of a statement on a mapped class are rows of its table. *)
Lemma fetch_entity_rows s cls c o d rows r :
  Engine.fetch (mkQuery s (Entity cls) c o d None None) = Ok rows ->
  In r rows -> In r (table_rows (session_db s) cls).
Proof.
  rewrite fetch_entity. cbv zeta. intros [= <-] H.
  assert (M : In r (map fst
                      (Engine.sort (Engine.order_leb (session_bind s) o)
                         (filter (Sql.keeps (session_bind s) c)
                            (Engine.from_rows (session_db s) cls c))))).
  { destruct d; [apply (proj1 (In_unique _ _)) in H |]; exact H. }
  apply in_map_iff in M. destruct M as ([a j] & E & M). simpl in E. subst a.
  apply sort_in, filter_In in M. destruct M as [M _].
  unfold Engine.from_rows in M. apply in_flat_map in M.
  destruct M as (x & Hx & M). apply in_map_iff in M.
  destruct M as (y & [= <- _] & _). exact Hx.
Qed.

Lemma NoDup_unique (rows : list row) : NoDup (Engine.unique rows).
Proof.
  induction rows as [|r rows IH]; simpl; constructor.
  - rewrite filter_In. intros [_ H].
    destruct (row_eq_dec r r); [discriminate | contradiction].
  - apply NoDup_filter, IH.
Qed.

(** The rows of a union, ordered or not. *)
Lemma fetch_union s q1 q2 order rows1 rows2 :
  Engine.fetch q1 = Ok rows1 ->
  Engine.fetch q2 = Ok rows2 ->
  Engine.fetch (mkQuery s (Union q1 q2) [] order false None None)
  = Ok (Engine.sort
          (fun a b => Engine.order_leb (session_bind s) order (a, []) (b, []))
          (Engine.unique (rows1 ++ rows2))).
Proof.
  intros F1 F2. cbn [Engine.fetch]. rewrite F1, F2. cbn [bind].
  rewrite slice_none. rewrite filter_all by reflexivity.
  rewrite sort_map, map_map. cbn [fst]. rewrite map_id. reflexivity.
Qed.

(** The statement [Project.search] builds: the union of two [DISTINCT]
    statements on the projects, ordered by name. *)
Lemma project_search_query s pattern distro :
  exists c1 c2,
    forall page count,
      Project.search s pattern distro page count
      = finish (_paginate_query
                  (mkQuery s
                     (Union (mkQuery s (Entity projects) c1 [] true None None)
                            (mkQuery s (Entity projects) c2 [] true None None))
                     [] [Asc (Column projects_name)] false None None)
                  page) count.
Proof.
  unfold Project.search.
  destruct (given pattern) as [pat|] eqn:G; cbv zeta.
  - destruct (given (Some _)) as [pat'|];
      [destruct (Py.contains "%" pat') |];
      destruct distro; do 2 eexists; intros; reflexivity.
  - rewrite G. destruct distro; do 2 eexists; intros; reflexivity.
Qed.

Lemma project_name_leb d (a b : Project) ja jb :
  Engine.order_leb d [Asc (Column projects_name)]
                   (ProjectRow a, ja) (ProjectRow b, jb) = true ->
  name_ascending a b.
Proof.
  unfold Engine.order_leb, name_ascending, text_ascending. simpl.
  destruct (String.compare _ _); congruence.
Qed.

(** A list of rows of the projects table is the image of a list of stored
    projects. *)
Lemma project_rows (db : Database) (rows : list row) :
  (forall r, In r rows -> In r (table_rows db projects)) ->
  exists found, rows = map ProjectRow found
                /\ forall p, In p found -> In p (db_projects db).
Proof.
  induction rows as [|r rows IH]; intros H.
  - exists []. split; [reflexivity | intros p []].
  - destruct IH as (found & -> & Hf); [intros x Hx; apply H; right; exact Hx |].
    pose proof (H r (or_introl eq_refl)) as Hr. simpl in Hr.
    apply in_map_iff in Hr. destruct Hr as (p & <- & Hp).
    exists (p :: found). split; [reflexivity |].
    intros q [<- | Hq]; auto.
Qed.

Lemma NoDup_unmap (A B : Type) (f : A -> B) (l : list A) :
  NoDup (map f l) -> NoDup l.
Proof.
  induction l as [|x l IH]; simpl; intros H; constructor;
    inversion H as [|y l' Hn Hd]; subst.
  - intros Hx. apply Hn, in_map, Hx.
  - apply IH, Hd.
Qed.



Lemma match_any_test d (p : Project) (k : Packages) :
  Sql.keeps d [Eq_ (Column projects_id) (Column packages_project_id)]
            (ProjectRow p, [PackagesRow k])
  = match Packages_project_id k with
    | Some i => Project_id p =? i
    | None => false
    end.
Proof.
  unfold Sql.keeps. cbn [forallb Sql.holds eval fst snd lookup field].
  destruct (Packages_project_id k) as [i|];
    cbn [vint Sql.compare3 Sql.is_null orb Sql.value_eqb]; [| reflexivity].
  rewrite is_true_some. apply Bool.andb_true_r.
Qed.



(** ** [GUID]: binding a text *)

Lemma UUID_in_range (s : string) (u : uuid.UUID) :
  uuid.UUID_ s = Ok u -> 0 <= uuid.int u < 2 ^ 128.
Proof.
  unfold uuid.UUID_. cbv zeta.
  destruct (negb _); [discriminate |].
  destruct (uuid.int16 _) as [n|]; [| discriminate].
  destruct (0 <=? n) eqn:A; [| discriminate].
  destruct (n <? 2 ^ 128) eqn:B; [| discriminate].
  intros [= <-]. cbn [uuid.int]. lia.
Qed.

Lemma UUID_raises (s : string) (e : exn) :
  uuid.UUID_ s = Raise e -> exists message, e = ValueError message.
Proof.
  unfold uuid.UUID_. cbv zeta.
  destruct (negb _); [intros [= <-]; eauto |].
  destruct (uuid.int16 _) as [n|]; [| intros [= <-]; eauto].
  destruct (_ && _); [discriminate | intros [= <-]; eauto].
Qed.

(** X18.  For a text of printable ASCII characters and blanks, without
    underscore: on an engine other than PostgreSQL, [process_bind_param]
    reads the text as [uuid.UUID] does.  A text that is a UUID in any of its
    forms is bound as the 32 digits [0-9a-f] of its number;
    [process_result_value] gives the UUID back from them, and binding them
    again changes nothing.  Any other text is a [ValueError].  On PostgreSQL
    the text is bound as it is, a UUID or not. *)
Theorem guid_bind_text (s : string) (dialect : Dialect) :
  unambiguous s = true ->
  (dialect_name dialect <> "postgresql" ->
   match uuid.UUID_ s with
   | Ok u =>
       0 <= uuid.int u < 2 ^ 128
       /\ exists h,
           GUID.process_bind_param (GuidStr s) dialect = Ok (Some h)
           /\ String.length h = 32%nat
           /\ all_chars is_lower_hex h = true
           /\ GUID.process_result_value (Some h) dialect = Ok (Some u)
           /\ GUID.process_bind_param (GuidStr h) dialect = Ok (Some h)
   | Raise e =>
       (exists message, e = ValueError message)
       /\ GUID.process_bind_param (GuidStr s) dialect = Raise e
   end)
  /\ (dialect_name dialect = "postgresql" ->
      GUID.process_bind_param (GuidStr s) dialect = Ok (Some s)).
Proof.
  intros _. split.
  - intros Hd. apply String.eqb_neq in Hd.
    unfold GUID.process_bind_param, GUID.process_result_value. rewrite Hd.
    destruct (uuid.UUID_ s) as [u | e] eqn:E.
    + pose proof (UUID_in_range _ E) as Hn. split; [exact Hn |].
      destruct (format_32x_digits Hn) as (Hlen & Hhex & Hnum).
      pose proof (UUID_of_digits _ Hlen Hhex Hnum Hn) as Hdig.
      exists (uuid.format_32x (uuid.int u)).
      rewrite Hdig. cbn [bind uuid.int]. destruct u. repeat split; assumption.
    + split; [exact (UUID_raises _ E) | reflexivity].
  - intros Hd. apply String.eqb_eq in Hd.
    unfold GUID.process_bind_param, GUID.str_. rewrite Hd. reflexivity.
Qed.

Lemma guid_bind_text_witness :
  GUID.process_bind_param (GuidStr "{ABCDEF01-2345-6789-abcd-ef0123456789}") sqlite
  = Ok (Some "abcdef0123456789abcdef0123456789")
  /\ exists message,
      GUID.process_bind_param (GuidStr "anitya") sqlite
      = Raise (ValueError message).
Proof.
  pose proof (proj1 (@guid_bind_text "{ABCDEF01-2345-6789-abcd-ef0123456789}"
                                     sqlite eq_refl) ltac:(discriminate)) as H1.
  pose proof (proj1 (@guid_bind_text "anitya" sqlite eq_refl)
                    ltac:(discriminate)) as H2.
  assert (E1 : uuid.UUID_ "{ABCDEF01-2345-6789-abcd-ef0123456789}"
               = Ok {| uuid.int := 228367255721259569362527394270995113865 |})
    by (vm_compute; reflexivity).
  assert (E2 : uuid.UUID_ "anitya"
               = Raise (ValueError "badly formed hexadecimal UUID string"))
    by (vm_compute; reflexivity).
  rewrite E1 in H1. rewrite E2 in H2.
  destruct H1 as (_ & h & H1 & _), H2 as (_ & H2).
  assert (Eh : h = "abcdef0123456789abcdef0123456789").
  { vm_compute in H1. injection H1 as <-. reflexivity. }
  subst h. split; [exact H1 | eexists; exact H2].
Defined.

(** ** [User] *)

Lemma text_of_none_is_no_uuid (u : uuid.UUID) :
  0 <= uuid.int u < 2 ^ 128 -> uuid.str u <> "None".
Proof.
  intros Hn E. pose proof (UUID_of_str u Hn) as H. rewrite E in H.
  vm_compute in H. discriminate.
Qed.

(** X19.  [User.get_id] tells users apart: two users whose ids are 128-bit
    UUIDs, or are still [None], have the same text only when they have the
    same id.  [User.admin] looks for that very text in the configured list,
    so that it is the same for two users of the same id, and is [False] when
    the configuration has no list. *)
Theorem user_get_id_identifies (a b : User) admins :
  (forall u, User_id a = Some u \/ User_id b = Some u ->
             0 <= uuid.int u < 2 ^ 128) ->
  (User.get_id a = User.get_id b <-> User_id a = User_id b)
  /\ (User.admin admins a = true
      <-> exists l, admins = Some l /\ In (User.get_id a) l)
  /\ (User_id a = User_id b -> User.admin admins a = User.admin admins b).
Proof.
  intros V. split; [| split].
  - unfold User.get_id, User.text_id. split.
    + destruct (User_id a) as [u|] eqn:A, (User_id b) as [v|] eqn:B; intros E.
      * pose proof (UUID_of_str u (V u (or_introl eq_refl))) as Hu.
        pose proof (UUID_of_str v (V v (or_intror eq_refl))) as Hv.
        rewrite E, Hv in Hu. congruence.
      * exfalso. exact (text_of_none_is_no_uuid u (V u (or_introl eq_refl)) E).
      * exfalso. symmetry in E.
        exact (text_of_none_is_no_uuid v (V v (or_intror eq_refl)) E).
      * reflexivity.
    + intros ->. reflexivity.
  - unfold User.admin, User.get_id. destruct admins as [l|]; simpl.
    + rewrite existsb_exists. split.
      * intros (x & Hx & E). apply String.eqb_eq in E. subst x. eauto.
      * intros (l' & [= <-] & H). exists (User.text_id a).
        split; [exact H | apply String.eqb_refl].
    + split; [discriminate | intros (l & H & _); discriminate].
  - unfold User.admin, User.text_id. intros ->. reflexivity.
Qed.

Lemma user_get_id_identifies_witness :
  let u := {| uuid.int := 24197857161011715162171839636988778104 |} in
  let a := {| User_id := Some u; User_email := "a@example.org";
              User_username := "a"; User_active := Some true |} in
  let b := {| User_id := None; User_email := "b@example.org";
              User_username := "b"; User_active := None |} in
  User.get_id a <> User.get_id b
  /\ User.admin (Some ["12345678-1234-5678-1234-567812345678"]) a = true.
Proof.
  intros u a b.
  assert (V : forall v, User_id a = Some v \/ User_id b = Some v ->
                        0 <= uuid.int v < 2 ^ 128).
  { intros v [[= <-] | H]; [simpl; lia | discriminate]. }
  destruct (@user_get_id_identifies a b
              (Some ["12345678-1234-5678-1234-567812345678"]) V)
    as (H1 & H2 & _).
  split.
  - intros E. apply H1 in E. discriminate.
  - apply H2. eexists. split; [reflexivity |]. left. vm_compute. reflexivity.
Defined.
